(** * Nutrition Advisor front end: a shallow embedding of the page scripts

    The repository is the browser side of a nutrition tracker: a
    configuration resolver, the authentication forms of the home page,
    and the dashboard script (meal list, food search, nutrition preview,
    profile goals, charts).  Each script function is embedded as a Rocq
    function over an explicit browser state; what the browser, the user
    and the server contribute is an explicit input.

    Conventions of the embedding:
    - JavaScript values are the inductive type [js]; numbers are IEEE 754
      doubles, represented by Rocq's primitive floats;
    - a text is represented by its UTF-8 encoding, one [ascii] per
      byte, as the string literals of this file are; [js_length]
      counts its UTF-16 code units, which is what [.length] yields;
    - host built-ins whose exact output no property below depends on
      (number printing, string-to-number conversion, [parseInt],
      [parseFloat], [JSON.stringify]) are fields of the class [Host];
    - an [await] is run to completion in program order; the interleaving
      of several pending handlers is outside the model;
    - console output is not part of the state, and the layout whitespace
      of markup templates is left out. *)

From Stdlib Require Import String Ascii List ZArith Bool Lia DecimalString Floats.
From stdpp Require Import base option gmap strings.
Import ListNotations.

Local Open Scope list_scope.
Local Open Scope string_scope.
Set Warnings "-inexact-float".

(** ** JavaScript values *)

#[warnings="-register-all"]
Inductive js : Type :=
| VUndef
| VNull
| VBool (b : bool)
| VNum (n : float)
| VStr (s : string)
| VArr (xs : list js)
| VObj (fields : list (string * js)).

(** Built-ins of the host taken as given. *)
Class Host : Type := {
  num_to_string : float -> string;
  string_to_number : string -> float;
  parseInt : string -> float;
  parseFloat : string -> float;
  JSON_stringify : js -> string;
  encodeURIComponent : string -> string
}.

(** [!n] on a number: NaN and the zeros are falsy. *)
Definition num_falsy (n : float) : bool :=
  PrimFloat.is_nan n || (n =? 0)%float.

(** Truthiness, as used by [if (x)], [!x] and [x || y]. *)
Definition truthy (v : js) : bool :=
  match v with
  | VUndef | VNull => false
  | VBool b => b
  | VNum n => negb (num_falsy n)
  | VStr s => negb (String.eqb s "")
  | VArr _ | VObj _ => true
  end.

(** [a || b] *)
Definition js_or (a b : js) : js := if truthy a then a else b.

Definition isArray (v : js) : bool :=
  match v with VArr _ => true | _ => false end.

Fixpoint assoc (k : string) (fs : list (string * js)) : js :=
  match fs with
  | [] => VUndef
  | (k', v) :: rest => if String.eqb k k' then v else assoc k rest
  end.

(** *** Text

    The number of UTF-16 code units a UTF-8 byte contributes: a byte
    below 128 is a character of its own, the bytes from 128 to 191
    continue a character, a lead byte below 240 starts a character of
    the basic plane (one unit), and a lead byte from 240 on starts a
    character beyond it (a surrogate pair, two units). *)
Definition utf16_units (c : ascii) : nat :=
  let b := nat_of_ascii c in
  if (b <? 128)%nat then 1
  else if (b <? 192)%nat then 0
  else if (b <? 240)%nat then 1
  else 2.

(** [s.length] on a string. *)
Fixpoint js_length (s : string) : nat :=
  match s with
  | EmptyString => 0
  | String c rest => utf16_units c + js_length rest
  end.

(** The text with the given bytes. *)
Definition of_bytes (bytes : list nat) : string :=
  string_of_list_ascii (List.map ascii_of_nat bytes).

(** The characters [String.prototype.trim] strips, in UTF-8: the white
    space and line terminator code points of the language, U+0009 to
    U+000D, U+0020, U+00A0, U+1680, U+2000 to U+200A, U+2028, U+2029,
    U+202F, U+205F, U+3000 and U+FEFF. *)
Definition white_space : list string :=
  List.map of_bytes
    [ [9]; [10]; [11]; [12]; [13]; [32];
      [194; 160];
      [225; 154; 128];
      [226; 128; 128]; [226; 128; 129]; [226; 128; 130]; [226; 128; 131];
      [226; 128; 132]; [226; 128; 133]; [226; 128; 134]; [226; 128; 135];
      [226; 128; 136]; [226; 128; 137]; [226; 128; 138];
      [226; 128; 168]; [226; 128; 169]; [226; 128; 175];
      [226; 129; 159];
      [227; 128; 128];
      [239; 187; 191] ]%nat.

(** [s] is one white space character. *)
Definition is_space (s : string) : bool := existsb (String.eqb s) white_space.

(** [s.trimStart()]: the encodings of the white space characters are
    one, two or three bytes long, and none begins another. *)
Fixpoint trim_start (s : string) : string :=
  match s with
  | EmptyString => EmptyString
  | String a r1 =>
      if is_space (String a EmptyString) then trim_start r1
      else
        match r1 with
        | EmptyString => s
        | String b r2 =>
            if is_space (String a (String b EmptyString)) then trim_start r2
            else
              match r2 with
              | EmptyString => s
              | String c r3 =>
                  if is_space (String a (String b (String c EmptyString)))
                  then trim_start r3
                  else s
              end
        end
  end.

(** [s.trimEnd()]: what follows a byte is trimmed first; the byte goes
    when it then completes a white space character at the end. *)
Fixpoint trim_end (s : string) : string :=
  match s with
  | EmptyString => EmptyString
  | String c rest =>
      let kept := String c (trim_end rest) in
      if is_space kept then EmptyString else kept
  end.

(** [s.trim()] *)
Definition trim (s : string) : string := trim_end (trim_start s).

(** *** Inherited members

    The names every object inherits from [Object.prototype]: a read
    [obj[k]] with a computed key finds them when [obj] has no own
    property [k]. *)
Definition Object_prototype : list string :=
  [ "constructor"; "hasOwnProperty"; "isPrototypeOf"; "propertyIsEnumerable";
    "toLocaleString"; "toString"; "valueOf"; "__proto__";
    "__defineGetter__"; "__defineSetter__"; "__lookupGetter__";
    "__lookupSetter__" ].

Definition inherited (k : string) : bool := existsb (String.eqb k) Object_prototype.

(** What [obj[k]] finds on an object literal: an own property, a member
    of [Object.prototype] (a function, or for [__proto__] the prototype
    itself), or nothing. *)
Inductive Member : Type :=
| Own (v : js)
| Inherited
| Absent.

Definition member (k : string) (fs : list (string * js)) : Member :=
  match List.find (fun '(k', _) => String.eqb k k') fs with
  | Some (_, v) => Own v
  | None => if inherited k then Inherited else Absent
  end.

(** Exceptions a script can observe. *)
Inductive Exn : Type :=
| TypeError
| FetchRejected
| JsonRejected
| ErrorMsg (msg : string).

(** [error.message]; the text of engine-raised errors is engine-defined
    and represented by the error's name. *)
Definition message (e : Exn) : string :=
  match e with
  | TypeError => "TypeError"
  | FetchRejected => "Failed to fetch"
  | JsonRejected => "SyntaxError"
  | ErrorMsg m => m
  end.

(** Property read [v.k].  Reading from [undefined] or [null] throws; an
    object yields the field or [undefined]; the property names these
    scripts read are not defined on primitives or arrays, and none is
    a member of [Object.prototype]. *)
Definition get_prop (v : js) (k : string) : Exn + js :=
  match v with
  | VUndef | VNull => inl TypeError
  | VObj fs => inr (assoc k fs)
  | _ => inr VUndef
  end.

(** Index read [v[0]] on an array. *)
Definition first (xs : list js) : js :=
  match xs with
  | [] => VUndef
  | x :: _ => x
  end.

Section Conversions.
Context `{Host}.

Fixpoint join (sep : string) (parts : list string) : string :=
  match parts with
  | [] => ""
  | [p] => p
  | p :: rest => p ++ sep ++ join sep rest
  end.

(** ToString. *)
Fixpoint to_string (v : js) : string :=
  match v with
  | VUndef => "undefined"
  | VNull => "null"
  | VBool true => "true"
  | VBool false => "false"
  | VNum n => num_to_string n
  | VStr s => s
  | VArr xs =>
      join "," (List.map (fun x =>
                  match x with
                  | VUndef | VNull => ""
                  | _ => to_string x
                  end) xs)
  | VObj _ => "[object Object]"
  end.

(** ToNumber. *)
Definition to_number (v : js) : float :=
  match v with
  | VUndef => PrimFloat.nan
  | VNull => 0
  | VBool true => 1
  | VBool false => 0
  | VNum n => n
  | VStr s => string_to_number s
  | VArr _ | VObj _ => string_to_number (to_string v)
  end.
End Conversions.

Local Open Scope float_scope.

(** 2^52: from here on every double is an integer. *)
Definition two52 : float := 4503599627370496.

(** [Math.floor]: a zero keeps its sign; the integer nearest to |x| is
    |x| + 2^52 - 2^52; it is stepped down to the floor of |x|, or, for
    a negative [x], up to the ceiling of |x|. *)
Definition Math_floor (x : float) : float :=
  let a := PrimFloat.abs x in
  if x =? 0 then x
  else if a <? two52 then
    let nearest := a + two52 - two52 in
    let below := if a <? nearest then nearest - 1 else nearest in
    if x <? 0 then - (if below <? a then below + 1 else below) else below
  else x.

(** [Math.round]: the nearest integer, ties towards plus infinity; a
    zero keeps its sign, and -0 stands for the numbers from -0.5 up. *)
Definition Math_round (x : float) : float :=
  if x =? 0 then x
  else if (x <? 0) && (-0.5 <=? x) then -0
  else
    let r := Math_floor x in
    if 0.5 <=? x - r then r + 1 else r.

(** [Math.min] of two numbers: NaN when either is, and -0 below +0. *)
Definition Math_min (a b : float) : float :=
  if b <? a then b
  else if PrimFloat.is_nan b then b
  else if (a =? b) && (1 / b <? 0) then b
  else a.

Local Close Scope float_scope.

(** ** The configuration resolver (config script) *)

Module Config.

Record Features : Type := {
  AI_ENABLED : bool;
  DEBUG_MODE : bool;
  ANALYTICS : bool;
  SERVICE_WORKER : bool
}.

Record Timeouts : Type := {
  DEFAULT : Z;
  UPLOAD : Z;
  AI_REQUEST : Z
}.

Record StorageKeys : Type := {
  JWT_TOKEN : string;
  USER_PREFERENCES : string;
  THEME : string
}.

Record t : Type := {
  ENVIRONMENT : string;
  API_BASE_URL : string;
  FRONTEND_URL : string;
  FEATURES : Features;
  TIMEOUTS : Timeouts;
  STORAGE_KEYS : StorageKeys
}.

(** [window.location.hostname === 'localhost' ||
     window.location.hostname === '127.0.0.1'] *)
Definition local_host (hostname : string) : bool :=
  String.eqb hostname "localhost" || String.eqb hostname "127.0.0.1".

Definition CONFIG (hostname : string) : t := {|
  ENVIRONMENT := if local_host hostname then "development" else "production";
  API_BASE_URL :=
    if local_host hostname then "http://localhost:5000"
    else "https://nutrition-advisor-a93q.onrender.com";
  FRONTEND_URL :=
    if local_host hostname then "http://localhost:3000"
    else "https://nutrition-advisor-frontend.onrender.com";
  FEATURES := {|
    AI_ENABLED := true;
    DEBUG_MODE := String.eqb hostname "localhost";
    ANALYTICS := negb (String.eqb hostname "localhost");
    SERVICE_WORKER := negb (String.eqb hostname "localhost")
  |};
  TIMEOUTS := {|
    DEFAULT := if String.eqb hostname "localhost" then 5000%Z else 10000%Z;
    UPLOAD := 30000;
    AI_REQUEST := 15000
  |};
  STORAGE_KEYS := {|
    JWT_TOKEN := "nutrition_advisor_token";
    USER_PREFERENCES := "nutrition_advisor_prefs";
    THEME := "nutrition_advisor_theme"
  |}
|}.

(** [`${base}${endpoint.startsWith('/') ? '' : '/'}${endpoint}`] *)
Definition url_join (base endpoint : string) : string :=
  base ++ (if String.prefix "/" endpoint then "" else "/") ++ endpoint.

Definition getApiUrl (c : t) (endpoint : string) : string :=
  url_join (API_BASE_URL c) endpoint.

Definition isLocal (c : t) : bool := String.eqb (ENVIRONMENT c) "development".
Definition isProduction (c : t) : bool := String.eqb (ENVIRONMENT c) "production".

End Config.

(** ** The browser state *)

(** The part of a DOM element the scripts read and write. *)
Record Element : Type := {
  textContent : string;
  className : string;
  display : string;
  value : string;
  innerHTML : string
}.

Definition set_textContent (s : string) (e : Element) : Element :=
  {| textContent := s; className := className e; display := display e;
     value := value e; innerHTML := innerHTML e |}.

Definition set_className (s : string) (e : Element) : Element :=
  {| textContent := textContent e; className := s; display := display e;
     value := value e; innerHTML := innerHTML e |}.

Definition set_display (s : string) (e : Element) : Element :=
  {| textContent := textContent e; className := className e; display := s;
     value := value e; innerHTML := innerHTML e |}.

Definition set_value (s : string) (e : Element) : Element :=
  {| textContent := textContent e; className := className e; display := display e;
     value := s; innerHTML := innerHTML e |}.

Definition set_innerHTML (s : string) (e : Element) : Element :=
  {| textContent := textContent e; className := className e; display := display e;
     value := value e; innerHTML := s |}.

(** An HTTP request as the scripts build it. *)
Record Request : Type := {
  url : string;
  method : string;
  authorization : option string;
  body : option string
}.

(** What [fetch] yields: a rejection, or a response with its status and,
    when the body parses as JSON, the parsed body. *)
Inductive FetchOutcome : Type :=
| NetworkError
| Response (status : nat) (json : option js).

(** [response.ok] *)
Definition ok (status : nat) : bool := (200 <=? status)%nat && (status <=? 299)%nat.

(** Functions handed to [setTimeout]. *)
Inductive Callback : Type :=
| CbShowLogin
| CbGoDashboard
| CbClearMessage (elementId : string)
| CbCloseModal.

(** Observable actions, in the order the script performs them. *)
Inductive Effect : Type :=
| Fetch (r : Request)
| Alert (msg : string)
| Confirm (msg : string)
| Navigate (href : string)
| SetTimeout (cb : Callback) (ms : nat)
| FormReset (form : string)
| ScrollIntoView (elementId : string)
| FillText (canvasId : string) (text : string).

(** A chart drawn by the charting library: the canvas it occupies, its
    type, and whether it is still rendered ([destroy] ends that). *)
Record ChartInstance : Type := {
  canvas : string;
  kind : string;
  live : bool
}.

(** The document maps element ids (and the selector [.loading]) to
    elements; the trace grows at its end.  [charts] lists the chart
    instances in creation order; [macrosChart] and [caloriesChart] are
    the dashboard script's two handles, an index into [charts] or
    [None] for [null]. *)
Record World : Type := {
  localStorage : gmap string string;
  document : gmap string Element;
  trace : list Effect;
  charts : list ChartInstance;
  macrosChart : option nat;
  caloriesChart : option nat
}.

Definition with_storage (s : gmap string string) (w : World) : World :=
  {| localStorage := s; document := document w; trace := trace w;
     charts := charts w; macrosChart := macrosChart w;
     caloriesChart := caloriesChart w |}.

Definition with_document (d : gmap string Element) (w : World) : World :=
  {| localStorage := localStorage w; document := d; trace := trace w;
     charts := charts w; macrosChart := macrosChart w;
     caloriesChart := caloriesChart w |}.

Definition log (e : Effect) (w : World) : World :=
  {| localStorage := localStorage w; document := document w;
     trace := trace w ++ [e];
     charts := charts w; macrosChart := macrosChart w;
     caloriesChart := caloriesChart w |}.

Definition with_charts (cs : list ChartInstance) (w : World) : World :=
  {| localStorage := localStorage w; document := document w; trace := trace w;
     charts := cs; macrosChart := macrosChart w;
     caloriesChart := caloriesChart w |}.

Definition with_macrosChart (h : option nat) (w : World) : World :=
  {| localStorage := localStorage w; document := document w; trace := trace w;
     charts := charts w; macrosChart := h;
     caloriesChart := caloriesChart w |}.

Definition with_caloriesChart (h : option nat) (w : World) : World :=
  {| localStorage := localStorage w; document := document w; trace := trace w;
     charts := charts w; macrosChart := macrosChart w;
     caloriesChart := h |}.

(** What the page, the server, the user and the clock contribute. *)
Record Env : Type := {
  hostname : string;
  config_loaded : bool;
  server : nat -> Request -> FetchOutcome;
  user_confirms : string -> bool;
  now_iso : string
}.

Definition is_fetch (e : Effect) : bool :=
  match e with Fetch _ => true | _ => false end.

(** The requests issued so far, oldest first. *)
Fixpoint requests (t : list Effect) : list Request :=
  match t with
  | [] => []
  | Fetch r :: rest => r :: requests rest
  | _ :: rest => requests rest
  end.

(** ** Script computations: state and exceptions *)

Inductive Outcome (A : Type) : Type :=
| Done (a : A) (w : World)
| Thrown (e : Exn) (w : World).
Arguments Done {A} a w.
Arguments Thrown {A} e w.

Definition M (A : Type) : Type := World -> Outcome A.

Definition ret {A} (a : A) : M A := fun w => Done a w.

Definition bind {A B} (m : M A) (k : A -> M B) : M B :=
  fun w => match m w with
           | Done a w' => k a w'
           | Thrown e w' => Thrown e w'
           end.

Definition throw {A} (e : Exn) : M A := fun w => Thrown e w.

(** [try { body } catch (error) { handler }] *)
Definition try_catch {A} (body : M A) (handler : Exn -> M A) : M A :=
  fun w => match body w with
           | Done a w' => Done a w'
           | Thrown e w' => handler e w'
           end.

Definition lift {A} (r : Exn + A) : M A :=
  match r with
  | inl e => throw e
  | inr a => ret a
  end.

Definition effect (e : Effect) : M unit := fun w => Done tt (log e w).

Definition when (b : bool) (m : M unit) : M unit := if b then m else ret tt.

Notation "'let*' x ':=' m 'in' k" := (bind m (fun x => k))
  (at level 10, x pattern, m at level 100, k at level 200).
Notation "m '>>' k" := (bind m (fun _ => k))
  (at level 90, right associativity).

(** The world an outcome ends in. *)
Definition world_of {A} (o : Outcome A) : World :=
  match o with
  | Done _ w => w
  | Thrown _ w => w
  end.

(** [if (element)] on the result of a DOM lookup. *)
Definition present {A} (o : option A) : bool :=
  match o with
  | Some _ => true
  | None => false
  end.

Definition getElementById (id : string) : M (option Element) :=
  fun w => Done (document w !! id) w.

(** [document.getElementById(id).field = ...]: throws when the element
    is missing. *)
Definition update (id : string) (f : Element -> Element) : M unit :=
  fun w => match document w !! id with
           | Some e => Done tt (with_document (<[id := f e]> (document w)) w)
           | None => Thrown TypeError w
           end.

(** The same write behind an [if (element)] guard. *)
Definition update_if_present (id : string) (f : Element -> Element) : M unit :=
  fun w => match document w !! id with
           | Some e => Done tt (with_document (<[id := f e]> (document w)) w)
           | None => Done tt w
           end.

Definition setItem (k v : string) : M unit :=
  fun w => Done tt (with_storage (<[k := v]> (localStorage w)) w).

Definition removeItem (k : string) : M unit :=
  fun w => Done tt (with_storage (delete k (localStorage w)) w).

Section Network.
Variable env : Env.

(** [await fetch(url, options)]: the request is logged, and the server
    answers it as its n-th request. *)
Definition fetch (r : Request) : M (nat * option js) :=
  fun w =>
    let w' := log (Fetch r) w in
    match server env (length (requests (trace w))) r with
    | NetworkError => Thrown FetchRejected w'
    | Response status json => Done (status, json) w'
    end.

(** [await response.json()] *)
Definition response_json (json : option js) : M js :=
  match json with
  | Some j => ret j
  | None => throw JsonRejected
  end.
End Network.

(** The double quote character, for markup. *)
Definition dq : string := String (ascii_of_nat 34) EmptyString.

(** [element.textContent = v]: [null] and [undefined] clear the text. *)
Definition text_of `{Host} (v : js) : string :=
  match v with
  | VUndef | VNull => ""
  | _ => to_string v
  end.

(** ** Form data *)

(** [obj[k] = v] on a field list. *)
Fixpoint set_field (k : string) (v : js) (fs : list (string * js)) : list (string * js) :=
  match fs with
  | [] => [(k, v)]
  | (k', v') :: rest =>
      if String.eqb k k' then (k, v) :: rest else (k', v') :: set_field k v rest
  end.

(** [Object.fromEntries(new FormData(form).entries())]: every control of
    the form contributes its name and its text. *)
Definition fromEntries (entries : list (string * string)) : js :=
  VObj (List.fold_left (fun fs '(k, v) => set_field k (VStr v) fs) entries []).

(** [v.length < n] where [v] is a form value. *)
Definition shorter_than (v : js) (n : nat) : bool :=
  match v with
  | VStr s => (js_length s <? n)%nat
  | _ => false
  end.

(** ** Further built-ins *)

(** [JSON.parse], taken as given like the built-ins of [Host]: [None]
    when it throws. *)
Class Parser : Type := {
  JSON_parse : string -> option js
}.

(** [JSON.parse(text)] *)
Definition parse_json `{Parser} (text : string) : M js :=
  match JSON_parse text with
  | Some v => ret v
  | None => throw JsonRejected
  end.

(** [localStorage.getItem(k)] *)
Definition getItem (k : string) : M (option string) :=
  fun w => Done (localStorage w !! k) w.

(** A call of an async function that is not awaited: its rejection
    does not reach the caller. *)
Definition detached (m : M unit) : M unit := try_catch m (fun _ => ret tt).

(** [formData.get(name)]: the first entry of that name, or [null]. *)
Fixpoint form_get (name : string) (entries : list (string * string)) : js :=
  match entries with
  | [] => VNull
  | (k, v) :: rest => if String.eqb name k then VStr v else form_get name rest
  end.

(** ** The dashboard script

    Two revisions of the script are in the repository; they differ, for
    the functions embedded here, in [makeApiCall] only. *)

Module Dashboard.

Inductive Revision : Type :=
| Part002
| Part003.

Section Script.
Context `{Host}.
Variable env : Env.
Variable rev : Revision.
(** [const token = localStorage.getItem(TOKEN_KEY)], read once when
    the script loads. *)
Variable token : option string.

Definition API_URL : string :=
  if config_loaded env then Config.API_BASE_URL (Config.CONFIG (hostname env))
  else "https://nutrition-advisor-a93q.onrender.com".

Definition TOKEN_KEY : string :=
  if config_loaded env
  then Config.JWT_TOKEN (Config.STORAGE_KEYS (Config.CONFIG (hostname env)))
  else "token".

Definition DEBUG_MODE : bool :=
  if config_loaded env
  then Config.DEBUG_MODE (Config.FEATURES (Config.CONFIG (hostname env)))
  else false.

(** ['Bearer ' + token] *)
Definition bearer : string :=
  "Bearer " ++ match token with Some t => t | None => "null" end.

Definition api_request (endpoint method : string) (data : js) : Request := {|
  url := Config.url_join API_URL endpoint;
  method := method;
  authorization := Some bearer;
  body := if truthy data then Some (JSON_stringify data) else None
|}.

Definition session_expired : string :=
  "⚠️ Your session has expired. Please login again.".

(** [makeApiCall(endpoint, method, data, showLoading)]; the result is
    the response status and the parsed body. *)
Definition makeApiCall (endpoint method : string) (data : js)
    (showLoading : bool) : M (nat * js) :=
  let* loadingElement :=
    (if showLoading then getElementById ".loading" else ret None) in
  let shown := present loadingElement in
  when shown (update ".loading" (set_display "block")) >>
  try_catch
    (let* (status, json) := fetch env (api_request endpoint method data) in
     let continue : M (nat * js) :=
       let* result := response_json json in
       when shown (update ".loading" (set_display "none")) >>
       ret (status, result) in
     match rev with
     | Part003 =>
         if (status =? 401)%nat then
           effect (Alert session_expired) >>
           removeItem TOKEN_KEY >>
           effect (Navigate "index.html") >>
           ret (status, VObj [("error", VStr "Unauthorized")])
         else continue
     | Part002 => continue
     end)
    (fun error =>
       when shown (update ".loading" (set_display "none")) >>
       throw error).

(** [makeApiCall(endpoint)] with the default arguments. *)
Definition get (endpoint : string) : M (nat * js) :=
  makeApiCall endpoint "GET" VNull false.

(** [makeApiCall(...).catch(() => ({ response: { ok: false } }))]:
    [None] stands for the substitute object. *)
Definition caught (call : M (nat * js)) : M (option (nat * js)) :=
  try_catch (let* r := call in ret (Some r)) (fun _ => ret None).

(** The goal progress shown by [loadMealStatsWithGoals]. *)
Definition goalProgress (stats : js) (profileResult : option (nat * js)) : M js :=
  let* server_progress := lift (get_prop stats "goal_progress") in
  match profileResult with
  | Some (pstatus, profile) =>
      if ok pstatus then
        let* dailyCalories := lift (get_prop profile "dailyCalories") in
        if truthy dailyCalories then
          let* total_calories := lift (get_prop stats "total_calories") in
          ret (VNum (Math_min
                       (Math_round
                          (to_number total_calories / to_number dailyCalories
                           * 100))
                       100))
        else ret server_progress
      else ret server_progress
  | None => ret server_progress
  end.

(** The body of [if (statsResult.response && statsResult.response.ok)]. *)
Definition showStats (statsResult profileResult : option (nat * js)) : M unit :=
  match statsResult with
  | Some (status, stats) =>
      if ok status then
        let* progress := goalProgress stats profileResult in
        let* total_calories := lift (get_prop stats "total_calories") in
        update "caloriesCount" (set_textContent (text_of total_calories)) >>
        let* meals_count := lift (get_prop stats "meals_count") in
        update "mealsCount" (set_textContent (text_of meals_count)) >>
        update "goalProgress" (set_textContent (to_string progress ++ "%")) >>
        let* streak := lift (get_prop stats "streak") in
        update "streakCount" (set_textContent (text_of streak))
      else ret tt
  | None => ret tt
  end.

Definition loadMealStatsWithGoals : M unit :=
  try_catch
    (let* statsResult := caught (get "/meals/stats") in
     let* profileResult := caught (get "/profile") in
     showStats statsResult profileResult)
    (fun _ => ret tt).

Definition empty_state : string :=
  "<div class=" ++ dq ++ "empty-state" ++ dq ++
  "><p>No meals logged today. Start by adding your first meal!</p></div>".

Definition attr (name val : string) : string :=
  name ++ "=" ++ dq ++ val ++ dq.

(** One entry of the meal list (layout whitespace of the template
    literal omitted). *)
Definition mealItem (meal : js) : M string :=
  let* foodName := lift (get_prop meal "foodName") in
  let* mealType := lift (get_prop meal "mealType") in
  let* quantity := lift (get_prop meal "quantity") in
  let* calories := lift (get_prop meal "calories") in
  let* id := lift (get_prop meal "_id") in
  ret ("<div " ++ attr "class" "meal-item" ++ ">" ++
       "<div " ++ attr "class" "meal-info" ++ ">" ++
       "<h4>" ++ to_string foodName ++ "</h4>" ++
       "<p>" ++ to_string mealType ++ " • " ++ to_string quantity ++ "</p>" ++
       "</div>" ++
       "<div " ++ attr "class" "meal-actions" ++ ">" ++
       "<span " ++ attr "class" "meal-calories" ++ ">" ++
       to_string (js_or calories (VNum 0)) ++ " cal</span>" ++
       "<button " ++ attr "onclick" ("deleteMeal('" ++ to_string id ++ "')") ++
       " " ++ attr "class" "delete-btn" ++ ">×</button>" ++
       "</div></div>").

Fixpoint mapM {A B} (f : A -> M B) (xs : list A) : M (list B) :=
  match xs with
  | [] => ret []
  | x :: rest =>
      let* y := f x in
      let* ys := mapM f rest in
      ret (y :: ys)
  end.

(** [displayMeals(meals)].  Only an array has [map]; a value with
    [length === 0] gets the empty-state markup. *)
Definition displayMeals (meals : js) : M unit :=
  match meals with
  | VUndef | VNull => throw TypeError
  | VArr [] => update "recentMeals" (set_innerHTML empty_state)
  | VArr xs =>
      let* items := mapM mealItem xs in
      update "recentMeals" (set_innerHTML (String.concat "" items))
  | VStr s =>
      if String.eqb s "" then update "recentMeals" (set_innerHTML empty_state)
      else throw TypeError
  | VObj fs =>
      match assoc "length" fs with
      | VNum n =>
          if (n =? 0)%float then update "recentMeals" (set_innerHTML empty_state)
          else throw TypeError
      | _ => throw TypeError
      end
  | _ => throw TypeError
  end.

(** [s.split('T')[0]] *)
Fixpoint before_T (s : string) : string :=
  match s with
  | EmptyString => EmptyString
  | String c rest =>
      if Ascii.eqb c "T"%char then EmptyString else String c (before_T rest)
  end.

Definition loadTodaysMeals : M unit :=
  try_catch
    (let today := before_T (now_iso env) in
     let* (status, result) := get ("/meals?date=" ++ today) in
     if ok status then displayMeals result else ret tt)
    (fun _ => ret tt).

(** [confirm(msg)] *)
Definition confirm (msg : string) : M bool :=
  effect (Confirm msg) >> ret (user_confirms env msg).

Definition confirm_delete : string :=
  "Are you sure you want to delete this meal?".

Definition deleteMeal (mealId : string) : M unit :=
  let* confirmed := confirm confirm_delete in
  if negb confirmed then ret tt
  else
    try_catch
      (let* (status, _) :=
         makeApiCall ("/meal/delete/" ++ mealId) "DELETE" VNull false in
       if ok status then
         loadMealStatsWithGoals >>
         loadTodaysMeals
       else effect (Alert "Error deleting meal"))
      (fun _ => effect (Alert "Error deleting meal")).

(** The serving [displayNutritionPreview] reads from. *)
Definition chosen_serving (serving : js) : js :=
  match serving with
  | VArr xs => first xs
  | other => other
  end.

Definition displayNutritionPreview (foodData : js) : M unit :=
  let* food := lift (get_prop foodData "food") in
  if negb (truthy food) then ret tt
  else
    let* servings := lift (get_prop food "servings") in
    if negb (truthy servings) then ret tt
    else
      let* listed := lift (get_prop servings "serving") in
      let serving := chosen_serving listed in
      let* calories := lift (get_prop serving "calories") in
      update "previewCalories"
             (set_textContent (text_of (js_or calories (VStr "0")))) >>
      let* protein := lift (get_prop serving "protein") in
      update "previewProtein"
             (set_textContent (text_of (js_or protein (VStr "0")))) >>
      let* carbohydrate := lift (get_prop serving "carbohydrate") in
      update "previewCarbs"
             (set_textContent (text_of (js_or carbohydrate (VStr "0")))) >>
      let* fat := lift (get_prop serving "fat") in
      update "previewFat"
             (set_textContent (text_of (js_or fat (VStr "0")))) >>
      update "nutritionPreview" (set_display "block").

(** [document.getElementById(id).value] *)
Definition read_value (id : string) : M string :=
  fun w => match document w !! id with
           | Some e => Done (value e) w
           | None => Thrown TypeError w
           end.

(** The own properties of the [activityMultipliers] literal. *)
Definition activityMultipliers : list (string * js) :=
  [ ("sedentary", VNum 1.2);
    ("light", VNum 1.375);
    ("moderate", VNum 1.55);
    ("active", VNum 1.725);
    ("very_active", VNum 1.9) ].

Definition displayCalculatedGoals (goals : js) : M unit :=
  let* dailyCalories := lift (get_prop goals "dailyCalories") in
  update "dailyCalories" (set_textContent (text_of dailyCalories)) >>
  let* dailyProtein := lift (get_prop goals "dailyProtein") in
  update "dailyProtein" (set_textContent (to_string dailyProtein ++ "g")) >>
  let* dailyCarbs := lift (get_prop goals "dailyCarbs") in
  update "dailyCarbs" (set_textContent (to_string dailyCarbs ++ "g")) >>
  let* dailyFat := lift (get_prop goals "dailyFat") in
  update "dailyFat" (set_textContent (to_string dailyFat ++ "g")) >>
  update "calculatedGoals" (set_display "block") >>
  effect (ScrollIntoView "calculatedGoals").

Definition fill_in_first : string :=
  "Please fill in all personal information fields first.".

(** [activityMultipliers[activityLevel] || 1.2] as a factor: an own
    multiplier, or 1.2 when the level names nothing.  An inherited
    member is truthy, so it is not replaced by 1.2, and as a number it
    is NaN: its string form is not a numeral. *)
Definition activityMultiplier (activityLevel : string) : float :=
  match member activityLevel activityMultipliers with
  | Own v => to_number (js_or v (VNum 1.2))
  | Inherited => PrimFloat.nan
  | Absent => 1.2
  end.

(** The goals object [calculateGoals] builds from the parsed fields. *)
Definition goalsData (age weight height : float) (gender activityLevel : string)
    (weeklyGoal : float) : js :=
  let bmr :=
    if String.eqb gender "male" then
      ((10 * weight) + (6.25 * height) - (5 * age) + 5)%float
    else
      ((10 * weight) + (6.25 * height) - (5 * age) - 161)%float in
  let tdee :=
    (bmr * activityMultiplier activityLevel)%float in
  let weeklyCalorieAdjustment := (weeklyGoal * 7700)%float in
  let dailyCalorieAdjustment := (weeklyCalorieAdjustment / 7)%float in
  let dailyCalories := Math_round (tdee + dailyCalorieAdjustment) in
  let proteinCalories := (dailyCalories * 0.25)%float in
  let carbsCalories := (dailyCalories * 0.45)%float in
  let fatCalories := (dailyCalories * 0.30)%float in
  let dailyProtein := Math_round (proteinCalories / 4) in
  let dailyCarbs := Math_round (carbsCalories / 4) in
  let dailyFat := Math_round (fatCalories / 9) in
  VObj [ ("dailyCalories", VNum dailyCalories);
         ("dailyProtein", VNum dailyProtein);
         ("dailyCarbs", VNum dailyCarbs);
         ("dailyFat", VNum dailyFat) ].

Definition calculateGoals : M unit :=
  let* age_field := read_value "age" in
  let age := parseInt age_field in
  let* weight_field := read_value "weight" in
  let weight := parseFloat weight_field in
  let* height_field := read_value "height" in
  let height := parseInt height_field in
  let* gender := read_value "gender" in
  let* activityLevel := read_value "activityLevel" in
  let* weeklyGoal_field := read_value "weeklyGoal" in
  let weeklyGoal :=
    parseFloat (to_string (js_or (VStr weeklyGoal_field) (VNum 0))) in
  if num_falsy age || num_falsy weight || num_falsy height
     || String.eqb gender "" || String.eqb activityLevel "" then
    update "profileMessage" (set_className "message error") >>
    update "profileMessage" (set_textContent fill_in_first)
  else
    update "profileMessage" (set_textContent "") >>
    displayCalculatedGoals
      (goalsData age weight height gender activityLevel weeklyGoal).

(** *** Chart handles *)

(** [chart.destroy()] *)
Definition destroy (h : nat) : M unit :=
  fun w =>
    Done tt (with_charts
               (alter (fun c => {| canvas := canvas c; kind := kind c;
                                   live := false |}) h (charts w)) w).

(** [new Chart(ctx, { type: kind, ... })]; yields the new instance. *)
Definition new_Chart (canvasId kind : string) : M nat :=
  fun w =>
    Done (length (charts w))
         (with_charts (charts w ++ [ {| canvas := canvasId; kind := kind;
                                        live := true |} ]) w).

(** [document.getElementById(id).getContext('2d')] *)
Definition getContext (canvasId : string) : M unit :=
  fun w => match document w !! canvasId with
           | Some _ => Done tt w
           | None => Thrown TypeError w
           end.

(** [x === 0] on a number. *)
Definition is_zero (n : float) : bool := (n =? 0)%float.

Definition createMacrosChart (protein carbs fat : js) : M unit :=
  getContext "macrosChart" >>
  let* held := (fun w => Done (macrosChart w) w) in
  match held with
  | Some h => destroy h
  | None => ret tt
  end >>
  let proteinCals := (to_number protein * 4)%float in
  let carbsCals := (to_number carbs * 4)%float in
  let fatCals := (to_number fat * 9)%float in
  let total := (proteinCals + carbsCals + fatCals)%float in
  if is_zero total then
    effect (FillText "macrosChart" "Add meals to see breakdown")
  else
    let* created := new_Chart "macrosChart" "doughnut" in
    fun w => Done tt (with_macrosChart (Some created) w).

(** The values of [Object.keys(v).map(k => v[k])]. *)
Definition own_values (v : js) : Exn + list js :=
  match v with
  | VUndef | VNull => inl TypeError
  | VObj fs => inr (List.map snd fs)
  | VArr xs => inr xs
  | VStr s => inr (List.map (fun c => VStr (String c EmptyString))
                            (list_ascii_of_string s))
  | _ => inr []
  end.

Definition createCaloriesChart (dailyData : js) : M unit :=
  getContext "caloriesChart" >>
  let* held := (fun w => Done (caloriesChart w) w) in
  match held with
  | Some h => destroy h
  | None => ret tt
  end >>
  let* days := lift (own_values dailyData) in
  let* calories := mapM (fun day => lift (get_prop day "calories")) days in
  match days with
  | [] => effect (FillText "caloriesChart" "Add meals to see trends")
  | _ :: _ =>
      let* created := new_Chart "caloriesChart" "line" in
      fun w => Done tt (with_caloriesChart (Some created) w)
  end.

Definition closeAnalysisModal : M unit :=
  update "analysisModal" (set_display "none") >>
  let* held := (fun w => Done (macrosChart w) w) in
  match held with
  | Some h => destroy h >> fun w => Done tt (with_macrosChart None w)
  | None => ret tt
  end >>
  let* held' := (fun w => Done (caloriesChart w) w) in
  match held' with
  | Some h => destroy h >> fun w => Done tt (with_caloriesChart None w)
  | None => ret tt
  end.

(** *** Food search *)

(** [s.replace(/'/g, "\\'")] *)
Fixpoint escape_quotes (s : string) : string :=
  match s with
  | EmptyString => EmptyString
  | String c rest =>
      if Ascii.eqb c "'"%char
      then String "\"%char (String "'"%char (escape_quotes rest))
      else String c (escape_quotes rest)
  end.

(** One suggestion (layout whitespace of the template literal
    omitted); [replace] exists on strings only. *)
Definition suggestionItem (food : js) : M string :=
  let* food_id := lift (get_prop food "food_id") in
  let* food_name := lift (get_prop food "food_name") in
  match food_name with
  | VStr name =>
      let* food_description := lift (get_prop food "food_description") in
      ret ("<div " ++ attr "class" "suggestion-item" ++ " " ++
           attr "onclick" ("selectFood('" ++ to_string food_id ++ "', '" ++
                           escape_quotes name ++ "')") ++ ">" ++
           "<strong>" ++ name ++ "</strong>" ++
           "<br><small>" ++ to_string food_description ++ "</small>" ++
           "</div>")
  | _ => throw TypeError
  end.

Definition no_foods : string :=
  "<div " ++ attr "class" "suggestion-item" ++ ">No foods found</div>".

Definition displayFoodSuggestions (foods : js) : M unit :=
  match foods with
  | VUndef | VNull => throw TypeError
  | VArr [] => update "foodSuggestions" (set_innerHTML no_foods)
  | VArr xs =>
      let* items := mapM suggestionItem xs in
      update "foodSuggestions" (set_innerHTML (String.concat "" items))
  | VStr s =>
      if String.eqb s "" then update "foodSuggestions" (set_innerHTML no_foods)
      else throw TypeError
  | VObj fs =>
      match assoc "length" fs with
      | VNum n =>
          if (n =? 0)%float then update "foodSuggestions" (set_innerHTML no_foods)
          else throw TypeError
      | _ => throw TypeError
      end
  | _ => throw TypeError
  end.

Definition searchFood (query : string) : M unit :=
  try_catch
    (let* (status, result) :=
       get ("/food/search?q=" ++ encodeURIComponent query) in
     if ok status then
       let* foods := lift (get_prop result "foods") in
       displayFoodSuggestions (js_or foods (VArr []))
     else ret tt)
    (fun _ => ret tt).

(** *** Session: the token guard, the greeting and logout *)

(** The statements the script runs when it loads:
    [if (!token) window.location.href = 'home.html']. *)
Definition require_login : M unit :=
  when (negb (truthy (match token with Some t => VStr t | None => VNull end)))
       (effect (Navigate "home.html")).

(** The key [loadUserInfo] reads. *)
Definition prefs_key : string :=
  if config_loaded env
  then Config.USER_PREFERENCES (Config.STORAGE_KEYS (Config.CONFIG (hostname env)))
  else "user_prefs".

Definition welcome_back : string := "Welcome back!".

Context `{Parser}.

Definition loadUserInfo : M unit :=
  try_catch
    (let* userPrefs := getItem prefs_key in
     match userPrefs with
     | Some text =>
         if String.eqb text "" then
           update "welcomeText" (set_textContent welcome_back)
         else
           let* user := parse_json text in
           let* name := lift (get_prop user "name") in
           update "welcomeText"
                  (set_textContent ("Welcome back, " ++ to_string name ++ "!"))
     | None => update "welcomeText" (set_textContent welcome_back)
     end)
    (fun _ => update "welcomeText" (set_textContent welcome_back)).

Definition logout : M unit :=
  removeItem TOKEN_KEY >>
  when (config_loaded env)
       (removeItem (Config.USER_PREFERENCES
                      (Config.STORAGE_KEYS (Config.CONFIG (hostname env))))) >>
  effect (Navigate "index.html").

(** *** The statistics loader without personal goals (older revision) *)

Definition loadMealStats : M unit :=
  try_catch
    (let* (status, result) := get "/meals/stats" in
     if ok status then
       let* total_calories := lift (get_prop result "total_calories") in
       update "caloriesCount" (set_textContent (text_of total_calories)) >>
       let* meals_count := lift (get_prop result "meals_count") in
       update "mealsCount" (set_textContent (text_of meals_count)) >>
       let* goal_progress := lift (get_prop result "goal_progress") in
       update "goalProgress" (set_textContent (to_string goal_progress ++ "%")) >>
       let* streak := lift (get_prop result "streak") in
       update "streakCount" (set_textContent (text_of streak))
     else ret tt)
    (fun _ => ret tt).

(** *** Adding a meal

    The script variable [selectedFood] is passed to the functions that
    read it; a function that may assign it returns its value
    afterwards. *)

Definition selectFood (foodId foodName : string) (selectedFood : js) : M js :=
  update "selectedFoodId" (set_value foodId) >>
  update "selectedFoodName" (set_value foodName) >>
  update "foodSearch" (set_value foodName) >>
  update "foodSuggestions" (set_innerHTML "") >>
  update "nutritionPreview" (set_display "block") >>
  update "previewCalories" (set_textContent "Loading...") >>
  update "previewProtein" (set_textContent "Loading...") >>
  update "previewCarbs" (set_textContent "Loading...") >>
  update "previewFat" (set_textContent "Loading...") >>
  try_catch
    (let* (status, result) := get ("/food/details/" ++ foodId) in
     if ok status then
       displayNutritionPreview result >>
       ret result
     else
       update "previewCalories" (set_textContent "Error") >>
       ret selectedFood)
    (fun _ =>
       update "previewCalories" (set_textContent "Error") >>
       ret selectedFood).

Definition closeModal : M js :=
  update "addMealModal" (set_display "none") >>
  update "mealMessage" (set_textContent "") >>
  update "foodSuggestions" (set_innerHTML "") >>
  update "nutritionPreview" (set_display "none") >>
  update "selectedFoodId" (set_value "") >>
  update "selectedFoodName" (set_value "") >>
  ret VNull.

(** [parseInt(v) || 0] and [parseFloat(v) || 0] *)
Definition int_or_zero (v : js) : js :=
  js_or (VNum (parseInt (to_string v))) (VNum 0).

Definition float_or_zero (v : js) : js :=
  js_or (VNum (parseFloat (to_string v))) (VNum 0).

(** The nutrition fields the submit listener takes from
    [selectedFood]. *)
Definition nutrition_of (selectedFood : js) : M (list (string * js)) :=
  if negb (truthy selectedFood) then ret []
  else
    let* food := lift (get_prop selectedFood "food") in
    if negb (truthy food) then ret []
    else
      let* servings := lift (get_prop food "servings") in
      if negb (truthy servings) then ret []
      else
        let* listed := lift (get_prop servings "serving") in
        let serving := chosen_serving listed in
        let* calories := lift (get_prop serving "calories") in
        let* protein := lift (get_prop serving "protein") in
        let* carbohydrate := lift (get_prop serving "carbohydrate") in
        let* fat := lift (get_prop serving "fat") in
        ret [ ("calories", int_or_zero calories);
              ("protein", float_or_zero protein);
              ("carbs", float_or_zero carbohydrate);
              ("fat", float_or_zero fat) ].

(** The object the submit listener of [addMealForm] posts. *)
Definition mealData (entries : list (string * string)) (selectedFood : js) : M js :=
  let mealType := form_get "mealType" entries in
  let quantity := form_get "quantity" entries in
  let* selectedFoodName := read_value "selectedFoodName" in
  let* selectedFoodId := read_value "selectedFoodId" in
  if negb (String.eqb selectedFoodName "") && negb (String.eqb selectedFoodId "") then
    let* nutrition := nutrition_of selectedFood in
    ret (VObj ([ ("mealType", mealType); ("quantity", quantity);
                 ("foodName", VStr selectedFoodName);
                 ("food_id", VStr selectedFoodId) ] ++ nutrition)%list)
  else
    let* typed := read_value "foodSearch" in
    ret (VObj [ ("mealType", mealType); ("quantity", quantity);
                ("foodName", VStr typed); ("calories", VNum 0) ]).

(** The [submit] listener of [addMealForm]. *)
Definition addMealForm_submit (entries : list (string * string))
    (selectedFood : js) : M unit :=
  let* data := mealData entries selectedFood in
  try_catch
    (let* (status, result) := makeApiCall "/meal/add" "POST" data false in
     if ok status then
       update "mealMessage" (set_className "message success") >>
       update "mealMessage" (set_textContent "Meal added successfully!") >>
       effect (FormReset "addMealForm") >>
       update "foodSearch" (set_value "") >>
       update "selectedFoodId" (set_value "") >>
       update "selectedFoodName" (set_value "") >>
       loadMealStatsWithGoals >>
       loadTodaysMeals >>
       effect (SetTimeout CbCloseModal 2000)
     else
       update "mealMessage" (set_className "message error") >>
       let* error := lift (get_prop result "error") in
       update "mealMessage"
              (set_textContent
                 ("Error: " ++ to_string (js_or error (VStr "Unknown error")))))
    (fun _ =>
       update "mealMessage" (set_className "message error") >>
       update "mealMessage" (set_textContent "Error adding meal. Please try again.")).

(** *** Saving the profile *)

Definition requiredFields : list string :=
  [ "fullName"; "age"; "gender"; "height"; "weight"; "activityLevel";
    "primaryGoal" ].

(** The fields of [profileData]: the entries of the personal form, then
    those of the goals form, a later entry replacing the value of an
    equally named earlier one. *)
Definition profileData (personal goals : list (string * string))
    : list (string * js) :=
  List.fold_left (fun fs '(k, v) => set_field k (VStr v) fs)
                 (personal ++ goals)%list [].

Definition missingFields (fs : list (string * js)) : list string :=
  List.filter (fun field => negb (truthy (assoc field fs))) requiredFields.

Definition saved_successfully : string :=
  "Profile saved successfully! Your personalized goals have been calculated.".

Definition updateDashboardGoals (profile : js) : M unit :=
  loadMealStatsWithGoals.

Definition saveProfile (personal goals : list (string * string)) : M unit :=
  let data := profileData personal goals in
  match missingFields data with
  | _ :: _ =>
      update "profileMessage" (set_className "message error") >>
      update "profileMessage"
             (set_textContent ("Please fill in: " ++ join ", " (missingFields data)))
  | [] =>
      try_catch
        (let* (status, result) := makeApiCall "/profile" "POST" (VObj data) false in
         if ok status then
           update "profileMessage" (set_className "message success") >>
           update "profileMessage" (set_textContent saved_successfully) >>
           let* profile := lift (get_prop result "profile") in
           displayCalculatedGoals profile >>
           updateDashboardGoals profile
         else
           update "profileMessage" (set_className "message error") >>
           let* error := lift (get_prop result "error") in
           update "profileMessage"
                  (set_textContent
                     (text_of (js_or error (VStr "Error saving profile")))))
        (fun _ =>
           update "profileMessage" (set_className "message error") >>
           update "profileMessage"
                  (set_textContent "Error saving profile. Please try again."))
  end.

(** *** The nutrition analysis *)

Definition no_recommendations : string :=
  "<p>No recommendations available yet. Log more meals!</p>".

(** [recs.map(rec => `<p>${rec}</p>`).join('')] *)
Definition recommendations_markup (recs : list js) : string :=
  String.concat "" (List.map (fun rec => "<p>" ++ to_string rec ++ "</p>") recs).

(** The [if (data.recommendations.length > 0)] statement: only an
    array has [map]. *)
Definition showRecommendations (recommendations : js) : M unit :=
  match recommendations with
  | VUndef | VNull => throw TypeError
  | VArr [] => update "recommendationsList" (set_innerHTML no_recommendations)
  | VArr recs =>
      update "recommendationsList" (set_innerHTML (recommendations_markup recs))
  | VStr s =>
      if String.eqb s "" then
        update "recommendationsList" (set_innerHTML no_recommendations)
      else throw TypeError
  | VObj fs =>
      if (0 <? to_number (assoc "length" fs))%float then throw TypeError
      else update "recommendationsList" (set_innerHTML no_recommendations)
  | VBool _ | VNum _ =>
      update "recommendationsList" (set_innerHTML no_recommendations)
  end.

Definition displayAnalysisData (data : js) : M unit :=
  let* total_calories := lift (get_prop data "total_calories") in
  update "totalCaloriesAnalysis" (set_textContent (text_of total_calories)) >>
  let* avg_calories := lift (get_prop data "avg_calories") in
  update "avgCaloriesAnalysis" (set_textContent (text_of avg_calories)) >>
  let* total_meals := lift (get_prop data "total_meals") in
  update "totalMealsAnalysis" (set_textContent (text_of total_meals)) >>
  let* recommendations := lift (get_prop data "recommendations") in
  showRecommendations recommendations >>
  let* total_protein := lift (get_prop data "total_protein") in
  let* total_carbs := lift (get_prop data "total_carbs") in
  let* total_fat := lift (get_prop data "total_fat") in
  createMacrosChart total_protein total_carbs total_fat >>
  let* daily_data := lift (get_prop data "daily_data") in
  createCaloriesChart daily_data.

Definition loadAnalysis : M unit :=
  let* period := read_value "periodFilter" in
  try_catch
    (let* (status, result) := get ("/meals/analysis?period=" ++ period) in
     if ok status then displayAnalysisData result else ret tt)
    (fun _ => ret tt).

Definition showNutritionAnalysis : M unit :=
  update "analysisModal" (set_display "block") >>
  detached loadAnalysis.

(** *** Vocabulary for the properties of the API helper *)

(** Whether a response sends [makeApiCall] into its session-expiry
    branch. *)
Definition expired (status : nat) : bool :=
  match rev with
  | Part003 => (status =? 401)%nat
  | Part002 => false
  end.

(** The world after the session-expiry branch. *)
Definition logged_out (r : Request) (w : World) : World :=
  log (Navigate "index.html")
    (with_storage (delete TOKEN_KEY (localStorage w))
       (log (Alert session_expired) (log (Fetch r) w))).

(** The request of [makeApiCall(endpoint)]. *)
Definition get_request (endpoint : string) : Request :=
  api_request endpoint "GET" VNull.

(** The request [deleteMeal(mealId)] sends. *)
Definition delete_request (mealId : string) : Request :=
  api_request ("/meal/delete/" ++ mealId) "DELETE" VNull.

(** The requests that refresh the statistics and today's meals. *)
Definition refresh_requests : list Request :=
  [ get_request "/meals/stats";
    get_request "/profile";
    get_request ("/meals?date=" ++ before_T (now_iso env)) ].

(** The requests a computation adds to those already issued. *)
Definition issued {A} (m : M A) (w : World) : list Request :=
  drop (length (requests (trace w))) (requests (trace (world_of (m w)))).

End Script.
End Dashboard.

(** ** The debounced food search ([setupFoodSearch])

    Time is counted in milliseconds.  The event loop delivers input
    events, lets time pass, and may run a timer once it is due. *)

Module FoodSearch.

(** A pending [setTimeout(() => searchFood(query), 500)]. *)
Record Timer : Type := {
  timer_id : nat;
  due : nat;
  query : string
}.

Inductive Event : Type :=
| Typed (at_ms : nat) (text : string)
| Searched (at_ms : nat) (q : string).

(** [searchTimeout] is the listener's closure variable ([None] while
    [undefined]); [pending] is the browser's timer table. *)
Record State : Type := {
  world : World;
  now : nat;
  searchTimeout : option nat;
  pending : list Timer;
  next_id : nat;
  history : list Event
}.

Inductive Action : Type :=
| Input (text : string)
| Elapse (ms : nat)
| Fire (id : nat).

(** [clearTimeout(id)] *)
Definition clearTimeout (id : option nat) (timers : list Timer) : list Timer :=
  match id with
  | None => timers
  | Some i => List.filter (fun t => negb (Nat.eqb (timer_id t) i)) timers
  end.

Section Listener.
Context `{Host}.
Variable env : Env.
Variable rev : Dashboard.Revision.
Variable token : option string.

(** The [input] listener installed by [setupFoodSearch]. *)
Definition on_input (text : string) (st : State) : State :=
  let q := trim text in
  let cleared := clearTimeout (searchTimeout st) (pending st) in
  let typed := (history st ++ [Typed (now st) text])%list in
  if (js_length q <? 2)%nat then
    {| world := world_of (update "foodSuggestions" (set_innerHTML "") (world st));
       now := now st;
       searchTimeout := searchTimeout st;
       pending := cleared;
       next_id := next_id st;
       history := typed |}
  else
    {| world := world st;
       now := now st;
       searchTimeout := Some (next_id st);
       pending := (cleared ++ [ {| timer_id := next_id st;
                                   due := now st + 500;
                                   query := q |} ])%list;
       next_id := S (next_id st);
       history := typed |}.

(** The event loop runs timer [id] if it is pending and due. *)
Definition fire (id : nat) (st : State) : State :=
  match List.find (fun t => Nat.eqb (timer_id t) id) (pending st) with
  | Some t =>
      if (due t <=? now st)%nat then
        {| world := world_of (Dashboard.searchFood env rev token (query t) (world st));
           now := now st;
           searchTimeout := searchTimeout st;
           pending := List.filter (fun t' => negb (Nat.eqb (timer_id t') id))
                                  (pending st);
           next_id := next_id st;
           history := (history st ++ [Searched (now st) (query t)])%list |}
      else st
  | None => st
  end.

Definition step (a : Action) (st : State) : State :=
  match a with
  | Input text => on_input text st
  | Elapse ms =>
      {| world := world st; now := now st + ms;
         searchTimeout := searchTimeout st; pending := pending st;
         next_id := next_id st; history := history st |}
  | Fire id => fire id st
  end.

Definition run (actions : list Action) (st : State) : State :=
  List.fold_left (fun s a => step a s) actions st.

(** The state [setupFoodSearch] leaves: no timer, nothing typed. *)
Definition setupFoodSearch (w : World) : State :=
  {| world := w; now := 0; searchTimeout := None; pending := [];
     next_id := 0; history := [] |}.
End Listener.

Definition is_typed (e : Event) : bool :=
  match e with Typed _ _ => true | Searched _ _ => false end.

End FoodSearch.

(** ** The home page script (registration and login forms)

    Two revisions of the script are in the file; they differ in the
    message texts, the guard of [showMessage] and the redirect delay. *)

Module Home.

Inductive Revision : Type :=
| HomeA
| HomeB.

Section Script.
Context `{Host}.
Variable env : Env.
Variable rev : Revision.

Definition CONFIG : Config.t := Config.CONFIG (hostname env).

Definition JWT_TOKEN : string := Config.JWT_TOKEN (Config.STORAGE_KEYS CONFIG).
Definition USER_PREFERENCES : string :=
  Config.USER_PREFERENCES (Config.STORAGE_KEYS CONFIG).

Definition showMessage (elementId type message : string) : M unit :=
  let* messageElement := getElementById elementId in
  match messageElement, rev with
  | None, HomeB => ret tt
  | _, _ =>
      update elementId (set_className ("message " ++ type)) >>
      update elementId (set_textContent message) >>
      when (String.eqb type "success")
           (effect (SetTimeout (CbClearMessage elementId) 5000))
  end.

Definition network_error : string :=
  "Network error. Please check your connection and try again.".

Definition loading_state (e : Element) : Element :=
  set_className "message info" (set_textContent "Loading..." e).

Definition cleared_state (e : Element) : Element :=
  set_className "" (set_textContent "" e).

Definition api_request (endpoint method : string) (data : js) : Request := {|
  url := Config.getApiUrl CONFIG endpoint;
  method := method;
  authorization := None;
  body := if truthy data then Some (JSON_stringify data) else None
|}.

(** [makeApiCall(endpoint, method, data, loadingElementId)] *)
Definition makeApiCall (endpoint method : string) (data : js)
    (loadingElementId : option string) : M (nat * js) :=
  let on_loading (f : Element -> Element) : M unit :=
    match loadingElementId with
    | Some id => if String.eqb id "" then ret tt else update_if_present id f
    | None => ret tt
    end in
  on_loading loading_state >>
  try_catch
    (let* (status, json) := fetch env (api_request endpoint method data) in
     let* result := response_json json in
     on_loading cleared_state >>
     ret (status, result))
    (fun _ =>
       on_loading cleared_state >>
       throw (ErrorMsg network_error)).

Definition registration_successful : string :=
  match rev with
  | HomeA => "Registration successful! You can login now."
  | HomeB => "✅ Registration successful! You can login now."
  end.

Definition login_successful : string :=
  match rev with
  | HomeA => "Login successful! Redirecting to dashboard..."
  | HomeB => "✅ Login successful! Redirecting to dashboard..."
  end.

Definition failure_prefix : string :=
  match rev with
  | HomeA => "Error: "
  | HomeB => "❌ "
  end.

Definition redirect_delay : nat :=
  match rev with
  | HomeA => 2000
  | HomeB => 1500
  end.

Definition too_short : string :=
  "Password must be at least 6 characters long.".

(** The [submit] listener of [registerForm]. *)
Definition register_submit (entries : list (string * string)) : M unit :=
  let data := fromEntries entries in
  let* name := lift (get_prop data "name") in
  let* email := lift (get_prop data "email") in
  let* password := lift (get_prop data "password") in
  if negb (truthy name) || negb (truthy email) || negb (truthy password) then
    showMessage "registerMessage" "error" "Please fill in all fields."
  else if shorter_than password 6 then
    showMessage "registerMessage" "error" too_short
  else
    try_catch
      (let* (status, result) :=
         makeApiCall "/register" "POST" data (Some "registerMessage") in
       if ok status then
         showMessage "registerMessage" "success" registration_successful >>
         effect (FormReset "registerForm") >>
         effect (SetTimeout CbShowLogin 2000)
       else
         let* error := lift (get_prop result "error") in
         showMessage "registerMessage" "error"
           (failure_prefix ++
            to_string (js_or error (VStr "Registration failed"))))
      (fun error => showMessage "registerMessage" "error" (message error)).

(** [result.token.substring(0, 20)] in the debug log: only a string
    has [substring]. *)
Definition debug_token (tok : js) : M unit :=
  match tok with
  | VStr _ => ret tt
  | _ => throw TypeError
  end.

(** The [submit] listener of [loginForm]. *)
Definition login_submit (entries : list (string * string)) : M unit :=
  let data := fromEntries entries in
  let* email := lift (get_prop data "email") in
  let* password := lift (get_prop data "password") in
  if negb (truthy email) || negb (truthy password) then
    showMessage "loginMessage" "error" "Please enter both email and password."
  else
    try_catch
      (let* (status, result) :=
         makeApiCall "/login" "POST" data (Some "loginMessage") in
       if ok status then
         let* tok := lift (get_prop result "token") in
         setItem JWT_TOKEN (to_string tok) >>
         let* user := lift (get_prop result "user") in
         let* user_id := lift (get_prop user "id") in
         let* user_name := lift (get_prop user "name") in
         let* user_email := lift (get_prop user "email") in
         setItem USER_PREFERENCES
           (JSON_stringify (VObj [ ("user_id", user_id);
                                   ("name", user_name);
                                   ("email", user_email);
                                   ("loginTime", VStr (now_iso env)) ])) >>
         showMessage "loginMessage" "success" login_successful >>
         effect (FormReset "loginForm") >>
         when (Config.DEBUG_MODE (Config.FEATURES CONFIG)) (debug_token tok) >>
         effect (SetTimeout CbGoDashboard redirect_delay)
       else
         let* error := lift (get_prop result "error") in
         showMessage "loginMessage" "error"
           (failure_prefix ++ to_string (js_or error (VStr "Login failed"))))
      (fun error => showMessage "loginMessage" "error" (message error)).
End Script.
End Home.

(** ** The stand-alone form scripts

    [ScriptJs] is [public/script.js]; [Part000] is the script that posts
    to [/api/login].  Neither uses the configuration resolver. *)

Module Standalone.

Inductive Script : Type :=
| ScriptJs
| Part000.

Section Script.
Context `{Host}.
Variable env : Env.
Variable script : Script.

Definition login_url : string :=
  match script with
  | ScriptJs => "http://127.0.0.1:5000/login"
  | Part000 => "/api/login"
  end.

Definition login_request (entries : list (string * string)) : Request :=
  {| url := login_url; method := "POST"; authorization := None;
     body := Some (JSON_stringify (fromEntries entries)) |}.

(** The [submit] listener of [loginForm]. *)
Definition login_submit (entries : list (string * string)) : M unit :=
  let data := fromEntries entries in
  let* (status, json) := fetch env (login_request entries) in
  let* result := response_json json in
  if ok status then
    match script with
    | ScriptJs =>
        update "loginMessage" (set_className "message success") >>
        update "loginMessage"
               (set_textContent "Login successful! JWT Token saved.") >>
        let* tok := lift (get_prop result "token") in
        setItem "token" (to_string tok) >>
        effect (FormReset "loginForm")
    | Part000 =>
        let* tok := lift (get_prop result "token") in
        setItem "token" (to_string tok) >>
        update "loginMessage" (set_className "message success") >>
        update "loginMessage"
               (set_textContent "Login successful! Redirecting to dashboard...") >>
        effect (FormReset "loginForm") >>
        effect (SetTimeout CbGoDashboard 2000)
    end
  else
    update "loginMessage" (set_className "message error") >>
    let* error := lift (get_prop result "error") in
    update "loginMessage"
           (set_textContent ("Error: " ++ to_string (js_or error (VStr "Unknown error")))).

(** The modal functions of [Part000]; the first revision of the home
    page script has the same three functions. *)
Definition showRegister : M unit :=
  update "authModal" (set_display "block") >>
  update "registerSection" (set_display "block") >>
  update "loginSection" (set_display "none").

Definition showLogin : M unit :=
  update "authModal" (set_display "block") >>
  update "loginSection" (set_display "block") >>
  update "registerSection" (set_display "none").

Definition closeModal : M unit :=
  update "authModal" (set_display "none").

Definition register_url : string :=
  match script with
  | ScriptJs => "http://127.0.0.1:5000/register"
  | Part000 => "/api/register"
  end.

(** The element the registration listener writes its message to. *)
Definition register_message : string :=
  match script with
  | ScriptJs => "message"
  | Part000 => "registerMessage"
  end.

Definition register_request (entries : list (string * string)) : Request :=
  {| url := register_url; method := "POST"; authorization := None;
     body := Some (JSON_stringify (fromEntries entries)) |}.

(** The [submit] listener of [registerForm]. *)
Definition register_submit (entries : list (string * string)) : M unit :=
  let* (status, json) := fetch env (register_request entries) in
  let* result := response_json json in
  if ok status then
    update register_message (set_className "message success") >>
    update register_message
           (set_textContent "Registration successful! You can login now.") >>
    effect (FormReset "registerForm") >>
    match script with
    | ScriptJs => ret tt
    | Part000 => effect (SetTimeout CbShowLogin 2000)
    end
  else
    update register_message (set_className "message error") >>
    let* error := lift (get_prop result "error") in
    update register_message
           (set_textContent ("Error: " ++ to_string (js_or error (VStr "Unknown error")))).
End Script.
End Standalone.

(** ** A host for closed examples

    Numbers print as integers or fractions, number parsing reads
    unsigned decimal text, serialisation does not escape. *)

Module Sample.

Definition print_Z (z : Z) : string := NilZero.string_of_int (Z.to_int z).

(** Integers print in decimal, other finite numbers as a fraction. *)
Definition print_float (x : float) : string :=
  match Prim2SF x with
  | S754_nan => "NaN"
  | S754_infinity false => "Infinity"
  | S754_infinity true => "-Infinity"
  | S754_zero _ => "0"
  | S754_finite s m e =>
      let sign := if s then "-" else "" in
      if (0 <=? e)%Z then sign ++ print_Z (Zpos m * 2 ^ e)
      else
        let d := (2 ^ (- e))%Z in
        if (Zpos m mod d =? 0)%Z then sign ++ print_Z (Zpos m / d)
        else sign ++ print_Z (Zpos m) ++ "/" ++ print_Z d
  end.

(** A natural number below 2^63 as a double. *)
Definition of_Z (n : Z) : float := PrimFloat.of_uint63 (Uint63.of_Z n).

Definition digit (c : ascii) : option Z :=
  let n := nat_of_ascii c in
  if (48 <=? n)%nat && (n <=? 57)%nat then Some (Z.of_nat (n - 48)) else None.

(** The leading digits of [s]: their value, their count, the rest. *)
Fixpoint read_digits (s : string) (acc : Z) (count : nat) : Z * nat * string :=
  match s with
  | EmptyString => (acc, count, s)
  | String c rest =>
      match digit c with
      | Some d => read_digits rest (10 * acc + d)%Z (S count)
      | None => (acc, count, s)
      end
  end.

Definition read_int (s : string) : float :=
  let '(n, k, _) := read_digits s 0%Z 0%nat in
  if (k =? 0)%nat then PrimFloat.nan else of_Z n.

Definition read_float (s : string) : float :=
  let '(n, k, rest) := read_digits s 0%Z 0%nat in
  if (k =? 0)%nat then PrimFloat.nan
  else
    match rest with
    | String "."%char frac =>
        let '(f, kf, _) := read_digits frac 0%Z 0%nat in
        (of_Z (n * 10 ^ Z.of_nat kf + f) / of_Z (10 ^ Z.of_nat kf))%float
    | _ => of_Z n
    end.

Fixpoint stringify (v : js) : string :=
  match v with
  | VUndef => "undefined"
  | VNull => "null"
  | VBool true => "true"
  | VBool false => "false"
  | VNum n => if PrimFloat.is_nan n then "null" else print_float n
  | VStr s => dq ++ s ++ dq
  | VArr xs => "[" ++ join "," (List.map stringify xs) ++ "]"
  | VObj fs =>
      "{" ++ join "," (List.map (fun kv => dq ++ fst kv ++ dq ++ ":" ++ stringify (snd kv)) fs)
          ++ "}"
  end.

#[export] Instance host : Host := {|
  num_to_string := print_float;
  string_to_number := read_float;
  parseInt := read_int;
  parseFloat := read_float;
  JSON_stringify := stringify;
  encodeURIComponent := fun s => s
|}.

Definition element (text : string) : Element :=
  {| textContent := text; className := ""; display := ""; value := text;
     innerHTML := "" |}.

(** A page with the elements the scripts address. *)
Definition page : gmap string Element :=
  list_to_map
    (List.map (fun id => (id, element ""))
       [ "registerMessage"; "loginMessage"; "foodSuggestions";
         "previewCalories"; "previewProtein"; "previewCarbs"; "previewFat";
         "nutritionPreview"; "caloriesCount"; "mealsCount"; "goalProgress";
         "streakCount"; "recentMeals"; "profileMessage"; "dailyCalories";
         "dailyProtein"; "dailyCarbs"; "dailyFat"; "calculatedGoals";
         "macrosChart"; "caloriesChart"; "analysisModal" ]).

Definition world : World :=
  {| localStorage := ∅; document := page; trace := [];
     charts := []; macrosChart := None; caloriesChart := None |}.

(** A world in which a token is stored under [key]. *)
Definition logged_in (key : string) : World :=
  with_storage {[ key := "jwt" ]} world.

(** An environment whose server answers every request with
    [answer]. *)
Definition env_with (answer : FetchOutcome) (confirms : bool) : Env :=
  {| hostname := "localhost"; config_loaded := true;
     server := fun _ _ => answer;
     user_confirms := fun _ => confirms;
     now_iso := "2025-01-15T10:30:00.000Z" |}.

(** The server rejects the session: every answer is a 401. *)
Definition env401 : Env := env_with (Response 401 None) true.

(** Intake above the goal: 2500 kcal eaten, 1800 kcal planned. *)
Definition stats : js :=
  VObj [ ("total_calories", VNum 2500); ("meals_count", VNum 4);
         ("goal_progress", VNum 125); ("streak", VNum 3) ].

Definition profile : js :=
  VObj [ ("fullName", VStr "Asha"); ("dailyCalories", VNum 1800) ].

(** The server answers the first request with the statistics and
    every later one with the profile. *)
Definition env_answers (stats profile : js) : Env :=
  {| hostname := "localhost"; config_loaded := true;
     server := fun n _ =>
                 match n with
                 | O => Response 200 (Some stats)
                 | S _ => Response 200 (Some profile)
                 end;
     user_confirms := fun _ => true;
     now_iso := "2025-01-15T10:30:00.000Z" |}.

Definition env_stats : Env := env_answers stats profile.

(** A light day: 290 kcal eaten against a goal of 2000 kcal. *)
Definition light_stats : js :=
  VObj [ ("total_calories", VNum 290); ("meals_count", VNum 1);
         ("goal_progress", VNum 15); ("streak", VNum 1) ].

Definition light_profile : js :=
  VObj [ ("fullName", VStr "Asha"); ("dailyCalories", VNum 2000) ].

Definition env_light : Env := env_answers light_stats light_profile.

(** The sample page with the profile form filled in. *)
Definition profile_form (age weight height gender activityLevel weeklyGoal : string)
    : World :=
  with_document
    (<["age" := element age]>
       (<["weight" := element weight]>
          (<["height" := element height]>
             (<["gender" := element gender]>
                (<["activityLevel" := element activityLevel]>
                   (<["weeklyGoal" := element weeklyGoal]> page))))))
    world.

(** A food with two servings, and one with a single serving. *)
Definition apple : js :=
  VObj [ ("food",
          VObj [ ("food_name", VStr "Apple");
                 ("servings",
                  VObj [ ("serving",
                          VArr [ VObj [ ("calories", VStr "95");
                                        ("protein", VStr "0.5");
                                        ("carbohydrate", VStr "25") ];
                                 VObj [ ("calories", VStr "52") ] ]) ]) ]) ].

(** The sample page after a macronutrient chart has been drawn. *)
Definition charted : World :=
  world_of (Dashboard.createMacrosChart (VNum 30) (VNum 50)
              (VNum 20) world).

(** A successful login answer, and the two forms filled in. *)
Definition login_result : js :=
  VObj [ ("token", VStr "abc.def.ghi");
         ("user", VObj [ ("id", VStr "u1"); ("name", VStr "Asha");
                         ("email", VStr "asha@example.com") ]) ].

Definition env_login : Env := env_with (Response 200 (Some login_result)) true.

Definition login_entries : list (string * string) :=
  [ ("email", "asha@example.com"); ("password", "secret1") ].

Definition register_entries : list (string * string) :=
  [ ("name", "Asha"); ("email", "asha@example.com"); ("password", "secret1") ].

Definition short_entries : list (string * string) :=
  [ ("name", "Asha"); ("email", "asha@example.com"); ("password", "abc") ].

(** A parser for flat objects of strings as [stringify] writes them
    (no escapes), and for [null]. *)
Inductive ParseState : Type :=
| AtStart
| AtKey
| InKey (k : string)
| AtColon (k : string)
| AtValue (k : string)
| InValue (k v : string)
| AtSep
| AtEnd.

Definition quote : ascii := ascii_of_nat 34.

Fixpoint parse_flat (s : string) (st : ParseState) (acc : list (string * js))
    : option js :=
  match s with
  | EmptyString =>
      match st with
      | AtEnd => Some (VObj acc)
      | _ => None
      end
  | String c rest =>
      match st with
      | AtStart =>
          if Ascii.eqb c "{"%char then parse_flat rest AtKey acc else None
      | AtKey =>
          if Ascii.eqb c quote then parse_flat rest (InKey "") acc else None
      | InKey k =>
          if Ascii.eqb c quote then parse_flat rest (AtColon k) acc
          else parse_flat rest (InKey (k ++ String c "")) acc
      | AtColon k =>
          if Ascii.eqb c ":"%char then parse_flat rest (AtValue k) acc else None
      | AtValue k =>
          if Ascii.eqb c quote then parse_flat rest (InValue k "") acc else None
      | InValue k v =>
          if Ascii.eqb c quote
          then parse_flat rest AtSep (acc ++ [(k, VStr v)])%list
          else parse_flat rest (InValue k (v ++ String c "")) acc
      | AtSep =>
          if Ascii.eqb c ","%char then parse_flat rest AtKey acc
          else if Ascii.eqb c "}"%char then parse_flat rest AtEnd acc
          else None
      | AtEnd => None
      end
  end.

Definition parse (s : string) : option js :=
  if String.eqb s "null" then Some VNull else parse_flat s AtStart [].

#[export] Instance parser : Parser := {| JSON_parse := parse |}.

(** The dashboard page: the sample page and the further elements the
    dashboard script addresses. *)
Definition dashboard_page : gmap string Element :=
  list_to_map
    (List.map (fun id => (id, element ""))
       [ "welcomeText"; "selectedFoodId"; "selectedFoodName"; "foodSearch";
         "addMealModal"; "mealMessage"; "profileModal"; "periodFilter";
         "totalCaloriesAnalysis"; "avgCaloriesAnalysis"; "totalMealsAnalysis";
         "recommendationsList"; "authModal"; "registerSection";
         "loginSection"; "message" ]) ∪ page.

Definition dashboard : World := with_document dashboard_page world.

(** The dashboard page of a visitor whose preferences are stored. *)
Definition greeted : World :=
  with_storage {[ "nutrition_advisor_prefs" := stringify (VObj [("name", VStr "Asha")]) ]}
               dashboard.

(** The dashboard page with a food typed into the search box, and the
    other fields of the add-meal form. *)
Definition typed : World :=
  with_document (<["foodSearch" := element "Banana"]> dashboard_page) world.

Definition meal_entries : list (string * string) :=
  [ ("mealType", "lunch"); ("quantity", "1") ].

(** A server that accepts whatever it is sent. *)
Definition env_ok : Env :=
  env_with (Response 200 (Some (VObj [("message", VStr "ok")]))) true.

(** The details of a food as the server sends them, and a server that
    answers every request with them. *)
Definition env_apple : Env := env_with (Response 200 (Some apple)) true.

(** A server that is out of order. *)
Definition env500 : Env :=
  env_with (Response 500 (Some (VObj [("error", VStr "Server error")]))) true.

(** The two forms of the profile dialog, filled in. *)
Definition personal_entries : list (string * string) :=
  [ ("fullName", "Asha"); ("age", "30"); ("gender", "female");
    ("height", "165"); ("weight", "60"); ("activityLevel", "light") ].

Definition goals_entries : list (string * string) :=
  [ ("primaryGoal", "maintain"); ("weeklyGoal", "0") ].

(** A server that answers every request with a saved profile. *)
Definition env_saved : Env :=
  env_with (Response 200 (Some (VObj [("profile", profile)]))) true.

(** An analysis with data to draw. *)
Definition analysis : js :=
  VObj [ ("total_calories", VNum 2500); ("avg_calories", VNum 1250);
         ("total_meals", VNum 4);
         ("recommendations", VArr [VStr "Eat more protein"; VStr "Drink water"]);
         ("total_protein", VNum 30); ("total_carbs", VNum 50);
         ("total_fat", VNum 20);
         ("daily_data",
          VObj [ ("2025-01-14", VObj [("calories", VNum 1200)]);
                 ("2025-01-15", VObj [("calories", VNum 1300)]) ]) ].

End Sample.


(** ** Vocabulary of the properties *)

(** The answer lets a handler take its [response.ok] branch: a 2xx
    status with a JSON body. *)
Definition succeeded (answer : FetchOutcome) : bool :=
  match answer with
  | Response status (Some _) => ok status
  | _ => false
  end.

(** The requests issued in a world. *)
Definition sent (w : World) : list Request := requests (trace w).

(** A computation leaves an observation [f] of the world as it was. *)
Definition preserves {X A} (f : World -> X) (m : M A) : Prop :=
  forall w : World, f (world_of (m w)) = f w.

(** A computation never throws. *)
Definition total {A} (m : M A) : Prop :=
  forall w : World, exists (a : A) (w' : World), m w = Done a w'.

(** The text shown in element [id]. *)
Definition shown_text (id : string) (w : World) : option string :=
  textContent <$> (document w !! id).

(** The answer to the profile request gives no personal goal: the fetch
    failed, the body is not JSON, the status is not 2xx, or the profile
    has no truthy [dailyCalories]. *)
Definition no_personal_goal (answer : FetchOutcome) : Prop :=
  match answer with
  | NetworkError => True
  | Response _ None => True
  | Response status (Some profile) =>
      ok status = false \/
      exists v : js, get_prop profile "dailyCalories" = inr v /\ truthy v = false
  end.

(** [v] is [undefined] or [null]. *)
Definition nullish (v : js) : bool :=
  match v with
  | VUndef | VNull => true
  | _ => false
  end.

Section PreviewVocabulary.
Context `{Host}.

(** The text for field [k] of a serving: the field, or '0' when the
    field is missing (or falsy). *)
Definition field_text (serving : js) (k : string) : string :=
  match get_prop serving k with
  | inr v => if truthy v then to_string v else "0"
  | inl _ => "0"
  end.

(** The four preview fields show the values of [serving]. *)
Definition preview_shows (serving : js) (w : World) : Prop :=
  shown_text "previewCalories" w = Some (field_text serving "calories") /\
  shown_text "previewProtein" w = Some (field_text serving "protein") /\
  shown_text "previewCarbs" w = Some (field_text serving "carbohydrate") /\
  shown_text "previewFat" w = Some (field_text serving "fat").

(** The elements [displayNutritionPreview] writes to are on the page. *)
Definition preview_on_page (w : World) : Prop :=
  is_Some (document w !! "previewCalories") /\
  is_Some (document w !! "previewProtein") /\
  is_Some (document w !! "previewCarbs") /\
  is_Some (document w !! "previewFat") /\
  is_Some (document w !! "nutritionPreview").
End PreviewVocabulary.

(** ** The goal formulas as the specification words them *)

Module GoalsSpec.
Local Open Scope float_scope.

(** BMR = 10*weight + 6.25*height - 5*age + 5 for 'male', and with
    -161 in place of +5 otherwise. *)
Definition BMR (gender : string) (weight height age : float) : float :=
  if String.eqb gender "male"
  then 10 * weight + 6.25 * height - 5 * age + 5
  else 10 * weight + 6.25 * height - 5 * age - 161.

(** sedentary 1.2, light 1.375, moderate 1.55, active 1.725,
    very_active 1.9, defaulting to 1.2. *)
Definition multiplier (activityLevel : string) : float :=
  if String.eqb activityLevel "sedentary" then 1.2
  else if String.eqb activityLevel "light" then 1.375
  else if String.eqb activityLevel "moderate" then 1.55
  else if String.eqb activityLevel "active" then 1.725
  else if String.eqb activityLevel "very_active" then 1.9
  else 1.2.

Definition TDEE (gender activityLevel : string) (weight height age : float) : float :=
  BMR gender weight height age * multiplier activityLevel.

Definition dailyCalories (gender activityLevel : string)
    (weight height age weeklyGoal : float) : float :=
  Math_round (TDEE gender activityLevel weight height age + weeklyGoal * 7700 / 7).

Definition dailyProtein (calories : float) : float := Math_round (0.25 * calories / 4).
Definition dailyCarbs (calories : float) : float := Math_round (0.45 * calories / 4).
Definition dailyFat (calories : float) : float := Math_round (0.30 * calories / 9).

End GoalsSpec.

(** The text of form control [id]. *)
Definition field_value (id : string) (w : World) : option string :=
  value <$> (document w !! id).

(** A parsed field that [calculateGoals] treats as not filled in: not a
    number, or zero. *)
Definition not_filled (n : float) : Prop :=
  PrimFloat.is_nan n = true \/ (n =? 0)%float = true.

(** The elements [calculateGoals] writes to are on the page. *)
Definition goals_on_page (w : World) : Prop :=
  is_Some (document w !! "profileMessage") /\
  is_Some (document w !! "dailyCalories") /\
  is_Some (document w !! "dailyProtein") /\
  is_Some (document w !! "dailyCarbs") /\
  is_Some (document w !! "dailyFat") /\
  is_Some (document w !! "calculatedGoals").

(** The text [parseFloat] receives for the weekly goal: the field, or
    the number 0 when the field is empty. *)
Definition weeklyGoal_text `{Host} (field : string) : string :=
  to_string (js_or (VStr field) (VNum 0)).

(** ** The chart-handle invariant as the specification words it *)

(** Chart [h] is the one currently displayed on canvas [canvasId]. *)
Definition displayed (canvasId : string) (h : nat) (w : World) : Prop :=
  exists c : ChartInstance,
    charts w !! h = Some c /\ canvas c = canvasId /\ live c = true.

(** A handle is either null or refers to the displayed chart. *)
Definition handle_ok (canvasId : string) (h : option nat) (w : World) : Prop :=
  match h with
  | None => True
  | Some i => displayed canvasId i w
  end.

Definition handles_ok (w : World) : Prop :=
  handle_ok "macrosChart" (macrosChart w) w /\
  handle_ok "caloriesChart" (caloriesChart w) w.

(** The macronutrient total [createMacrosChart] tests against zero. *)
Definition macros_total `{Host} (protein carbs fat : js) : float :=
  (to_number protein * 4 + to_number carbs * 4 + to_number fat * 9)%float.

(** ** Debouncing as the specification words it *)

(** The search logged at position [i] (time [t], query [q]) stems from
    an input event at least 500 ms earlier whose trimmed text is [q],
    of at least two characters, with no input event in between. *)
Definition stems_from_input (h : list FoodSearch.Event) (i t : nat) (q : string)
    : Prop :=
  exists (j t0 : nat) (text : string),
    (j < i)%nat /\
    h !! j = Some (FoodSearch.Typed t0 text) /\
    trim text = q /\
    (2 <= js_length q)%nat /\
    (t0 + 500 <= t)%nat /\
    forall k : nat, (j < k < i)%nat ->
      forall e, h !! k = Some e -> FoodSearch.is_typed e = false.

Definition debounced (h : list FoodSearch.Event) : Prop :=
  forall (i t : nat) (q : string),
    h !! i = Some (FoodSearch.Searched t q) -> stems_from_input h i t q.

(** At most one timer is pending; it is the one [searchTimeout] names
    and belongs to the latest input event. *)
Definition one_timer (st : FoodSearch.State) : Prop :=
  FoodSearch.pending st = [] \/
  exists (tm : FoodSearch.Timer) (j t0 : nat) (text : string),
    FoodSearch.pending st = [tm] /\
    FoodSearch.searchTimeout st = Some (FoodSearch.timer_id tm) /\
    FoodSearch.history st !! j = Some (FoodSearch.Typed t0 text) /\
    trim text = FoodSearch.query tm /\
    (2 <= js_length (FoodSearch.query tm))%nat /\
    FoodSearch.due tm = (t0 + 500)%nat /\
    forall k : nat, (j < k < length (FoodSearch.history st))%nat ->
      forall e, FoodSearch.history st !! k = Some e -> FoodSearch.is_typed e = false.

(** The queries searched for, oldest first. *)
Fixpoint searches (h : list FoodSearch.Event) : list string :=
  match h with
  | [] => []
  | FoodSearch.Searched _ q :: rest => q :: searches rest
  | FoodSearch.Typed _ _ :: rest => searches rest
  end.

(** The request [searchFood(query)] sends. *)
Definition search_request `{Host} (env : Env) (token : option string)
    (query : string) : Request :=
  Dashboard.get_request env token ("/food/search?q=" ++ encodeURIComponent query).

(** ** Vocabulary for the forms *)

(** The request the registration form sends. *)
Definition register_request `{Host} (env : Env) (entries : list (string * string))
    : Request :=
  Home.api_request env "/register" "POST" (fromEntries entries).

(** The request the login form of the home page sends. *)
Definition home_login_request `{Host} (env : Env) (entries : list (string * string))
    : Request :=
  Home.api_request env "/login" "POST" (fromEntries entries).

(** The preferences blob the home page stores after a login. *)
Definition preferences_blob `{Host} (env : Env) (user : js) : string :=
  JSON_stringify
    (VObj [ ("user_id", match get_prop user "id" with inr v => v | inl _ => VUndef end);
            ("name", match get_prop user "name" with inr v => v | inl _ => VUndef end);
            ("email", match get_prop user "email" with inr v => v | inl _ => VUndef end);
            ("loginTime", VStr (now_iso env)) ]).

(** The message of the registration form for incomplete or short input. *)
Definition rejection (name email password : string) : string :=
  if String.eqb name "" || String.eqb email "" || String.eqb password ""
  then "Please fill in all fields."
  else Home.too_short.

(** ** Vocabulary for the further properties *)

(** What the dashboard finds under its token key when it loads. *)
Definition stored_token (env : Env) (w : World) : option string :=
  localStorage w !! Dashboard.TOKEN_KEY env.

(** The effects a computation adds to the trace. *)
Definition logged {A} (m : M A) (w : World) : list Effect :=
  drop (length (trace w)) (trace (world_of (m w))).

(** The outcome of a computation with [f] applied to its world. *)
Definition outcome_map {A} (f : World -> World) (o : Outcome A) : Outcome A :=
  match o with
  | Done a w => Done a (f w)
  | Thrown e w => Thrown e (f w)
  end.

(** A computation that neither reads nor writes the trace: it runs the
    same way whatever has been logged. *)
Definition ignores_trace {A} (m : M A) : Prop :=
  forall (e : Effect) (w : World), m (log e w) = outcome_map (log e) (m w).

(** Every chart still rendered on canvas [canvasId] is the one handle
    [h] refers to. *)
Definition no_leak (canvasId : string) (h : option nat) (w : World) : Prop :=
  forall (i : nat) (c : ChartInstance),
    charts w !! i = Some c -> canvas c = canvasId -> live c = true ->
    h = Some i.

Definition charts_tidy (w : World) : Prop :=
  no_leak "macrosChart" (macrosChart w) w /\
  no_leak "caloriesChart" (caloriesChart w) w.


(** A computation that keeps the charts tidy, however it ends. *)
Definition keeps_tidy {A} (m : M A) : Prop :=
  forall w : World, charts_tidy w -> charts_tidy (world_of (m w)).

(** The charts and the two handles. *)
Definition chart_state (w : World) : list ChartInstance * option nat * option nat :=
  (charts w, macrosChart w, caloriesChart w).

(** The chart functions of the dashboard, in any order. *)
Inductive ChartOp : Type :=
| DrawMacros (protein carbs fat : js)
| DrawCalories (dailyData : js)
| DrawAnalysis (data : js)
| CloseAnalysis.

Definition chart_op `{Host} (op : ChartOp) : M unit :=
  match op with
  | DrawMacros protein carbs fat => Dashboard.createMacrosChart protein carbs fat
  | DrawCalories dailyData => Dashboard.createCaloriesChart dailyData
  | DrawAnalysis data => Dashboard.displayAnalysisData data
  | CloseAnalysis => Dashboard.closeAnalysisModal
  end.

Definition chart_ops `{Host} (ops : list ChartOp) (w : World) : World :=
  List.fold_left (fun w' op => world_of (chart_op op w')) ops w.

(** The elements [selectFood] writes to before it asks the server. *)
Definition selection_on_page (w : World) : Prop :=
  is_Some (document w !! "selectedFoodId") /\
  is_Some (document w !! "selectedFoodName") /\
  is_Some (document w !! "foodSearch") /\
  is_Some (document w !! "foodSuggestions") /\
  preview_on_page w.

(** The request [selectFood(foodId, ...)] sends. *)
Definition details_request `{Host} (env : Env) (token : option string)
    (foodId : string) : Request :=
  Dashboard.get_request env token ("/food/details/" ++ foodId).

(** * Properties *)

(** ** Configuration *)

Lemma local_host_spec (h : string) :
  Config.local_host h = true <-> (h = "localhost" \/ h = "127.0.0.1").
Proof.
  unfold Config.local_host. rewrite orb_true_iff, !String.eqb_eq. reflexivity.
Qed.

(** C7: the environment, the API base URL and the debug flag are
    functions of the hostname alone.  The environment is 'development'
    and the API base URL the local one exactly for the hostnames
    'localhost' and '127.0.0.1', the production values hold exactly
    otherwise, the debug flag is set exactly for 'localhost', and equal
    hostnames give equal configurations. *)
Theorem CONFIG_resolved_from_hostname (h : string) :
  let local := h = "localhost" \/ h = "127.0.0.1" in
  (Config.ENVIRONMENT (Config.CONFIG h) = "development" <-> local) /\
  (Config.ENVIRONMENT (Config.CONFIG h) = "production" <-> ~ local) /\
  (Config.API_BASE_URL (Config.CONFIG h) = "http://localhost:5000" <-> local) /\
  (Config.API_BASE_URL (Config.CONFIG h) = "https://nutrition-advisor-a93q.onrender.com"
   <-> ~ local) /\
  (Config.FRONTEND_URL (Config.CONFIG h) = "http://localhost:3000" <-> local) /\
  (Config.FRONTEND_URL (Config.CONFIG h) = "https://nutrition-advisor-frontend.onrender.com"
   <-> ~ local) /\
  (Config.DEBUG_MODE (Config.FEATURES (Config.CONFIG h)) = true <-> h = "localhost") /\
  (forall h' : string, h' = h -> Config.CONFIG h' = Config.CONFIG h).
Proof.
  intros local; subst local.
  pose proof (local_host_spec h) as Hl.
  assert (Hd : (h =? "localhost") = true <-> h = "localhost") by apply String.eqb_eq.
  cbn [Config.CONFIG Config.ENVIRONMENT Config.API_BASE_URL Config.FRONTEND_URL
       Config.FEATURES Config.DEBUG_MODE].
  destruct (Config.local_host h);
    repeat split; try (intros h' ->; reflexivity);
    intros; try discriminate; try tauto;
    try (apply Hl; reflexivity);
    try (exfalso; match goal with Hn : ~ _ |- _ => apply Hn; apply Hl; reflexivity end);
    try (intros Hc; apply Hl in Hc; discriminate);
    try (exfalso; match goal with Hc : _ \/ _ |- _ => apply Hl in Hc; discriminate end).
Qed.

(** ** Dashboard: the API helper *)

(** Unfolds the script combinators. *)
Ltac unfold_script :=
  unfold bind, try_catch, getElementById, ret, throw, when, update,
    update_if_present, fetch, response_json, effect, removeItem, setItem,
    lift, world_of in *.

Section ApiHelper.
Context `{Host}.
Variable env : Env.
Variable token : option string.

(** A call without loading indicator, computed. *)
Lemma makeApiCall_plain (rev : Dashboard.Revision)
    (endpoint method : string) (data : js) (w : World) :
  let r := Dashboard.api_request env token endpoint method data in
  Dashboard.makeApiCall env rev token endpoint method data false w =
  match server env (length (requests (trace w))) r with
  | NetworkError => Thrown FetchRejected (log (Fetch r) w)
  | Response status json =>
      if Dashboard.expired rev status
      then Done (status, VObj [("error", VStr "Unauthorized")])
                (Dashboard.logged_out env r w)
      else match json with
           | Some j => Done (status, j) (log (Fetch r) w)
           | None => Thrown JsonRejected (log (Fetch r) w)
           end
  end.
Proof.
  intros r. unfold Dashboard.makeApiCall, Dashboard.expired, Dashboard.logged_out.
  unfold_script. fold r. simpl.
  destruct (server env (length (requests (trace w))) r) as [|status json];
    [reflexivity|].
  destruct rev; [destruct json; reflexivity|].
  destruct (status =? 401)%nat; [reflexivity|destruct json; reflexivity].
Qed.

(** What any call does to the storage and the trace. *)
Lemma makeApiCall_effects (rev : Dashboard.Revision)
    (endpoint method : string) (data : js) (showLoading : bool) (w : World)
    (status : nat) (json : option js) :
  let r := Dashboard.api_request env token endpoint method data in
  let w' := world_of (Dashboard.makeApiCall env rev token endpoint method data
                                            showLoading w) in
  server env (length (requests (trace w))) r = Response status json ->
  localStorage w' =
    (if Dashboard.expired rev status
     then delete (Dashboard.TOKEN_KEY env) (localStorage w)
     else localStorage w) /\
  trace w' =
    (trace w ++ Fetch r ::
       (if Dashboard.expired rev status
        then [Alert Dashboard.session_expired; Navigate "index.html"]
        else []))%list.
Proof.
  intros r w' Hs. subst w'.
  unfold Dashboard.makeApiCall, Dashboard.expired. unfold_script. fold r.
  destruct showLoading; simpl;
    [destruct (document w !! ".loading") as [e|] eqn:Ed; simpl|];
    rewrite ?Ed; simpl; rewrite Hs;
    (destruct rev; simpl;
     [|destruct (status =? 401)%nat; simpl;
       [rewrite <- ?app_assoc; auto|]]);
    destruct json; simpl; rewrite ?lookup_insert_eq; simpl; auto.
Qed.

(** C1 (amended): in the revision of the dashboard script that handles
    session expiry ([Part003]) a 401 answer to a call removes the
    stored token and navigates to [index.html], and any other answer
    leaves the storage as it was; the other revision ([Part002]) has
    no such branch and leaves the storage as it was for every answer,
    a 401 included. *)
Theorem makeApiCall_session_expiry
    (endpoint method : string) (data : js) (showLoading : bool) (w : World)
    (status : nat) (json : option js) :
  server env (length (requests (trace w)))
         (Dashboard.api_request env token endpoint method data)
    = Response status json ->
  let r := Dashboard.api_request env token endpoint method data in
  let w3 := world_of (Dashboard.makeApiCall env Dashboard.Part003 token
                        endpoint method data showLoading w) in
  let w2 := world_of (Dashboard.makeApiCall env Dashboard.Part002 token
                        endpoint method data showLoading w) in
  (status = 401%nat ->
     localStorage w3 = delete (Dashboard.TOKEN_KEY env) (localStorage w) /\
     localStorage w3 !! Dashboard.TOKEN_KEY env = None /\
     trace w3 = (trace w ++ [Fetch r; Alert Dashboard.session_expired;
                             Navigate "index.html"])%list) /\
  (status <> 401%nat ->
     localStorage w3 = localStorage w /\
     trace w3 = (trace w ++ [Fetch r])%list) /\
  (localStorage w2 = localStorage w /\
   trace w2 = (trace w ++ [Fetch r])%list).
Proof.
  intros Hs r w3 w2.
  destruct (makeApiCall_effects Dashboard.Part003 endpoint method data
              showLoading w status json Hs) as [Hs3 Ht3].
  destruct (makeApiCall_effects Dashboard.Part002 endpoint method data
              showLoading w status json Hs) as [Hs2 Ht2].
  fold r in Ht3, Ht2. fold w3 in Hs3, Ht3. fold w2 in Hs2, Ht2.
  simpl in Hs3, Ht3, Hs2, Ht2.
  split; [|split].
  - intros ->. simpl in Hs3, Ht3. rewrite Hs3. repeat split; auto.
    apply lookup_delete_eq.
  - intros Hne. apply Nat.eqb_neq in Hne. rewrite Hne in Hs3, Ht3. auto.
  - auto.
Qed.
End ApiHelper.

(** C1 at a concrete call: a stored token, a server answering 401. *)
Lemma makeApiCall_session_expiry_witness :
  server Sample.env401 0
    (Dashboard.api_request (H:=Sample.host) Sample.env401 (Some "jwt") "/meals/stats" "GET" VNull)
    = Response 401 None /\
  localStorage
    (world_of (Dashboard.makeApiCall (H:=Sample.host) Sample.env401 Dashboard.Part003 (Some "jwt")
                 "/meals/stats" "GET" VNull false
                 (Sample.logged_in (Dashboard.TOKEN_KEY Sample.env401))))
    !! Dashboard.TOKEN_KEY Sample.env401 = None.
Proof.
  split; [reflexivity|].
  apply (makeApiCall_session_expiry (H:=Sample.host) Sample.env401 (Some "jwt") "/meals/stats" "GET"
           VNull false (Sample.logged_in (Dashboard.TOKEN_KEY Sample.env401))
           401 None eq_refl); reflexivity.
Defined.

(** C1 as stated fails for the revision without the expiry branch: the
    server answers 401, and the token is still stored and no navigation
    has happened. *)
Lemma makeApiCall_part002_keeps_token_on_401 :
  server Sample.env401 0
    (Dashboard.api_request (H:=Sample.host) Sample.env401 (Some "jwt") "/meals/stats" "GET" VNull)
    = Response 401 None /\
  localStorage
    (world_of (Dashboard.makeApiCall (H:=Sample.host) Sample.env401 Dashboard.Part002 (Some "jwt")
                 "/meals/stats" "GET" VNull false
                 (Sample.logged_in (Dashboard.TOKEN_KEY Sample.env401))))
    !! Dashboard.TOKEN_KEY Sample.env401 = Some "jwt" /\
  ~ In (Navigate "index.html")
       (trace (world_of (Dashboard.makeApiCall (H:=Sample.host) Sample.env401 Dashboard.Part002
                 (Some "jwt") "/meals/stats" "GET" VNull false
                 (Sample.logged_in (Dashboard.TOKEN_KEY Sample.env401))))).
Proof.
  split; [reflexivity|]. split; [vm_compute; reflexivity|].
  vm_compute. intros [Hc|[]]. discriminate Hc.
Qed.

(** ** Computations that leave an observation alone *)

Section Preservation.
Context {X : Type}.
Variable f : World -> X.

Lemma preserves_ret {A} (a : A) : preserves f (ret a).
Proof. intros w; reflexivity. Qed.

Lemma preserves_throw {A} (e : Exn) : preserves f (throw (A:=A) e).
Proof. intros w; reflexivity. Qed.

Lemma preserves_lift {A} (r : Exn + A) : preserves f (lift r).
Proof. destruct r; intros w; reflexivity. Qed.

Lemma preserves_bind {A B} (m : M A) (k : A -> M B) :
  preserves f m -> (forall a, preserves f (k a)) -> preserves f (bind m k).
Proof.
  intros Hm Hk w. unfold bind. specialize (Hm w).
  destruct (m w) as [a w'|e w']; simpl in *; [|exact Hm].
  rewrite Hk. exact Hm.
Qed.

Lemma preserves_try_catch {A} (m : M A) (h : Exn -> M A) :
  preserves f m -> (forall e, preserves f (h e)) -> preserves f (try_catch m h).
Proof.
  intros Hm Hh w. unfold try_catch. specialize (Hm w).
  destruct (m w) as [a w'|e w']; simpl in *; [exact Hm|].
  rewrite Hh. exact Hm.
Qed.

Lemma preserves_when (b : bool) (m : M unit) :
  preserves f m -> preserves f (when b m).
Proof. destruct b; simpl; auto. intros _ w; reflexivity. Qed.

Lemma preserves_getElementById (id : string) : preserves f (getElementById id).
Proof. intros w; reflexivity. Qed.

Lemma preserves_mapM {A B} (g : A -> M B) (xs : list A) :
  (forall x, preserves f (g x)) -> preserves f (Dashboard.mapM g xs).
Proof.
  intros Hg. induction xs as [|x xs IH]; simpl.
  - apply preserves_ret.
  - apply preserves_bind; [apply Hg|]. intros y.
    apply preserves_bind; [apply IH|]. intros ys. apply preserves_ret.
Qed.

(** Observations that do not look at the document. *)
Hypothesis f_document : forall d w, f (with_document d w) = f w.

Lemma preserves_update (id : string) (g : Element -> Element) :
  preserves f (update id g).
Proof using f_document.
  intros w. unfold update. destruct (document w !! id); simpl; auto.
Qed.

Lemma preserves_update_if_present (id : string) (g : Element -> Element) :
  preserves f (update_if_present id g).
Proof using f_document.
  intros w. unfold update_if_present. destruct (document w !! id); simpl; auto.
Qed.

Lemma preserves_read_value (id : string) : preserves f (Dashboard.read_value id).
Proof.
  intros w. unfold Dashboard.read_value. destruct (document w !! id); reflexivity.
Qed.
End Preservation.

Lemma sent_log (e : Effect) (w : World) :
  sent (log e w) = (sent w ++ match e with Fetch r => [r] | _ => [] end)%list.
Proof.
  unfold sent, log; simpl. generalize (trace w) as t. intros t.
  induction t as [|x t IH]; simpl.
  - destruct e; reflexivity.
  - destruct x; simpl; rewrite IH; reflexivity.
Qed.

Lemma sent_effect (e : Effect) :
  is_fetch e = false -> preserves sent (effect e).
Proof.
  intros He w. unfold effect; simpl. rewrite sent_log.
  destruct e; try discriminate; apply app_nil_r.
Qed.

Lemma storage_effect (e : Effect) : preserves localStorage (effect e).
Proof. intros w; reflexivity. Qed.

Lemma sent_setItem (k v : string) : preserves sent (setItem k v).
Proof. intros w; reflexivity. Qed.

Lemma sent_removeItem (k : string) : preserves sent (removeItem k).
Proof. intros w; reflexivity. Qed.

Create HintDb script discriminated.

#[local] Hint Resolve preserves_ret preserves_throw preserves_lift
  preserves_getElementById preserves_read_value storage_effect
  sent_setItem sent_removeItem : script.
#[local] Hint Extern 1 (preserves _ (update _ _)) =>
  apply preserves_update; reflexivity : script.
#[local] Hint Extern 1 (preserves _ (update_if_present _ _)) =>
  apply preserves_update_if_present; reflexivity : script.
#[local] Hint Extern 1 (preserves sent (effect _)) =>
  apply sent_effect; reflexivity : script.

(** Splits a computation along its binds and handlers. *)
Ltac preserve :=
  repeat first
    [ progress intros
    | apply preserves_bind
    | apply preserves_try_catch
    | apply preserves_when
    | apply preserves_mapM
    | solve [auto with script]
    | match goal with
      | |- preserves _ (match ?x with _ => _ end) => destruct x
      | |- preserves _ (if ?b then _ else _) => destruct b
      | |- preserves _ (let (_, _) := ?p in _) => destruct p
      end ].

(** ** Dashboard: statistics, meal list and meal deletion *)

Lemma try_catch_unit_total (m : M unit) : total (try_catch m (fun _ => ret tt)).
Proof.
  intros w. unfold try_catch, ret. destruct (m w) as [[] w'|e w']; eauto.
Qed.

Lemma world_of_bind {A B} (m : M A) (k : A -> M B) (w w1 : World) (a : A) :
  m w = Done a w1 -> bind m k w = k a w1.
Proof. intros E. unfold bind. rewrite E. reflexivity. Qed.

Lemma world_of_try_catch {A} (m : M A) (h : Exn -> M A) (w : World) :
  world_of (try_catch m h w) =
  match m w with
  | Done _ w' => w'
  | Thrown e w' => world_of (h e w')
  end.
Proof. unfold try_catch. destruct (m w); reflexivity. Qed.

Lemma world_of_try_catch_ret {A} (m : M A) (a : A) (w : World) :
  world_of (try_catch m (fun _ => ret a) w) = world_of (m w).
Proof. unfold try_catch. destruct (m w); reflexivity. Qed.

Section Refetch.
Context `{Host}.
Variable env : Env.
Variable rev : Dashboard.Revision.
Variable token : option string.

Lemma sent_logged_out (r : Request) (w : World) :
  sent (Dashboard.logged_out env r w) = (sent w ++ [r])%list.
Proof.
  unfold Dashboard.logged_out. rewrite sent_log. simpl. rewrite app_nil_r.
  change (sent (with_storage ?s ?w0)) with (sent w0).
  rewrite sent_log; simpl. rewrite app_nil_r. apply sent_log.
Qed.

(** A guarded call always completes and issues exactly its request. *)
Lemma caught_call_sent (endpoint : string) (w : World) :
  exists res w',
    Dashboard.caught (Dashboard.get env rev token endpoint) w = Done res w' /\
    sent w' = (sent w ++ [Dashboard.get_request env token endpoint])%list.
Proof.
  unfold Dashboard.caught, Dashboard.get, Dashboard.get_request, try_catch, bind.
  rewrite makeApiCall_plain.
  destruct (server env _ _) as [|status json].
  - eexists _, _. split; [reflexivity|]. apply sent_log.
  - destruct (Dashboard.expired rev status).
    + eexists _, _. split; [reflexivity|]. apply sent_logged_out.
    + destruct json; eexists _, _; (split; [reflexivity|]); apply sent_log.
Qed.

Lemma showStats_sent (s p : option (nat * js)) :
  preserves sent (Dashboard.showStats s p).
Proof. unfold Dashboard.showStats, Dashboard.goalProgress. preserve. Qed.

(** Loading the statistics always completes and issues the statistics
    and the profile request, whatever the answers. *)
Lemma loadMealStatsWithGoals_sent (w : World) :
  exists w',
    Dashboard.loadMealStatsWithGoals env rev token w = Done tt w' /\
    sent w' = (sent w ++ [Dashboard.get_request env token "/meals/stats";
                          Dashboard.get_request env token "/profile"])%list.
Proof.
  unfold Dashboard.loadMealStatsWithGoals.
  match goal with
  | |- context [try_catch ?m _ w] =>
      destruct (try_catch_unit_total m w) as ([] & w' & E)
  end.
  exists w'. split; [exact E|].
  change w' with (world_of (Done tt w')). rewrite <- E, world_of_try_catch.
  destruct (caught_call_sent "/meals/stats" w) as (s & w1 & E1 & S1).
  destruct (caught_call_sent "/profile" w1) as (p & w2 & E2 & S2).
  rewrite (world_of_bind _ _ _ _ _ E1), (world_of_bind _ _ _ _ _ E2).
  pose proof (showStats_sent s p w2) as Hq.
  destruct (Dashboard.showStats s p w2) as [a w3|e w3];
    simpl in Hq |- *; rewrite Hq, S2, S1, <- app_assoc; reflexivity.
Qed.

Lemma displayMeals_sent (meals : js) : preserves sent (Dashboard.displayMeals meals).
Proof.
  unfold Dashboard.displayMeals.
  destruct meals as [| | | | |xs|fs]; preserve.
  all: unfold Dashboard.mealItem; preserve.
Qed.

(** Loading today's meals always completes and issues one request. *)
Lemma loadTodaysMeals_sent (w : World) :
  exists w',
    Dashboard.loadTodaysMeals env rev token w = Done tt w' /\
    sent w' = (sent w ++ [Dashboard.get_request env token
                            ("/meals?date=" ++ Dashboard.before_T (now_iso env))])%list.
Proof.
  unfold Dashboard.loadTodaysMeals.
  match goal with
  | |- context [try_catch ?m _ w] =>
      destruct (try_catch_unit_total m w) as ([] & w' & E)
  end.
  exists w'. split; [exact E|].
  change w' with (world_of (Done tt w')). rewrite <- E, world_of_try_catch.
  unfold bind, Dashboard.get, Dashboard.get_request. rewrite makeApiCall_plain.
  destruct (server env _ _) as [|status json]; simpl; [apply sent_log|].
  destruct (Dashboard.expired rev status) eqn:Ex.
  - assert (ok status = false) as ->.
    { destruct rev; simpl in Ex; [discriminate|].
      apply Nat.eqb_eq in Ex. subst. reflexivity. }
    simpl. apply sent_logged_out.
  - destruct json as [j|]; simpl; [|apply sent_log].
    destruct (ok status); simpl; [|apply sent_log].
    pose proof (displayMeals_sent j (log (Fetch (Dashboard.api_request env token
       ("/meals?date=" ++ Dashboard.before_T (now_iso env)) "GET" VNull)) w)) as Hq.
    destruct (Dashboard.displayMeals j _) as [a w3|e w3]; simpl in Hq |- *;
      rewrite Hq; apply sent_log.
Qed.

Lemma expired_not_ok (status : nat) :
  Dashboard.expired rev status = true -> ok status = false.
Proof.
  destruct rev; simpl; [discriminate|].
  intros E. apply Nat.eqb_eq in E. subst. reflexivity.
Qed.

(** C5: a declined confirmation issues no request at all; after a
    confirmation exactly one DELETE request is issued, and the
    requests that re-fetch the statistics and today's meals follow it
    exactly when the DELETE was answered with a 2xx status (and a JSON
    body).  Hence a re-fetch request is issued only after a
    confirmation and a 2xx answer to the DELETE. *)
Theorem deleteMeal_refetch_after_confirmation (mealId : string) (w : World) :
  let del := Dashboard.delete_request env token mealId in
  let answer := server env (length (sent w)) del in
  let new := Dashboard.issued (Dashboard.deleteMeal env rev token mealId) w in
  (user_confirms env Dashboard.confirm_delete = false -> new = []) /\
  (user_confirms env Dashboard.confirm_delete = true ->
     new = del :: (if succeeded answer
                   then Dashboard.refresh_requests env token
                   else [])) /\
  (forall r : Request,
     In r new -> In r (Dashboard.refresh_requests env token) ->
     user_confirms env Dashboard.confirm_delete = true /\
     exists (status : nat) (json : option js),
       answer = Response status json /\ ok status = true).
Proof.
  intros del answer new. subst del answer new.
  unfold Dashboard.delete_request.
  set (del := Dashboard.api_request env token ("/meal/delete/" ++ mealId)
                "DELETE" VNull).
  set (answer := server env (length (sent w)) del).
  set (new := Dashboard.issued (Dashboard.deleteMeal env rev token mealId) w).
  assert (Hnew :
    new = if user_confirms env Dashboard.confirm_delete
          then del :: (if succeeded answer
                       then Dashboard.refresh_requests env token else [])
          else []).
  { subst new. unfold Dashboard.issued. fold (sent w).
    match goal with |- drop _ ?l = ?x => enough (l = (sent w ++ x)%list) as -> end.
    { apply drop_app_length. }
    fold (sent (world_of (Dashboard.deleteMeal env rev token mealId w))).
    unfold Dashboard.deleteMeal, Dashboard.confirm, bind at 1 2, effect, ret.
    destruct (user_confirms env Dashboard.confirm_delete); simpl.
    { rewrite world_of_try_catch. unfold bind at 1. rewrite makeApiCall_plain.
      simpl. fold del.
      change (requests (trace w ++ [Confirm Dashboard.confirm_delete]))
        with (sent (log (Confirm Dashboard.confirm_delete) w)).
      rewrite sent_log, app_nil_r.
      fold answer.
      assert (Hw0 : sent (log (Fetch del) (log (Confirm Dashboard.confirm_delete) w))
                    = (sent w ++ [del])%list).
      { rewrite !sent_log. simpl. rewrite app_nil_r. reflexivity. }
      destruct answer as [|status json].
      { simpl. rewrite sent_log, Hw0; simpl. apply app_nil_r. }
      destruct (Dashboard.expired rev status) eqn:Ex.
      - assert (succeeded (Response status json) = false) as ->
          by (simpl; rewrite (expired_not_ok _ Ex); destruct json; reflexivity).
        simpl. rewrite (expired_not_ok _ Ex). simpl.
        rewrite sent_log, sent_logged_out, sent_log; simpl.
        rewrite !app_nil_r. reflexivity.
      - destruct json as [j|]; simpl;
          [|rewrite sent_log, Hw0; simpl; apply app_nil_r].
        destruct (ok status); simpl;
          [|rewrite sent_log, Hw0; simpl; apply app_nil_r].
        destruct (loadMealStatsWithGoals_sent
                    (log (Fetch del) (log (Confirm Dashboard.confirm_delete) w)))
          as (w2 & E2 & S2).
        destruct (loadTodaysMeals_sent w2) as (w3 & E3 & S3).
        unfold bind. rewrite E2, E3. simpl.
        rewrite S3, S2, Hw0. unfold Dashboard.refresh_requests.
        rewrite <- !app_assoc. reflexivity. }
    rewrite sent_log. reflexivity. }
  split; [|split].
  - intros E. rewrite Hnew, E. reflexivity.
  - intros E. rewrite Hnew, E. reflexivity.
  - intros r Hin Href. rewrite Hnew in Hin.
    destruct (user_confirms env Dashboard.confirm_delete); [|destruct Hin].
    split; [reflexivity|].
    destruct Hin as [<- | Hin].
    + exfalso. unfold Dashboard.refresh_requests, Dashboard.get_request in Href.
      simpl in Href. destruct Href as [E|[E|[E|[]]]];
        apply (f_equal method) in E; discriminate E.
    + destruct answer as [|status [j|]]; simpl in Hin; try destruct Hin.
      destruct (ok status) eqn:Eok; [eauto|destruct Hin].
Qed.
End Refetch.

(** ** Dashboard: the goal progress *)

(** [Math.min(x, 100)] is never above 100. *)
Lemma Math_min_100 (x : float) : (100 <? Math_min x 100)%float = false.
Proof.
  unfold Math_min. destruct (100 <? x)%float eqn:E; [reflexivity|].
  destruct (x =? 100)%float; exact E.
Qed.

Section GoalProgress.
Context `{Host}.
Variable env : Env.
Variable rev : Dashboard.Revision.
Variable token : option string.

(** A guarded call, computed. *)
Lemma caught_get_answer (endpoint : string) (w : World) :
  let r := Dashboard.get_request env token endpoint in
  Dashboard.caught (Dashboard.get env rev token endpoint) w =
  match server env (length (sent w)) r with
  | NetworkError => Done None (log (Fetch r) w)
  | Response status json =>
      if Dashboard.expired rev status
      then Done (Some (status, VObj [("error", VStr "Unauthorized")]))
                (Dashboard.logged_out env r w)
      else match json with
           | Some j => Done (Some (status, j)) (log (Fetch r) w)
           | None => Done None (log (Fetch r) w)
           end
  end.
Proof.
  intros r. subst r.
  unfold Dashboard.caught, Dashboard.get, Dashboard.get_request, try_catch, bind.
  rewrite makeApiCall_plain. fold (sent w).
  destruct (server env (length (sent w)) _) as [|status json]; [reflexivity|].
  destruct (Dashboard.expired rev status); [reflexivity|].
  destruct json; reflexivity.
Qed.

(** With the three counters on the page, the statistics body shows
    the progress it computed. *)
Lemma showStats_shown (status : nat) (fs : list (string * js))
    (p : option (nat * js)) (gp : js) (w : World) :
  ok status = true ->
  Dashboard.goalProgress (VObj fs) p w = Done gp w ->
  is_Some (document w !! "caloriesCount") ->
  is_Some (document w !! "mealsCount") ->
  is_Some (document w !! "goalProgress") ->
  shown_text "goalProgress"
    (world_of (Dashboard.showStats (Some (status, VObj fs)) p w))
  = Some (to_string gp ++ "%").
Proof.
  intros Hok Hgp [e1 E1] [e2 E2] [e3 E3].
  unfold Dashboard.showStats. rewrite Hok.
  unfold bind at 1. rewrite Hgp.
  unfold_script. simpl. rewrite E1. simpl.
  rewrite lookup_insert_ne by discriminate. rewrite E2. simpl.
  rewrite !lookup_insert_ne by discriminate. rewrite E3. simpl.
  rewrite !lookup_insert_ne by discriminate.
  unfold shown_text.
  destruct (document w !! "streakCount") as [e4|]; simpl;
    rewrite ?lookup_insert_ne by discriminate; rewrite lookup_insert_eq;
    reflexivity.
Qed.

Lemma ok_not_expired (status : nat) :
  ok status = true -> Dashboard.expired rev status = false.
Proof.
  intros Hok. destruct (Dashboard.expired rev status) eqn:E; [|reflexivity].
  destruct rev; simpl in E; [discriminate|].
  apply Nat.eqb_eq in E. subst. discriminate Hok.
Qed.

(** C10 (amended): when the statistics arrive (2xx, a JSON object) and
    the three counters are on the page, then (a) with a profile that
    arrives (2xx) and has a nonzero number [dailyCalories], the
    progress shown is min(round((total_calories / dailyCalories) * 100), 100)
    in double arithmetic, the division first, followed by the percent
    sign, a value never above 100; (b) when the profile gives no
    personal goal, the goal_progress field of the statistics is shown
    as the server sent it. *)
Theorem goal_progress_shown (w : World) (status : nat) (fs : list (string * js)) :
  server env (length (sent w)) (Dashboard.get_request env token "/meals/stats")
    = Response status (Some (VObj fs)) ->
  ok status = true ->
  is_Some (document w !! "caloriesCount") ->
  is_Some (document w !! "mealsCount") ->
  is_Some (document w !! "goalProgress") ->
  let answer :=
    server env (S (length (sent w))) (Dashboard.get_request env token "/profile") in
  let w' := world_of (Dashboard.loadMealStatsWithGoals env rev token w) in
  (forall (pstatus : nat) (profile : js) (total daily : float),
     answer = Response pstatus (Some profile) ->
     ok pstatus = true ->
     get_prop profile "dailyCalories" = inr (VNum daily) ->
     num_falsy daily = false ->
     assoc "total_calories" fs = VNum total ->
     let progress := Math_min (Math_round (total / daily * 100)) 100 in
     shown_text "goalProgress" w' = Some (num_to_string progress ++ "%") /\
     (100 <? progress)%float = false) /\
  (no_personal_goal answer ->
     shown_text "goalProgress" w'
       = Some (to_string (assoc "goal_progress" fs) ++ "%")).
Proof.
  intros Hstats Hok Hc Hm Hg answer w'. subst w'.
  unfold Dashboard.loadMealStatsWithGoals.
  rewrite world_of_try_catch_ret.
  set (r1 := Dashboard.get_request env token "/meals/stats") in *.
  set (r2 := Dashboard.get_request env token "/profile") in *.
  assert (E1 : Dashboard.caught (Dashboard.get env rev token "/meals/stats") w
               = Done (Some (status, VObj fs)) (log (Fetch r1) w)).
  { rewrite caught_get_answer. cbv zeta. fold r1.
    rewrite Hstats, (ok_not_expired _ Hok). reflexivity. }
  rewrite (world_of_bind _ _ _ _ _ E1).
  pose proof (caught_get_answer "/profile" (log (Fetch r1) w)) as E2.
  cbv zeta in E2. fold r2 in E2.
  replace (length (sent (log (Fetch r1) w))) with (S (length (sent w))) in E2
    by (rewrite sent_log, length_app; simpl; lia).
  fold answer in E2.
  assert (Hshow :
    forall (p : option (nat * js)) (gp : js) (w2 : World),
      Dashboard.caught (Dashboard.get env rev token "/profile") (log (Fetch r1) w)
        = Done p w2 ->
      document w2 = document w ->
      Dashboard.goalProgress (VObj fs) p w2 = Done gp w2 ->
      shown_text "goalProgress"
        (world_of
           ((let* profileResult := Dashboard.caught (Dashboard.get env rev token "/profile") in
             Dashboard.showStats (Some (status, VObj fs)) profileResult)
              (log (Fetch r1) w)))
      = Some (to_string gp ++ "%")).
  { intros p gp w2 Hp Hd Hgp. rewrite (world_of_bind _ _ _ _ _ Hp).
    apply (showStats_shown status fs p gp w2 Hok Hgp); rewrite Hd; assumption. }
  split.
  - intros pstatus profile total daily Ha Hpok Hd Hnz Ht. cbv zeta.
    set (progress := Math_min _ _).
    split; [|apply Math_min_100].
    rewrite Ha, (ok_not_expired _ Hpok) in E2.
    rewrite (Hshow _ (VNum progress) _ E2 eq_refl); [reflexivity|].
    unfold Dashboard.goalProgress. unfold_script. simpl.
    rewrite Hpok, Hd. simpl. rewrite Hnz. simpl. rewrite Ht. reflexivity.
  - intros Hno. unfold no_personal_goal in Hno.
    destruct answer as [|pstatus [profile|]].
    + rewrite (Hshow _ (assoc "goal_progress" fs) _ E2 eq_refl); reflexivity.
    + destruct (Dashboard.expired rev pstatus) eqn:Ex.
      * rewrite (Hshow _ (assoc "goal_progress" fs) _ E2 eq_refl); [reflexivity|].
        unfold Dashboard.goalProgress. unfold_script. simpl.
        rewrite (expired_not_ok _ _ Ex). reflexivity.
      * rewrite (Hshow _ (assoc "goal_progress" fs) _ E2 eq_refl); [reflexivity|].
        unfold Dashboard.goalProgress. unfold_script. simpl.
        destruct (ok pstatus) eqn:Eok; [|reflexivity].
        destruct Hno as [Hno|(v & Hv & Hf)]; [discriminate|].
        rewrite Hv. simpl. rewrite Hf. reflexivity.
    + destruct (Dashboard.expired rev pstatus) eqn:Ex.
      * rewrite (Hshow _ (assoc "goal_progress" fs) _ E2 eq_refl); [reflexivity|].
        unfold Dashboard.goalProgress. unfold_script. simpl.
        rewrite (expired_not_ok _ _ Ex). reflexivity.
      * rewrite (Hshow _ (assoc "goal_progress" fs) _ E2 eq_refl); reflexivity.
Qed.
End GoalProgress.

(** C10 at a concrete load: 2500 kcal eaten against a goal of 1800 kcal
    shows 100%, not 139%. *)
Lemma goal_progress_shown_witness :
  shown_text "goalProgress"
    (world_of (Dashboard.loadMealStatsWithGoals (H:=Sample.host) Sample.env_stats
                 Dashboard.Part003 (Some "jwt") Sample.world))
  = Some "100%".
Proof.
  refine (proj1 (proj1 (goal_progress_shown (H:=Sample.host) Sample.env_stats
                          Dashboard.Part003 (Some "jwt") Sample.world 200
                          [ ("total_calories", VNum 2500);
                            ("meals_count", VNum 4);
                            ("goal_progress", VNum 125);
                            ("streak", VNum 3) ]
                          eq_refl eq_refl _ _ _)
                  200%nat Sample.profile 2500%float 1800%float eq_refl eq_refl eq_refl
                  eq_refl eq_refl));
    eexists; vm_compute; reflexivity.
Defined.

(** C10 as stated fails on a light day: 290 kcal against a goal of
    2000 kcal.  The claim's min(round(100 * 290 / 2000), 100) is 15,
    from 14.5; the page shows 14%, because 290 / 2000 * 100 is
    14.499999999999998 in double arithmetic. *)
Lemma goal_progress_division_first :
  Math_min (Math_round (100 * 290 / 2000)) 100 = 15%float /\
  shown_text "goalProgress"
    (world_of (Dashboard.loadMealStatsWithGoals (H:=Sample.host) Sample.env_light
                 Dashboard.Part003 (Some "jwt") Sample.world))
  = Some "14%" /\
  shown_text "goalProgress"
    (world_of (Dashboard.loadMealStatsWithGoals (H:=Sample.host) Sample.env_light
                 Dashboard.Part002 (Some "jwt") Sample.world))
  = Some "14%".
Proof. repeat split; vm_compute; reflexivity. Qed.


(** ** Dashboard: the nutrition preview *)

Lemma update_present (id : string) (g : Element -> Element) (w : World) :
  is_Some (document w !! id) ->
  exists e, document w !! id = Some e /\
            update id g w = Done tt (with_document (<[id := g e]> (document w)) w).
Proof.
  intros [e E]. exists e. split; [exact E|]. unfold update. rewrite E. reflexivity.
Qed.

Section Preview.
Context `{Host}.

Lemma text_or_zero (serving : js) (k : string) (v : js) :
  get_prop serving k = inr v ->
  text_of (js_or v (VStr "0")) = field_text serving k.
Proof.
  intros E. unfold field_text, js_or. rewrite E.
  destruct (truthy v) eqn:T; [|reflexivity].
  destruct v; try discriminate T; reflexivity.
Qed.

Lemma get_prop_defined (serving : js) (k : string) :
  nullish serving = false -> exists v, get_prop serving k = inr v.
Proof. destruct serving; simpl; try discriminate; eauto. Qed.

(** Writing the four fields from a serving that can be read. *)
Lemma preview_written (food servings listed serving : js) (foodData : js)
    (w : World) :
  preview_on_page w ->
  get_prop foodData "food" = inr food -> truthy food = true ->
  get_prop food "servings" = inr servings -> truthy servings = true ->
  get_prop servings "serving" = inr listed ->
  Dashboard.chosen_serving listed = serving ->
  nullish serving = false ->
  exists w', Dashboard.displayNutritionPreview foodData w = Done tt w' /\
             preview_shows serving w'.
Proof.
  intros (Hc & Hp & Hb & Hf & Hn) Ef Tf Es Ts El Ec Nn.
  unfold Dashboard.displayNutritionPreview.
  unfold bind at 1. rewrite Ef; simpl. rewrite Tf; simpl.
  unfold bind at 1. rewrite Es; simpl. rewrite Ts; simpl.
  unfold bind at 1. rewrite El; simpl. rewrite Ec.
  destruct (get_prop_defined serving "calories" Nn) as (vc & Evc).
  destruct (get_prop_defined serving "protein" Nn) as (vp & Evp).
  destruct (get_prop_defined serving "carbohydrate" Nn) as (vb & Evb).
  destruct (get_prop_defined serving "fat" Nn) as (vf & Evf).
  destruct Hc as [ec Hc], Hp as [ep Hp], Hb as [eb Hb], Hf as [ef Hf],
           Hn as [en Hn].
  unfold_script. rewrite Evc, Evp, Evb, Evf. simpl.
  rewrite Hc. simpl.
  rewrite !lookup_insert_ne by discriminate. rewrite Hp. simpl.
  rewrite !lookup_insert_ne by discriminate. rewrite Hb. simpl.
  rewrite !lookup_insert_ne by discriminate. rewrite Hf. simpl.
  rewrite !lookup_insert_ne by discriminate. rewrite Hn. simpl.
  eexists. split; [reflexivity|].
  unfold preview_shows, shown_text; simpl.
  rewrite <- (text_or_zero _ _ _ Evc), <- (text_or_zero _ _ _ Evp),
          <- (text_or_zero _ _ _ Evb), <- (text_or_zero _ _ _ Evf).
  repeat split;
    rewrite ?lookup_insert_ne by discriminate; rewrite lookup_insert_eq;
    reflexivity.
Qed.

(** The serving read from is [undefined] or [null]: the first read of
    a field throws, before any element is written. *)
Lemma displayNutritionPreview_throws (foodData food servings listed : js) (w : World) :
  get_prop foodData "food" = inr food -> truthy food = true ->
  get_prop food "servings" = inr servings -> truthy servings = true ->
  get_prop servings "serving" = inr listed ->
  nullish (Dashboard.chosen_serving listed) = true ->
  Dashboard.displayNutritionPreview foodData w = Thrown TypeError w.
Proof.
  intros Ef Tf Es Ts El Nn.
  unfold Dashboard.displayNutritionPreview.
  unfold bind at 1. rewrite Ef; simpl. rewrite Tf; simpl.
  unfold bind at 1. rewrite Es; simpl. rewrite Ts; simpl.
  unfold bind at 1. rewrite El; simpl.
  destruct (Dashboard.chosen_serving listed); try discriminate Nn; reflexivity.
Qed.

(** C4 (amended): with the preview elements on the page and
    [food.servings] present, the four preview fields show calories,
    protein, carbohydrate and fat of the first element when
    [servings.serving] is an array, and of [servings.serving] itself
    when it is not, each replaced by '0' when missing, provided the
    serving read from is not [undefined] or [null]; when it is (an
    empty array, a first element that is null, or no serving at all)
    the call throws a TypeError and changes nothing; when [food] or
    [food.servings] is absent nothing at all is changed. *)
Theorem displayNutritionPreview_fields (foodData food : js) (w : World) :
  preview_on_page w ->
  get_prop foodData "food" = inr food ->
  (forall servings listed : js,
     truthy food = true ->
     get_prop food "servings" = inr servings -> truthy servings = true ->
     get_prop servings "serving" = inr listed ->
     (forall (x : js) (rest : list js),
        listed = VArr (x :: rest) -> nullish x = false ->
        exists w', Dashboard.displayNutritionPreview foodData w = Done tt w' /\
                   preview_shows x w') /\
     (isArray listed = false -> nullish listed = false ->
        exists w', Dashboard.displayNutritionPreview foodData w = Done tt w' /\
                   preview_shows listed w') /\
     (listed = VArr [] \/
      (exists (x : js) (rest : list js), listed = VArr (x :: rest) /\ nullish x = true) \/
      nullish listed = true ->
        Dashboard.displayNutritionPreview foodData w = Thrown TypeError w)) /\
  (forall (k : string) (fs : list (string * js)),
     assoc k fs = VUndef -> field_text (VObj fs) k = "0") /\
  (truthy food = false \/
   (exists servings, get_prop food "servings" = inr servings /\
                     truthy servings = false) ->
   Dashboard.displayNutritionPreview foodData w = Done tt w).
Proof.
  intros Hpage Ef. split; [|split].
  - intros servings listed Tf Es Ts El. split; [|split].
    + intros x rest -> Nx.
      apply (preview_written food servings (VArr (x :: rest)) x); auto.
    + intros Ha Nl.
      apply (preview_written food servings listed listed); auto.
      destruct listed; try reflexivity. discriminate Ha.
    + intros Hnull.
      apply (displayNutritionPreview_throws foodData food servings listed); auto.
      destruct Hnull as [-> | [(x & rest & -> & Nx) | Nl]]; [reflexivity|exact Nx|].
      destruct listed; try discriminate Nl; reflexivity.
  - intros k fs E. unfold field_text. simpl. rewrite E. reflexivity.
  - intros Habs. unfold Dashboard.displayNutritionPreview.
    unfold bind at 1. rewrite Ef; simpl.
    destruct Habs as [Tf | (servings & Es & Ts)].
    + rewrite Tf. reflexivity.
    + destruct (truthy food); [|reflexivity]. simpl.
      unfold bind at 1. rewrite Es; simpl. rewrite Ts. reflexivity.
Qed.
End Preview.

(** C4 at a concrete food: two servings listed, the first one shown. *)
Lemma displayNutritionPreview_fields_witness :
  exists w',
    Dashboard.displayNutritionPreview (H:=Sample.host) Sample.apple Sample.world
      = Done tt w' /\
    shown_text "previewCalories" w' = Some "95" /\
    shown_text "previewFat" w' = Some "0".
Proof.
  assert (Hpage : preview_on_page Sample.world)
    by (repeat split; eexists; vm_compute; reflexivity).
  destruct (proj1 (proj1 (displayNutritionPreview_fields (H:=Sample.host)
                            Sample.apple _ Sample.world Hpage eq_refl)
                     _ _ eq_refl eq_refl eq_refl eq_refl)
              _ _ eq_refl eq_refl) as (w' & E & Hc & _ & _ & Hf).
  exists w'. split; [exact E|]. split; [exact Hc|exact Hf].
Defined.

(** C4 as stated fails for a food whose list of servings is empty:
    [food.servings] is present and [servings.serving] is an array, yet
    the call throws and no preview field is populated. *)
Lemma displayNutritionPreview_empty_servings :
  let servings := VObj [("serving", VArr [])] in
  let foodData := VObj [("food", VObj [("servings", servings)])] in
  let run := Dashboard.displayNutritionPreview (H:=Sample.host) foodData Sample.world in
  truthy servings = true /\
  get_prop servings "serving" = inr (VArr []) /\
  run = Thrown TypeError Sample.world /\
  shown_text "previewCalories" (world_of run) = Some "" /\
  shown_text "previewCalories" (world_of run) <> Some "0".
Proof.
  repeat split; try (vm_compute; reflexivity).
  vm_compute. discriminate.
Qed.

(** ** Dashboard: the goal calculator *)

Section Goals.
Context `{Host}.

Lemma SFmul_comm (prec emax : Z) (x y : spec_float) :
  SFmul prec emax x y = SFmul prec emax y x.
Proof.
  destruct x as [sx|sx| |sx mx ex], y as [sy|sy| |sy my ey]; simpl;
    rewrite ?(xorb_comm sx sy), ?(Pos.mul_comm mx my), ?(Z.add_comm ex ey);
    reflexivity.
Qed.

(** The product of two doubles does not depend on their order. *)
Lemma float_mul_comm (x y : float) : (x * y)%float = (y * x)%float.
Proof. apply Prim2SF_inj. rewrite !mul_spec. apply SFmul_comm. Qed.

Lemma multiplier_refines (activityLevel : string) :
  inherited activityLevel = false ->
  Dashboard.activityMultiplier activityLevel = GoalsSpec.multiplier activityLevel.
Proof.
  intros Hi.
  unfold Dashboard.activityMultiplier, member, Dashboard.activityMultipliers,
         GoalsSpec.multiplier.
  cbn [List.find].
  repeat (destruct (String.eqb activityLevel _); [reflexivity|]).
  rewrite Hi. reflexivity.
Qed.

(** For a level that names an inherited member the factor is NaN. *)
Lemma multiplier_inherited (activityLevel : string) :
  inherited activityLevel = true ->
  Dashboard.activityMultiplier activityLevel = PrimFloat.nan.
Proof.
  unfold inherited, Object_prototype. cbn [existsb].
  rewrite !orb_true_iff, !String.eqb_eq.
  intros Hi. decompose [or] Hi; subst; try reflexivity. discriminate.
Qed.

Lemma SFmul_nan (prec emax : Z) (x : spec_float) :
  SFmul prec emax x S754_nan = S754_nan.
Proof. destruct x; reflexivity. Qed.

Lemma SFadd_nan (prec emax : Z) (y : spec_float) :
  SFadd prec emax S754_nan y = S754_nan.
Proof. destruct y; reflexivity. Qed.

Lemma float_mul_nan (x : float) : (x * PrimFloat.nan)%float = PrimFloat.nan.
Proof.
  apply Prim2SF_inj. rewrite mul_spec.
  change (Prim2SF PrimFloat.nan) with S754_nan. apply SFmul_nan.
Qed.

Lemma float_nan_add (y : float) : (PrimFloat.nan + y)%float = PrimFloat.nan.
Proof.
  apply Prim2SF_inj. rewrite add_spec.
  change (Prim2SF PrimFloat.nan) with S754_nan. apply SFadd_nan.
Qed.

(** The goals object holds the numbers of the specification. *)
Lemma goalsData_refines (age weight height weeklyGoal : float)
    (gender activityLevel : string) :
  inherited activityLevel = false ->
  let calories :=
    GoalsSpec.dailyCalories gender activityLevel weight height age weeklyGoal in
  Dashboard.goalsData age weight height gender activityLevel weeklyGoal
  = VObj [ ("dailyCalories", VNum calories);
           ("dailyProtein", VNum (GoalsSpec.dailyProtein calories));
           ("dailyCarbs", VNum (GoalsSpec.dailyCarbs calories));
           ("dailyFat", VNum (GoalsSpec.dailyFat calories)) ].
Proof.
  intros Hi calories. subst calories. unfold Dashboard.goalsData.
  rewrite (multiplier_refines _ Hi). cbv zeta.
  unfold GoalsSpec.dailyProtein, GoalsSpec.dailyCarbs, GoalsSpec.dailyFat,
         GoalsSpec.dailyCalories, GoalsSpec.TDEE, GoalsSpec.BMR.
  rewrite (float_mul_comm 0.25), (float_mul_comm 0.45), (float_mul_comm 0.30).
  destruct (String.eqb gender "male"); reflexivity.
Qed.

(** With an inherited member for a factor every goal is NaN. *)
Lemma goalsData_inherited (age weight height weeklyGoal : float)
    (gender activityLevel : string) :
  inherited activityLevel = true ->
  Dashboard.goalsData age weight height gender activityLevel weeklyGoal
  = VObj [ ("dailyCalories", VNum PrimFloat.nan);
           ("dailyProtein", VNum PrimFloat.nan);
           ("dailyCarbs", VNum PrimFloat.nan);
           ("dailyFat", VNum PrimFloat.nan) ].
Proof.
  intros Hi. unfold Dashboard.goalsData.
  rewrite (multiplier_inherited _ Hi). cbv zeta.
  rewrite float_mul_nan, float_nan_add.
  reflexivity.
Qed.

Lemma read_value_field (id s : string) (w : World) :
  field_value id w = Some s -> Dashboard.read_value id w = Done s w.
Proof.
  unfold field_value, Dashboard.read_value.
  destruct (document w !! id); simpl; congruence.
Qed.

Lemma filled_truthy (n : float) : ~ not_filled n -> num_falsy n = false.
Proof.
  unfold not_filled, num_falsy. intros Hn.
  destruct (PrimFloat.is_nan n); [destruct Hn; auto|].
  destruct (n =? 0)%float; [destruct Hn; auto|reflexivity].
Qed.

Lemma not_filled_falsy (n : float) : not_filled n -> num_falsy n = true.
Proof.
  unfold not_filled, num_falsy. intros [-> | ->]; [reflexivity|].
  apply orb_true_r.
Qed.

Lemma eqb_empty_false (s : string) : s <> "" -> String.eqb s "" = false.
Proof. intros Hs. apply String.eqb_neq. exact Hs. Qed.

(** The run of [calculateGoals] on a filled form: the four numbers of
    the goals object are shown. *)
Lemma calculateGoals_shows (w : World)
    (age_s weight_s height_s gender activityLevel weekly_s : string)
    (calories protein carbs fat : float) :
  field_value "age" w = Some age_s ->
  field_value "weight" w = Some weight_s ->
  field_value "height" w = Some height_s ->
  field_value "gender" w = Some gender ->
  field_value "activityLevel" w = Some activityLevel ->
  field_value "weeklyGoal" w = Some weekly_s ->
  goals_on_page w ->
  ~ not_filled (parseInt age_s) -> ~ not_filled (parseFloat weight_s) ->
  ~ not_filled (parseInt height_s) ->
  gender <> "" -> activityLevel <> "" ->
  Dashboard.goalsData (parseInt age_s) (parseFloat weight_s) (parseInt height_s)
    gender activityLevel (parseFloat (weeklyGoal_text weekly_s))
  = VObj [ ("dailyCalories", VNum calories); ("dailyProtein", VNum protein);
           ("dailyCarbs", VNum carbs); ("dailyFat", VNum fat) ] ->
  exists w',
    Dashboard.calculateGoals w = Done tt w' /\
    shown_text "dailyCalories" w' = Some (num_to_string calories) /\
    shown_text "dailyProtein" w' = Some (num_to_string protein ++ "g") /\
    shown_text "dailyCarbs" w' = Some (num_to_string carbs ++ "g") /\
    shown_text "dailyFat" w' = Some (num_to_string fat ++ "g") /\
    display <$> (document w' !! "calculatedGoals") = Some "block".
Proof.
  intros Fa Fw Fh Fg Fl Fk (Hm & Hc & Hp & Hb & Hf & Hg) Na Nw Nh Ng Nl Egoals.
  destruct Hm as [em Hm], Hc as [ec Hc], Hp as [ep Hp], Hb as [eb Hb],
           Hf as [ef Hf], Hg as [eg Hg].
  unfold Dashboard.calculateGoals.
  rewrite (world_of_bind _ _ _ _ _ (read_value_field _ _ _ Fa)).
  rewrite (world_of_bind _ _ _ _ _ (read_value_field _ _ _ Fw)).
  rewrite (world_of_bind _ _ _ _ _ (read_value_field _ _ _ Fh)).
  rewrite (world_of_bind _ _ _ _ _ (read_value_field _ _ _ Fg)).
  rewrite (world_of_bind _ _ _ _ _ (read_value_field _ _ _ Fl)).
  rewrite (world_of_bind _ _ _ _ _ (read_value_field _ _ _ Fk)).
  fold (weeklyGoal_text weekly_s).
  rewrite (filled_truthy _ Na), (filled_truthy _ Nw), (filled_truthy _ Nh),
          (eqb_empty_false _ Ng), (eqb_empty_false _ Nl).
  cbn [orb]. rewrite Egoals.
  unfold Dashboard.displayCalculatedGoals. unfold_script. simpl.
  rewrite Hm. simpl.
  rewrite !lookup_insert_ne by discriminate. rewrite Hc. simpl.
  rewrite !lookup_insert_ne by discriminate. rewrite Hp. simpl.
  rewrite !lookup_insert_ne by discriminate. rewrite Hb. simpl.
  rewrite !lookup_insert_ne by discriminate. rewrite Hf. simpl.
  rewrite !lookup_insert_ne by discriminate. rewrite Hg. simpl.
  eexists. split; [reflexivity|].
  unfold shown_text; simpl.
  repeat split;
    rewrite ?lookup_insert_ne by discriminate; rewrite lookup_insert_eq;
    reflexivity.
Qed.

(** C8 (amended): with the form controls and the goal elements on the
    page, (a) when age, weight and height parse to nonzero numbers,
    gender and activity level are chosen, and the level is not the
    name of a member every object inherits, the goals shown are those
    of the specification's formulas, evaluated in double arithmetic:
    BMR by gender, TDEE = BMR times the activity multiplier,
    dailyCalories = round(TDEE + weeklyGoal*7700/7), and protein,
    carbs and fat rounded from 25%, 45% and 30% of the calories at 4,
    4 and 9 kcal per gram; (b) when age, weight or height does not
    parse to a number or is zero, or gender or activity level is
    empty, the error message is shown and no other element changes;
    (c) when the fields are filled in and the level is the name of an
    inherited member, such as 'constructor', every goal shown is
    NaN. *)
Theorem calculateGoals_goals (w : World)
    (age_s weight_s height_s gender activityLevel weekly_s : string) :
  field_value "age" w = Some age_s ->
  field_value "weight" w = Some weight_s ->
  field_value "height" w = Some height_s ->
  field_value "gender" w = Some gender ->
  field_value "activityLevel" w = Some activityLevel ->
  field_value "weeklyGoal" w = Some weekly_s ->
  goals_on_page w ->
  (~ not_filled (parseInt age_s) -> ~ not_filled (parseFloat weight_s) ->
   ~ not_filled (parseInt height_s) ->
   gender <> "" -> activityLevel <> "" ->
   inherited activityLevel = false ->
   let calories :=
     GoalsSpec.dailyCalories gender activityLevel (parseFloat weight_s)
       (parseInt height_s) (parseInt age_s)
       (parseFloat (weeklyGoal_text weekly_s)) in
   exists w',
     Dashboard.calculateGoals w = Done tt w' /\
     shown_text "dailyCalories" w' = Some (num_to_string calories) /\
     shown_text "dailyProtein" w'
       = Some (num_to_string (GoalsSpec.dailyProtein calories) ++ "g") /\
     shown_text "dailyCarbs" w'
       = Some (num_to_string (GoalsSpec.dailyCarbs calories) ++ "g") /\
     shown_text "dailyFat" w'
       = Some (num_to_string (GoalsSpec.dailyFat calories) ++ "g") /\
     display <$> (document w' !! "calculatedGoals") = Some "block") /\
  (not_filled (parseInt age_s) \/ not_filled (parseFloat weight_s) \/
   not_filled (parseInt height_s) \/ gender = "" \/ activityLevel = "" ->
   exists w',
     Dashboard.calculateGoals w = Done tt w' /\
     shown_text "profileMessage" w' = Some Dashboard.fill_in_first /\
     forall id : string,
       id <> "profileMessage" -> document w' !! id = document w !! id) /\
  (~ not_filled (parseInt age_s) -> ~ not_filled (parseFloat weight_s) ->
   ~ not_filled (parseInt height_s) ->
   gender <> "" -> inherited activityLevel = true ->
   exists w',
     Dashboard.calculateGoals w = Done tt w' /\
     shown_text "dailyCalories" w' = Some (num_to_string PrimFloat.nan) /\
     shown_text "dailyProtein" w' = Some (num_to_string PrimFloat.nan ++ "g") /\
     shown_text "dailyCarbs" w' = Some (num_to_string PrimFloat.nan ++ "g") /\
     shown_text "dailyFat" w' = Some (num_to_string PrimFloat.nan ++ "g") /\
     display <$> (document w' !! "calculatedGoals") = Some "block").
Proof.
  intros Fa Fw Fh Fg Fl Fk Hpage. split; [|split].
  - intros Na Nw Nh Ng Nl Hi calories.
    apply (calculateGoals_shows w age_s weight_s height_s gender activityLevel
             weekly_s); auto.
    apply goalsData_refines. exact Hi.
  - intros Hmiss.
    destruct Hpage as ([em Hm] & _).
    assert (Hcond : num_falsy (parseInt age_s) || num_falsy (parseFloat weight_s)
                    || num_falsy (parseInt height_s)
                    || String.eqb gender "" || String.eqb activityLevel "" = true).
    { destruct Hmiss as [Hx|[Hx|[Hx|[Hx|Hx]]]].
      - rewrite (not_filled_falsy _ Hx). reflexivity.
      - rewrite (not_filled_falsy _ Hx). rewrite !orb_true_r. reflexivity.
      - rewrite (not_filled_falsy _ Hx). rewrite !orb_true_r. reflexivity.
      - subst gender. rewrite !orb_true_r. reflexivity.
      - subst activityLevel. rewrite !orb_true_r. reflexivity. }
    unfold Dashboard.calculateGoals.
    rewrite (world_of_bind _ _ _ _ _ (read_value_field _ _ _ Fa)).
    rewrite (world_of_bind _ _ _ _ _ (read_value_field _ _ _ Fw)).
    rewrite (world_of_bind _ _ _ _ _ (read_value_field _ _ _ Fh)).
    rewrite (world_of_bind _ _ _ _ _ (read_value_field _ _ _ Fg)).
    rewrite (world_of_bind _ _ _ _ _ (read_value_field _ _ _ Fl)).
    rewrite (world_of_bind _ _ _ _ _ (read_value_field _ _ _ Fk)).
    rewrite Hcond. unfold_script. simpl. rewrite Hm. simpl.
    rewrite lookup_insert_eq. simpl.
    eexists. split; [reflexivity|]. split.
    + unfold shown_text; simpl. rewrite lookup_insert_eq. reflexivity.
    + intros id Hid. simpl. rewrite !lookup_insert_ne by congruence. reflexivity.
  - intros Na Nw Nh Ng Hi.
    apply (calculateGoals_shows w age_s weight_s height_s gender activityLevel
             weekly_s); auto.
    + intros ->. discriminate Hi.
    + apply goalsData_inherited. exact Hi.
Qed.
End Goals.

(** C8 at a concrete form: gender 'male', age 30, 70 kg, 175 cm,
    moderately active, weekly goal 0. *)
Lemma calculateGoals_goals_witness :
  exists w',
    Dashboard.calculateGoals (H:=Sample.host)
      (Sample.profile_form "30" "70" "175" "male" "moderate" "0") = Done tt w' /\
    shown_text "dailyCalories" w' = Some "2556" /\
    shown_text "dailyProtein" w' = Some "160g" /\
    shown_text "dailyCarbs" w' = Some "288g" /\
    shown_text "dailyFat" w' = Some "85g".
Proof.
  assert (Hpage : goals_on_page
                    (Sample.profile_form "30" "70" "175" "male" "moderate" "0"))
    by (repeat split; eexists; vm_compute; reflexivity).
  destruct (proj1 (calculateGoals_goals (H:=Sample.host)
                     (Sample.profile_form "30" "70" "175" "male" "moderate" "0")
                     "30" "70" "175" "male" "moderate" "0"
                     ltac:(vm_compute; reflexivity) ltac:(vm_compute; reflexivity)
                     ltac:(vm_compute; reflexivity) ltac:(vm_compute; reflexivity)
                     ltac:(vm_compute; reflexivity) ltac:(vm_compute; reflexivity)
                     Hpage)
              ltac:(intros [Hc|Hc]; vm_compute in Hc; discriminate Hc)
              ltac:(intros [Hc|Hc]; vm_compute in Hc; discriminate Hc)
              ltac:(intros [Hc|Hc]; vm_compute in Hc; discriminate Hc)
              ltac:(discriminate) ltac:(discriminate) eq_refl)
    as (w' & E & Hc & Hp & Hb & Hf & _).
  exists w'. repeat split; assumption.
Defined.

(** The level 'constructor' is no key of the multipliers, yet no 1.2
    is used: the goals come out as NaN. *)
Example calculateGoals_inherited_level :
  shown_text "dailyCalories"
    (world_of (Dashboard.calculateGoals (H:=Sample.host)
                 (Sample.profile_form "30" "70" "175" "male" "constructor" "0")))
  = Some "NaN" /\
  shown_text "dailyFat"
    (world_of (Dashboard.calculateGoals (H:=Sample.host)
                 (Sample.profile_form "30" "70" "175" "male" "constructor" "0")))
  = Some "NaNg".
Proof. split; vm_compute; reflexivity. Qed.

(** C8 as stated fails at age 0: the age is a number, yet the error
    message is shown and no goal is computed. *)
Lemma calculateGoals_zero_age_shows_error :
  parseInt (Host:=Sample.host) "0" = 0%float /\
  shown_text "profileMessage"
    (world_of (Dashboard.calculateGoals (H:=Sample.host)
                 (Sample.profile_form "0" "70" "175" "male" "moderate" "0")))
  = Some Dashboard.fill_in_first /\
  shown_text "dailyCalories"
    (world_of (Dashboard.calculateGoals (H:=Sample.host)
                 (Sample.profile_form "0" "70" "175" "male" "moderate" "0")))
  = Some "".
Proof. repeat split; vm_compute; reflexivity. Qed.

(** ** Dashboard: the chart handles *)

Section Charts.
Context `{Host}.

Lemma displayed_after_destroy (canvasId : string) (h i : nat) (w : World) :
  h <> i -> displayed canvasId i w ->
  displayed canvasId i (world_of (Dashboard.destroy h w)).
Proof.
  intros Hne (c & Ec & Hc & Hl). exists c. split; [|auto].
  simpl. rewrite list_lookup_alter_ne by exact Hne. exact Ec.
Qed.

Lemma displayed_after_new (canvasId : string) (i : nat) (w : World)
    (c : ChartInstance) :
  displayed canvasId i w -> displayed canvasId i (with_charts (charts w ++ [c]) w).
Proof.
  intros (c0 & Ec & Hc & Hl). exists c0. split; [|auto].
  simpl. rewrite lookup_app_l; [exact Ec|]. apply lookup_lt_is_Some. eauto.
Qed.


(** Closing the analysis modal leaves both handles null. *)
Lemma closeAnalysisModal_nulls (w : World) :
  is_Some (document w !! "analysisModal") ->
  exists w', Dashboard.closeAnalysisModal w = Done tt w' /\
             macrosChart w' = None /\ caloriesChart w' = None /\ handles_ok w'.
Proof.
  intros [e He]. unfold Dashboard.closeAnalysisModal, Dashboard.destroy.
  unfold_script. rewrite He. simpl.
  destruct (macrosChart w) as [h|] eqn:Em, (caloriesChart w) as [h'|] eqn:Ec;
    simpl; rewrite ?Ec; simpl;
    eexists; (split; [reflexivity|]); unfold handles_ok; simpl;
    rewrite ?Em, ?Ec; simpl; repeat split.
Qed.


(** Without data to draw, [createMacrosChart] destroys the chart it
    held and keeps the handle on it. *)
Lemma createMacrosChart_placeholder (protein carbs fat : js) (w : World) (h : nat) :
  is_Some (document w !! "macrosChart") ->
  macrosChart w = Some h ->
  displayed "macrosChart" h w ->
  Dashboard.is_zero (macros_total protein carbs fat) = true ->
  exists w', Dashboard.createMacrosChart protein carbs fat w = Done tt w' /\
             macrosChart w' = Some h /\
             live <$> (charts w' !! h) = Some false /\
             ~ handles_ok w'.
Proof.
  intros [e He] Eh (c & Ec & Hcc & Hl) Hz.
  unfold Dashboard.createMacrosChart, Dashboard.getContext.
  unfold macros_total in Hz. unfold_script. rewrite He. simpl.
  rewrite Eh. simpl. rewrite Hz. simpl.
  eexists. split; [reflexivity|]. simpl.
  assert (Hdead : live <$> (alter (fun c0 => {| canvas := canvas c0; kind := kind c0;
                                                live := false |}) h (charts w) !! h)
                  = Some false)
    by (rewrite list_lookup_alter_eq, Ec; reflexivity).
  split; [exact Eh|]. split; [exact Hdead|].
  intros [Hm _]. simpl in Hm. rewrite Eh in Hm. simpl in Hm.
  destruct Hm as (c1 & E1 & _ & Hl1). simpl in E1.
  rewrite E1 in Hdead. simpl in Hdead. congruence.
Qed.
End Charts.

(** C3 at the failing input: a chart is drawn (both handles are fine),
    then [createMacrosChart] is called with no macronutrients.  The
    chart is destroyed, yet the handle still refers to it. *)
Theorem createMacrosChart_stale_handle :
  handles_ok Sample.charted /\
  macrosChart Sample.charted = Some 0%nat /\
  exists w',
    Dashboard.createMacrosChart (H:=Sample.host) (VNum 0) (VNum 0)
      (VNum 0) Sample.charted = Done tt w' /\
    macrosChart w' = Some 0%nat /\
    live <$> (charts w' !! 0%nat) = Some false /\
    ~ handles_ok w'.
Proof.
  assert (Hd : displayed "macrosChart" 0 Sample.charted)
    by (eexists; repeat split; reflexivity).
  split; [split; [exact Hd|exact I]|]. split; [reflexivity|].
  apply createMacrosChart_placeholder.
  - eexists; vm_compute; reflexivity.
  - reflexivity.
  - exact Hd.
  - reflexivity.
Qed.

(** ** The debounced food search *)

Section Debounce.
Context `{Host}.
Variable env : Env.
Variable rev : Dashboard.Revision.
Variable token : option string.

Lemma stems_extend (h : list FoodSearch.Event) (e : FoodSearch.Event)
    (i t : nat) (q : string) :
  (i <= length h)%nat -> stems_from_input h i t q ->
  stems_from_input (h ++ [e]) i t q.
Proof.
  intros Hi (j & t0 & text & Hj & Ej & Ht & Hl & Hd & Hk).
  exists j, t0, text. repeat split; auto.
  - rewrite lookup_app_l by lia. exact Ej.
  - intros k Hjk e0 Ek. rewrite lookup_app_l in Ek by lia. eauto.
Qed.

Lemma debounced_typed (h : list FoodSearch.Event) (t : nat) (text : string) :
  debounced h -> debounced (h ++ [FoodSearch.Typed t text]).
Proof.
  intros Hd i t' q Ei.
  destruct (Nat.lt_ge_cases i (length h)) as [Hlt|Hge].
  - rewrite lookup_app_l in Ei by exact Hlt.
    apply stems_extend; [lia|]. apply Hd. exact Ei.
  - rewrite lookup_app_r in Ei by exact Hge.
    destruct (i - length h)%nat; simpl in Ei; [congruence|].
    rewrite lookup_nil in Ei. discriminate.
Qed.

Lemma debounced_searched (h : list FoodSearch.Event) (t : nat) (q : string) :
  debounced h -> stems_from_input h (length h) t q ->
  debounced (h ++ [FoodSearch.Searched t q]).
Proof.
  intros Hd Hs i t' q' Ei.
  destruct (Nat.lt_ge_cases i (length h)) as [Hlt|Hge].
  - rewrite lookup_app_l in Ei by exact Hlt.
    apply stems_extend; [lia|]. apply Hd. exact Ei.
  - rewrite lookup_app_r in Ei by exact Hge.
    destruct (i - length h)%nat eqn:Ed; simpl in Ei.
    + injection Ei as <- <-. replace i with (length h) by lia.
      apply stems_extend; [lia|exact Hs].
    + rewrite lookup_nil in Ei. discriminate.
Qed.

Lemma clearTimeout_one_timer (st : FoodSearch.State) :
  one_timer st ->
  FoodSearch.clearTimeout (FoodSearch.searchTimeout st) (FoodSearch.pending st) = [].
Proof.
  intros [E | (tm & j & t0 & text & E & Es & _)]; rewrite E.
  - destruct (FoodSearch.searchTimeout st); reflexivity.
  - rewrite Es. simpl. rewrite Nat.eqb_refl. reflexivity.
Qed.

Lemma step_invariant (a : FoodSearch.Action) (st : FoodSearch.State) :
  one_timer st /\ debounced (FoodSearch.history st) ->
  one_timer (FoodSearch.step env rev token a st) /\
  debounced (FoodSearch.history (FoodSearch.step env rev token a st)).
Proof.
  intros [Ht Hd]. destruct a as [text|ms|id]; simpl.
  - unfold FoodSearch.on_input. rewrite (clearTimeout_one_timer _ Ht).
    destruct (js_length (trim text) <? 2)%nat eqn:El; simpl.
    + split; [left; reflexivity|apply debounced_typed; exact Hd].
    + split; [|apply debounced_typed; exact Hd].
      right. eexists _, (length (FoodSearch.history st)), _, text. simpl.
      repeat split.
      * rewrite lookup_app_r by lia. rewrite Nat.sub_diag. reflexivity.
      * apply Nat.ltb_ge in El. exact El.
      * intros k Hk. rewrite length_app in Hk. simpl in Hk. lia.
  - split; [|exact Hd]. destruct Ht as [E | (tm & j & t0 & text & E & Hrest)].
    + left. exact E.
    + right. exists tm, j, t0, text. exact (conj E Hrest).
  - unfold FoodSearch.fire.
    destruct Ht as [E | (tm & j & t0 & text & E & Es & Ej & Eq & Hl & Hdue & Hk)].
    + rewrite E. simpl. split; [left; exact E|exact Hd].
    + rewrite E. simpl.
      destruct (Nat.eqb (FoodSearch.timer_id tm) id) eqn:Eid; simpl.
      * destruct (FoodSearch.due tm <=? FoodSearch.now st)%nat eqn:Edue; simpl.
        -- split; [left; reflexivity|].
           apply debounced_searched; [exact Hd|].
           exists j, t0, text. repeat split; auto.
           ++ apply lookup_lt_is_Some. eauto.
           ++ apply Nat.leb_le in Edue. lia.
        -- split; [|exact Hd]. right. exists tm, j, t0, text. auto 10.
      * split; [|exact Hd]. right. exists tm, j, t0, text. auto 10.
Qed.

Lemma run_invariant (actions : list FoodSearch.Action) (st : FoodSearch.State) :
  one_timer st /\ debounced (FoodSearch.history st) ->
  one_timer (FoodSearch.run env rev token actions st) /\
  debounced (FoodSearch.history (FoodSearch.run env rev token actions st)).
Proof.
  revert st. induction actions as [|a actions IH]; intros st Hinv; simpl.
  - exact Hinv.
  - apply IH. apply step_invariant. exact Hinv.
Qed.

Lemma searches_app (h : list FoodSearch.Event) (e : FoodSearch.Event) :
  searches (h ++ [e]) =
  (searches h ++ match e with
                 | FoodSearch.Searched _ q => [q]
                 | FoodSearch.Typed _ _ => []
                 end)%list.
Proof.
  induction h as [|x h IH]; simpl.
  - destruct e; reflexivity.
  - destruct x; simpl; rewrite IH; reflexivity.
Qed.

Lemma displayFoodSuggestions_sent (foods : js) :
  preserves sent (Dashboard.displayFoodSuggestions foods).
Proof.
  unfold Dashboard.displayFoodSuggestions.
  destruct foods as [| | | | |xs|fs]; preserve.
  all: unfold Dashboard.suggestionItem; preserve.
Qed.

(** A search always completes and issues exactly its request. *)
Lemma searchFood_sent (q : string) (w : World) :
  sent (world_of (Dashboard.searchFood env rev token q w))
  = (sent w ++ [search_request env token q])%list.
Proof.
  unfold Dashboard.searchFood, search_request.
  rewrite world_of_try_catch_ret.
  unfold bind at 1, Dashboard.get, Dashboard.get_request.
  rewrite makeApiCall_plain.
  destruct (server env _ _) as [|status json]; simpl; [apply sent_log|].
  destruct (Dashboard.expired rev status) eqn:Ex.
  - rewrite (expired_not_ok _ _ Ex). simpl. apply sent_logged_out.
  - destruct json as [j|]; simpl; [|apply sent_log].
    destruct (ok status); simpl; [|apply sent_log].
    match goal with
    | |- sent (world_of (bind ?m ?k ?w0)) = _ =>
        assert (Hq : preserves sent (bind m k))
    end.
    { apply preserves_bind; [apply preserves_lift|].
      intros foods. apply displayFoodSuggestions_sent. }
    rewrite Hq. apply sent_log.
Qed.

Lemma step_requests (a : FoodSearch.Action) (st : FoodSearch.State)
    (before : list Request) :
  sent (FoodSearch.world st)
    = (before ++ List.map (search_request env token)
                          (searches (FoodSearch.history st)))%list ->
  sent (FoodSearch.world (FoodSearch.step env rev token a st))
    = (before ++ List.map (search_request env token)
                          (searches (FoodSearch.history
                                       (FoodSearch.step env rev token a st))))%list.
Proof.
  intros Hs. destruct a as [text|ms|id]; simpl.
  - unfold FoodSearch.on_input.
    destruct (js_length (trim text) <? 2)%nat; simpl;
      rewrite searches_app, app_nil_r; [|exact Hs].
    rewrite <- Hs. apply (preserves_update sent); reflexivity.
  - exact Hs.
  - unfold FoodSearch.fire.
    destruct (List.find _ _) as [tm|]; [|exact Hs].
    destruct (FoodSearch.due tm <=? FoodSearch.now st)%nat; [|exact Hs].
    simpl. rewrite searchFood_sent, searches_app, map_app, Hs, <- app_assoc.
    reflexivity.
Qed.

Lemma run_requests (actions : list FoodSearch.Action) (st : FoodSearch.State)
    (before : list Request) :
  sent (FoodSearch.world st)
    = (before ++ List.map (search_request env token)
                          (searches (FoodSearch.history st)))%list ->
  sent (FoodSearch.world (FoodSearch.run env rev token actions st))
    = (before ++ List.map (search_request env token)
                          (searches (FoodSearch.history
                                       (FoodSearch.run env rev token actions st))))%list.
Proof.
  revert st. induction actions as [|a actions IH]; intros st Hs; simpl.
  - exact Hs.
  - apply IH. apply step_requests. exact Hs.
Qed.

(** A due timer that runs searches for its query. *)
Lemma fire_due (tm : FoodSearch.Timer) (st : FoodSearch.State) :
  FoodSearch.pending st = [tm] ->
  (FoodSearch.due tm <= FoodSearch.now st)%nat ->
  let st' := FoodSearch.fire env rev token (FoodSearch.timer_id tm) st in
  FoodSearch.history st'
    = (FoodSearch.history st
       ++ [FoodSearch.Searched (FoodSearch.now st) (FoodSearch.query tm)])%list /\
  sent (FoodSearch.world st')
    = (sent (FoodSearch.world st)
       ++ [search_request env token (FoodSearch.query tm)])%list /\
  FoodSearch.pending st' = [].
Proof.
  intros Ep Hdue. unfold FoodSearch.fire. rewrite Ep. simpl.
  rewrite Nat.eqb_refl. rewrite (proj2 (Nat.leb_le _ _) Hdue). simpl.
  split; [reflexivity|]. split; [apply searchFood_sent|reflexivity].
Qed.

(** C9: however input events, the passing of time and the running of
    due timers interleave after [setupFoodSearch], (a) every search
    stems from an input event at least 500 ms earlier, with a trimmed
    text of at least two characters, and no input event in between;
    (b) the requests issued are exactly those of the searches;
    (c) a search that follows an input with a shorter text belongs to
    a later input; (d) after any further input event only the timer
    that event set can be pending, so what was scheduled before is
    cancelled, and for a trimmed text shorter than two characters
    nothing is pending and the suggestion list is cleared; (e) an
    input whose trimmed text has at least two characters does set
    that timer, and when 500 ms or more pass without another input
    and the timer runs, the search for the trimmed text is made and
    its request issued; (f) whenever a pending timer is due and runs,
    the request for its query is issued. *)
Theorem food_search_debounced (actions : list FoodSearch.Action) (w : World) :
  let st := FoodSearch.run env rev token actions (FoodSearch.setupFoodSearch w) in
  debounced (FoodSearch.history st) /\
  sent (FoodSearch.world st)
    = (sent w ++ List.map (search_request env token)
                          (searches (FoodSearch.history st)))%list /\
  (forall (i j t t0 : nat) (q text : string),
     FoodSearch.history st !! j = Some (FoodSearch.Typed t0 text) ->
     (js_length (trim text) < 2)%nat ->
     FoodSearch.history st !! i = Some (FoodSearch.Searched t q) ->
     (j < i)%nat ->
     exists (k t1 : nat) (text1 : string),
       (j < k < i)%nat /\
       FoodSearch.history st !! k = Some (FoodSearch.Typed t1 text1)) /\
  (forall text : string,
     let st' := FoodSearch.on_input text st in
     (forall tm : FoodSearch.Timer,
        In tm (FoodSearch.pending st') ->
        FoodSearch.timer_id tm = FoodSearch.next_id st /\
        FoodSearch.query tm = trim text /\
        FoodSearch.due tm = (FoodSearch.now st + 500)%nat) /\
     ((js_length (trim text) < 2)%nat ->
        FoodSearch.pending st' = [] /\
        (is_Some (document (FoodSearch.world st) !! "foodSuggestions") ->
         innerHTML <$> (document (FoodSearch.world st') !! "foodSuggestions")
           = Some ""))) /\
  (forall text : string,
     (2 <= js_length (trim text))%nat ->
     let st' := FoodSearch.on_input text st in
     FoodSearch.pending st'
       = [ {| FoodSearch.timer_id := FoodSearch.next_id st;
              FoodSearch.due := (FoodSearch.now st + 500)%nat;
              FoodSearch.query := trim text |} ] /\
     forall ms : nat,
       (500 <= ms)%nat ->
       let st'' :=
         FoodSearch.run env rev token
           [FoodSearch.Elapse ms; FoodSearch.Fire (FoodSearch.next_id st)] st' in
       FoodSearch.history st''
         = (FoodSearch.history st
            ++ [ FoodSearch.Typed (FoodSearch.now st) text;
                 FoodSearch.Searched (FoodSearch.now st + ms) (trim text) ])%list /\
       sent (FoodSearch.world st'')
         = (sent (FoodSearch.world st)
            ++ [search_request env token (trim text)])%list /\
       FoodSearch.pending st'' = []) /\
  (forall tm : FoodSearch.Timer,
     In tm (FoodSearch.pending st) ->
     (FoodSearch.due tm <= FoodSearch.now st)%nat ->
     let st' := FoodSearch.fire env rev token (FoodSearch.timer_id tm) st in
     FoodSearch.history st'
       = (FoodSearch.history st
          ++ [FoodSearch.Searched (FoodSearch.now st) (FoodSearch.query tm)])%list /\
     sent (FoodSearch.world st')
       = (sent (FoodSearch.world st)
          ++ [search_request env token (FoodSearch.query tm)])%list /\
     FoodSearch.pending st' = []).
Proof.
  intros st.
  assert (Hinit : one_timer (FoodSearch.setupFoodSearch w) /\
                  debounced (FoodSearch.history (FoodSearch.setupFoodSearch w))).
  { split; [left; reflexivity|]. intros i t q Ei. simpl in Ei.
    rewrite lookup_nil in Ei. discriminate. }
  destruct (run_invariant actions _ Hinit) as [Ht Hd]. fold st in Ht, Hd.
  split; [exact Hd|]. split; [|split; [|split; [|split]]].
  - apply run_requests. simpl. rewrite app_nil_r. reflexivity.
  - intros i j t t0 q text Ej Hshort Ei Hji.
    destruct (Hd i t q Ei) as (j' & t1 & text1 & Hj' & Ej' & Etrim & Hlen & _ & Hk).
    destruct (Nat.lt_trichotomy j' j) as [Hlt | [-> | Hgt]].
    + specialize (Hk j (conj Hlt Hji) _ Ej). discriminate Hk.
    + rewrite Ej in Ej'. injection Ej' as <- <-. subst q. lia.
    + exists j', t1, text1. split; [lia|exact Ej'].
  - intros text st'. subst st'. unfold FoodSearch.on_input.
    rewrite (clearTimeout_one_timer _ Ht). split.
    + intros tm Hin.
      destruct (js_length (trim text) <? 2)%nat; simpl in Hin;
        [destruct Hin|].
      destruct Hin as [<- | []]. simpl. auto.
    + intros Hshort. apply Nat.ltb_lt in Hshort. rewrite Hshort. simpl.
      split; [reflexivity|]. intros [e He]. unfold update. rewrite He. simpl.
      rewrite lookup_insert_eq. reflexivity.
  - intros text Hlong st'.
    assert (Hp : FoodSearch.pending st'
                 = [ {| FoodSearch.timer_id := FoodSearch.next_id st;
                        FoodSearch.due := (FoodSearch.now st + 500)%nat;
                        FoodSearch.query := trim text |} ]).
    { subst st'. unfold FoodSearch.on_input.
      rewrite (clearTimeout_one_timer _ Ht).
      rewrite (proj2 (Nat.ltb_ge _ _) Hlong). reflexivity. }
    assert (Hh : FoodSearch.history st'
                 = (FoodSearch.history st
                    ++ [FoodSearch.Typed (FoodSearch.now st) text])%list
                 /\ FoodSearch.world st' = FoodSearch.world st
                 /\ FoodSearch.now st' = FoodSearch.now st).
    { subst st'. unfold FoodSearch.on_input.
      rewrite (proj2 (Nat.ltb_ge _ _) Hlong). auto. }
    destruct Hh as (Hh & Hw & Hn).
    split; [exact Hp|]. intros ms Hms st''.
    set (st1 := FoodSearch.step env rev token (FoodSearch.Elapse ms) st').
    assert (Hp1 : FoodSearch.pending st1
                  = [ {| FoodSearch.timer_id := FoodSearch.next_id st;
                         FoodSearch.due := (FoodSearch.now st + 500)%nat;
                         FoodSearch.query := trim text |} ]) by exact Hp.
    pose proof (fire_due _ st1 Hp1) as Hfire. simpl in Hfire.
    rewrite Hn in Hfire. specialize (Hfire ltac:(lia)).
    destruct Hfire as (F1 & F2 & F3).
    change st'' with (FoodSearch.fire env rev token (FoodSearch.next_id st) st1).
    split; [|split; [|exact F3]].
    + rewrite F1, Hh, <- app_assoc. reflexivity.
    + rewrite F2, Hw. reflexivity.
  - intros tm Hin Hdue.
    destruct Ht as [E | (tm0 & j & t0 & text & E & _)]; rewrite E in Hin;
      [destruct Hin|].
    destruct Hin as [<- | []]. apply fire_due; assumption.
Qed.
End Debounce.

(** C9 at a concrete run.  A single accented letter is one character:
    the list is cleared and nothing is scheduled.  The text ' ap ' is
    trimmed to two characters: 500 ms later its search is made. *)
Lemma food_search_debounced_witness :
  let typed := [FoodSearch.Input (of_bytes [195; 169])] in
  let st := FoodSearch.run (H:=Sample.host) Sample.env_stats Dashboard.Part003
              (Some "jwt") typed (FoodSearch.setupFoodSearch Sample.world) in
  js_length (trim (of_bytes [195; 169])) = 1%nat /\
  FoodSearch.pending st = [] /\
  sent (FoodSearch.world st) = [] /\
  sent (FoodSearch.world
          (FoodSearch.run (H:=Sample.host) Sample.env_stats Dashboard.Part003
             (Some "jwt")
             [FoodSearch.Input " ap "; FoodSearch.Elapse 500; FoodSearch.Fire 0] st))
  = [search_request (H:=Sample.host) Sample.env_stats (Some "jwt") "ap"].
Proof.
  intros typed st.
  pose proof (food_search_debounced (H:=Sample.host) Sample.env_stats
                Dashboard.Part003 (Some "jwt") typed Sample.world) as Hthm.
  cbv zeta in Hthm. fold st in Hthm.
  destruct Hthm as (_ & Hsent & _ & Hshort & Hlong & _).
  split; [vm_compute; reflexivity|].
  split; [exact (proj1 (proj2 (Hshort (of_bytes [195; 169]))
                          ltac:(vm_compute; lia)))|].
  split; [exact Hsent|].
  destruct (proj2 (Hlong " ap " ltac:(vm_compute; lia)) 500%nat ltac:(lia))
    as (_ & Hreq & _).
  exact Hreq.
Defined.

(** ** Home page: the API helper and the forms *)

Lemma try_catch_bind_done {A B} (m : M A) (k : A -> M B) (h : Exn -> M B)
    (w w1 : World) (a : A) :
  m w = Done a w1 -> try_catch (bind m k) h w = try_catch (k a) h w1.
Proof. intros E. unfold try_catch, bind. rewrite E. reflexivity. Qed.

Lemma try_catch_bind_thrown {A B} (m : M A) (k : A -> M B) (h : Exn -> M B)
    (w w1 : World) (e : Exn) :
  m w = Thrown e w1 -> try_catch (bind m k) h w = h e w1.
Proof. intros E. unfold try_catch, bind. rewrite E. reflexivity. Qed.

Lemma bind_lift_inr {A B} (v : A) (k : A -> M B) (w : World) :
  bind (lift (inr v)) k w = k v w.
Proof. reflexivity. Qed.

Lemma bind_lift_inr' {A B} (v : A) (k : A -> M B) (w : World) :
  bind (ret v) k w = k v w.
Proof. reflexivity. Qed.

Lemma bind_update {B} (id : string) (g : Element -> Element) (k : unit -> M B)
    (w : World) (e : Element) :
  document w !! id = Some e ->
  bind (update id g) k w = k tt (with_document (<[id := g e]> (document w)) w).
Proof. intros E. unfold bind, update. rewrite E. reflexivity. Qed.

(** Runs the next DOM write of a computation whose element is known. *)
Ltac step_update :=
  match goal with
  | |- context [bind (update ?id ?g) ?k ?w] =>
      let e := fresh "e" in
      let E := fresh "E" in
      assert (exists e, document w !! id = Some e) as [e E]
        by (simpl; rewrite ?lookup_insert_eq; eauto);
      rewrite (bind_update id g k w e E); clear E
  end.

Section HomeForms.
Context `{Host}.
Variable env : Env.

(** The world a call leaves when its loading element [id] is on the
    page: the request is logged and the element is cleared. *)
Lemma makeApiCall_answer (endpoint method id : string) (data : js)
    (e : Element) (w : World) :
  id <> "" -> document w !! id = Some e ->
  let r := Home.api_request env endpoint method data in
  let w' := with_document
              (<[id := Home.cleared_state (Home.loading_state e)]> (document w))
              (log (Fetch r) w) in
  Home.makeApiCall env endpoint method data (Some id) w =
  match server env (length (sent w)) r with
  | Response status (Some j) => Done (status, j) w'
  | _ => Thrown (ErrorMsg Home.network_error) w'
  end.
Proof.
  intros Hid He r w'. subst w'. unfold Home.makeApiCall.
  rewrite (proj2 (String.eqb_neq id "") Hid).
  unfold_script. rewrite He. simpl. fold r. fold (sent w).
  destruct (server env (length (sent w)) r) as [|status [j|]]; simpl;
    rewrite lookup_insert_eq; simpl; rewrite insert_insert_eq; reflexivity.
Qed.

Variable rev : Home.Revision.

Lemma showMessage_sent (id type msg : string) :
  preserves sent (Home.showMessage rev id type msg).
Proof. unfold Home.showMessage. preserve. Qed.

Lemma showMessage_storage (id type msg : string) :
  preserves localStorage (Home.showMessage rev id type msg).
Proof. unfold Home.showMessage. preserve. Qed.

(** Showing a message in an element that is on the page. *)
Lemma showMessage_shown (id type msg : string) (e : Element) (w : World) :
  document w !! id = Some e ->
  exists w', Home.showMessage rev id type msg w = Done tt w' /\
             shown_text id w' = Some msg /\
             className <$> (document w' !! id) = Some ("message " ++ type) /\
             sent w' = sent w /\ localStorage w' = localStorage w.
Proof.
  intros He. unfold Home.showMessage. unfold_script. rewrite He.
  destruct rev; simpl; rewrite He; simpl; rewrite lookup_insert_eq; simpl;
    destruct (String.eqb type "success"); simpl;
    eexists; (split; [reflexivity|]); unfold shown_text; simpl;
    rewrite lookup_insert_eq; simpl; repeat split;
    try (change (requests (trace w ++ [?x])) with (sent (log x w));
         rewrite sent_log; apply app_nil_r).
Qed.

Lemma truthy_text (s : string) : s <> "" -> truthy (VStr s) = true.
Proof. intros Hs. simpl. rewrite (proj2 (String.eqb_neq s "") Hs). reflexivity. Qed.

(** C2: with the three fields of the registration form present and
    the message element on the page, (a) a submission with a name, an
    email and a password of at least 6 characters issues exactly one
    request, a POST to [/register] of the API, and a 2xx answer (with
    a JSON body) shows the success message; (b) a submission with a
    password shorter than 6 characters issues no request and shows an
    error message. *)
Theorem register_submit_posts_once (entries : list (string * string))
    (name email password : string) (e : Element) (w : World) :
  get_prop (fromEntries entries) "name" = inr (VStr name) ->
  get_prop (fromEntries entries) "email" = inr (VStr email) ->
  get_prop (fromEntries entries) "password" = inr (VStr password) ->
  document w !! "registerMessage" = Some e ->
  let r := register_request env entries in
  let w' := world_of (Home.register_submit env rev entries w) in
  (name <> "" -> email <> "" -> (6 <= js_length password)%nat ->
     sent w' = (sent w ++ [r])%list /\
     method r = "POST" /\
     url r = Config.API_BASE_URL (Config.CONFIG (hostname env)) ++ "/register" /\
     forall (status : nat) (result : js),
       server env (length (sent w)) r = Response status (Some result) ->
       ok status = true ->
       shown_text "registerMessage" w' = Some (Home.registration_successful rev) /\
       className <$> (document w' !! "registerMessage") = Some "message success") /\
  ((js_length password < 6)%nat ->
     sent w' = sent w /\
     shown_text "registerMessage" w' = Some (rejection name email password) /\
     className <$> (document w' !! "registerMessage") = Some "message error").
Proof.
  intros En Ee Ep He r w'. subst w'. unfold Home.register_submit. cbv zeta.
  rewrite En, bind_lift_inr. cbv beta.
  rewrite Ee, bind_lift_inr. cbv beta.
  rewrite Ep, bind_lift_inr. cbv beta.
  cbn [truthy shorter_than].
  split.
  - intros Hn Hm Hp.
    rewrite (proj2 (String.eqb_neq name "") Hn), (proj2 (String.eqb_neq email "") Hm).
    assert (Hpne : password <> "") by (intros ->; simpl in Hp; lia).
    rewrite (proj2 (String.eqb_neq password "") Hpne). simpl.
    rewrite (proj2 (Nat.ltb_ge _ _) Hp).
    pose proof (makeApiCall_answer "/register" "POST" "registerMessage"
                  (fromEntries entries) e w ltac:(discriminate) He) as Hcall.
    cbv zeta in Hcall. fold (register_request env entries) in Hcall. fold r in Hcall.
    set (w1 := with_document _ (log (Fetch r) w)) in Hcall.
    assert (Hs1 : sent w1 = (sent w ++ [r])%list) by apply sent_log.
    assert (Hd1 : document w1 !! "registerMessage"
                  = Some (Home.cleared_state (Home.loading_state e)))
      by (subst w1; simpl; apply lookup_insert_eq).
    split; [|split; [reflexivity|split]].
    + destruct (server env (length (sent w)) r) as [|status [j|]].
      * rewrite (try_catch_bind_thrown _ _ _ _ _ _ Hcall).
        rewrite (showMessage_sent _ _ _ w1). exact Hs1.
      * rewrite (try_catch_bind_done _ _ _ _ _ _ Hcall).
        rewrite <- Hs1. apply preserves_try_catch;
          [|intros; apply showMessage_sent].
        destruct (ok status); preserve; apply showMessage_sent.
      * rewrite (try_catch_bind_thrown _ _ _ _ _ _ Hcall).
        rewrite (showMessage_sent _ _ _ w1). exact Hs1.
    + unfold r, register_request, Home.api_request, Config.getApiUrl,
        Config.url_join. reflexivity.
    + intros status result Hans Hok. rewrite Hans in Hcall.
      rewrite (try_catch_bind_done _ _ _ _ _ _ Hcall). cbv beta iota.
      rewrite Hok.
      destruct (showMessage_shown "registerMessage" "success"
                  (Home.registration_successful rev) _ w1 Hd1)
        as (w2 & E2 & Ht & Hc & _).
      unfold try_catch. rewrite (world_of_bind _ _ _ _ _ E2).
      unfold_script. simpl. split; [exact Ht|exact Hc].
  - intros Hp. unfold rejection.
    destruct (String.eqb name "" || String.eqb email "" || String.eqb password "")
      eqn:Eempty.
    + assert (Hcond : negb (negb (String.eqb name "")) || negb (negb (String.eqb email ""))
                      || negb (negb (String.eqb password "")) = true)
        by (rewrite !negb_involutive; exact Eempty).
      rewrite Hcond.
      destruct (showMessage_shown "registerMessage" "error"
                  "Please fill in all fields." e w He)
        as (w2 & E2 & Ht & Hc & Hs & _).
      rewrite E2. simpl. auto.
    + assert (Hcond : negb (negb (String.eqb name "")) || negb (negb (String.eqb email ""))
                      || negb (negb (String.eqb password "")) = false)
        by (rewrite !negb_involutive; exact Eempty).
      rewrite Hcond. rewrite (proj2 (Nat.ltb_lt _ _) Hp).
      destruct (showMessage_shown "registerMessage" "error" Home.too_short e w He)
        as (w2 & E2 & Ht & Hc & Hs & _).
      rewrite E2. simpl. auto.
Qed.

Lemma bind_setItem {B} (k v : string) (rest : unit -> M B) (w : World) :
  bind (setItem k v) rest w
  = rest tt (with_storage (<[k := v]> (localStorage w)) w).
Proof. reflexivity. Qed.

Lemma debug_token_storage (tok : js) : preserves localStorage (Home.debug_token tok).
Proof. unfold Home.debug_token. preserve. Qed.

(** The login form of the home page: what a submission stores. *)
Lemma home_login_storage (entries : list (string * string))
    (email password : string) (e : Element) (w : World) :
  get_prop (fromEntries entries) "email" = inr (VStr email) ->
  get_prop (fromEntries entries) "password" = inr (VStr password) ->
  email <> "" -> password <> "" ->
  document w !! "loginMessage" = Some e ->
  let answer := server env (length (sent w)) (home_login_request env entries) in
  let w' := world_of (Home.login_submit env rev entries w) in
  (forall (status : nat) (result tok user : js),
     answer = Response status (Some result) -> ok status = true ->
     get_prop result "token" = inr tok ->
     get_prop result "user" = inr user -> nullish user = false ->
     localStorage w' =
       <[Home.USER_PREFERENCES env := preferences_blob env user]>
         (<[Home.JWT_TOKEN env := to_string tok]> (localStorage w))) /\
  (succeeded answer = false -> localStorage w' = localStorage w).
Proof.
  intros Ee Ep Hm Hp He answer w'. subst w'. unfold Home.login_submit. cbv zeta.
  rewrite Ee, bind_lift_inr. cbv beta.
  rewrite Ep, bind_lift_inr. cbv beta.
  rewrite (truthy_text _ Hm), (truthy_text _ Hp). cbn [negb orb].
  pose proof (makeApiCall_answer "/login" "POST" "loginMessage"
                (fromEntries entries) e w ltac:(discriminate) He) as Hcall.
  cbv zeta in Hcall. fold (home_login_request env entries) in Hcall. fold answer in Hcall.
  set (w1 := with_document _ (log (Fetch (home_login_request env entries)) w)) in Hcall.
  split.
  - intros status result tok user Hans Hok Htok Huser Hnn. rewrite Hans in Hcall.
    rewrite (try_catch_bind_done _ _ _ _ _ _ Hcall). cbv beta iota. rewrite Hok.
    rewrite world_of_try_catch.
    rewrite Htok, bind_lift_inr. cbv beta. rewrite bind_setItem.
    rewrite Huser, bind_lift_inr. cbv beta.
    destruct (get_prop_defined user "id" Hnn) as (vi & Evi).
    destruct (get_prop_defined user "name" Hnn) as (vn & Evn).
    destruct (get_prop_defined user "email" Hnn) as (ve & Eve).
    rewrite Evi, bind_lift_inr. cbv beta.
    rewrite Evn, bind_lift_inr. cbv beta.
    rewrite Eve, bind_lift_inr. cbv beta.
    rewrite bind_setItem.
    rewrite <- world_of_try_catch.
    match goal with
    | |- localStorage (world_of (try_catch ?m ?h ?w0)) = _ =>
        assert (Htail : preserves localStorage (try_catch m h))
    end.
    { apply preserves_try_catch; [|intros; apply showMessage_storage].
      apply preserves_bind; [apply showMessage_storage|]. intros _.
      apply preserves_bind; [apply storage_effect|]. intros _.
      apply preserves_bind; [apply preserves_when, debug_token_storage|]. intros _.
      apply storage_effect. }
    rewrite Htail. unfold preferences_blob. rewrite Evi, Evn, Eve. reflexivity.
  - intros Hfail.
    destruct answer as [|status [result|]].
    + rewrite (try_catch_bind_thrown _ _ _ _ _ _ Hcall).
      rewrite showMessage_storage. reflexivity.
    + simpl in Hfail.
      rewrite (try_catch_bind_done _ _ _ _ _ _ Hcall). cbv beta iota. rewrite Hfail.
      match goal with
      | |- localStorage (world_of (try_catch ?m ?h ?w0)) = _ =>
          assert (Htail : preserves localStorage (try_catch m h))
      end.
      { apply preserves_try_catch; [|intros; apply showMessage_storage].
        apply preserves_bind; [apply preserves_lift|]. intros err.
        apply showMessage_storage. }
      rewrite Htail. reflexivity.
    + rewrite (try_catch_bind_thrown _ _ _ _ _ _ Hcall).
      rewrite showMessage_storage. reflexivity.
Qed.

(** The stand-alone login forms: what a submission stores. *)
Lemma standalone_login_storage (script : Standalone.Script)
    (entries : list (string * string)) (e : Element) (w : World) :
  document w !! "loginMessage" = Some e ->
  let answer := server env (length (sent w)) (Standalone.login_request script entries) in
  let w' := world_of (Standalone.login_submit env script entries w) in
  (forall (status : nat) (result tok : js),
     answer = Response status (Some result) -> ok status = true ->
     get_prop result "token" = inr tok ->
     localStorage w' = <["token" := to_string tok]> (localStorage w)) /\
  (succeeded answer = false -> localStorage w' = localStorage w).
Proof.
  intros He answer w'. subst w'. unfold Standalone.login_submit. cbv zeta.
  set (r := Standalone.login_request script entries) in *.
  assert (Hf : fetch env r w =
               match answer with
               | NetworkError => Thrown FetchRejected (log (Fetch r) w)
               | Response status json => Done (status, json) (log (Fetch r) w)
               end) by reflexivity.
  clearbody answer. split.
  - intros status result tok Hans Hok Htok. rewrite Hans in Hf.
    rewrite (world_of_bind _ _ _ _ _ Hf). cbv beta iota.
    change (response_json (Some result)) with (ret result).
    rewrite bind_lift_inr'. cbv beta. rewrite Hok.
    destruct script.
    + step_update. step_update. rewrite Htok, bind_lift_inr. cbv beta.
      rewrite bind_setItem. reflexivity.
    + rewrite Htok, bind_lift_inr. cbv beta. rewrite bind_setItem.
      step_update. step_update. reflexivity.
  - intros Hfail. destruct answer as [|status [result|]].
    + unfold bind. rewrite Hf. reflexivity.
    + simpl in Hfail. rewrite (world_of_bind _ _ _ _ _ Hf). cbv beta iota.
      change (response_json (Some result)) with (ret result).
      rewrite bind_lift_inr'. cbv beta. rewrite Hfail.
      step_update.
      destruct (get_prop result "error") as [err|v]; [reflexivity|].
      rewrite bind_lift_inr. cbv beta.
      match goal with
      | |- localStorage (world_of (update ?id ?g ?w0)) = _ =>
          rewrite (preserves_update localStorage (fun _ _ => eq_refl) id g w0)
      end.
      reflexivity.
    + rewrite (world_of_bind _ _ _ _ _ Hf). reflexivity.
Qed.

(** C6 (amended): for a submission of a login form whose message
    element is on the page, (a) the login form of the home page, with
    email and password filled in, stores the bearer token and the
    user-preferences blob when the answer is 2xx and its JSON body
    carries a user object; (b) the stand-alone login forms store the
    token only, under the key 'token'; (c) each of these forms leaves
    local storage as it was when the answer is not a 2xx answer. *)
Theorem login_submit_storage (entries : list (string * string))
    (email password : string) (e : Element) (w : World) :
  get_prop (fromEntries entries) "email" = inr (VStr email) ->
  get_prop (fromEntries entries) "password" = inr (VStr password) ->
  email <> "" -> password <> "" ->
  document w !! "loginMessage" = Some e ->
  let answer := server env (length (sent w)) (home_login_request env entries) in
  let w' := world_of (Home.login_submit env rev entries w) in
  (forall (status : nat) (result tok user : js),
     answer = Response status (Some result) -> ok status = true ->
     get_prop result "token" = inr tok ->
     get_prop result "user" = inr user -> nullish user = false ->
     localStorage w' =
       <[Home.USER_PREFERENCES env := preferences_blob env user]>
         (<[Home.JWT_TOKEN env := to_string tok]> (localStorage w))) /\
  (succeeded answer = false -> localStorage w' = localStorage w) /\
  (forall script : Standalone.Script,
     let answer' :=
       server env (length (sent w)) (Standalone.login_request script entries) in
     let w'' := world_of (Standalone.login_submit env script entries w) in
     (forall (status : nat) (result tok : js),
        answer' = Response status (Some result) -> ok status = true ->
        get_prop result "token" = inr tok ->
        localStorage w'' = <["token" := to_string tok]> (localStorage w)) /\
     (succeeded answer' = false -> localStorage w'' = localStorage w)).
Proof.
  intros Ee Ep Hm Hp He answer w'.
  destruct (home_login_storage entries email password e w Ee Ep Hm Hp He)
    as [Hok Hfail].
  split; [exact Hok|]. split; [exact Hfail|].
  intros script. apply (standalone_login_storage script entries e w He).
Qed.
End HomeForms.

(** C2 at a concrete submission: a 7-character password, a server that
    answers 200. *)
Lemma register_submit_posts_once_witness :
  sent (world_of (Home.register_submit (H:=Sample.host) Sample.env_login Home.HomeB
                    Sample.register_entries Sample.world))
    = [register_request (H:=Sample.host) Sample.env_login Sample.register_entries] /\
  shown_text "registerMessage"
    (world_of (Home.register_submit (H:=Sample.host) Sample.env_login Home.HomeB
                 Sample.register_entries Sample.world))
    = Some (Home.registration_successful Home.HomeB).
Proof.
  destruct (proj1 (register_submit_posts_once (H:=Sample.host) Sample.env_login
                     Home.HomeB Sample.register_entries "Asha" "asha@example.com"
                     "secret1" (Sample.element "") Sample.world
                     eq_refl eq_refl eq_refl ltac:(vm_compute; reflexivity))
              ltac:(discriminate) ltac:(discriminate) ltac:(simpl; lia))
    as (Hsent & _ & _ & Hshown).
  split; [exact Hsent|].
  exact (proj1 (Hshown 200%nat Sample.login_result eq_refl eq_refl)).
Defined.

(** C6 at a concrete login on the home page: both keys are written. *)
Lemma login_submit_storage_witness :
  localStorage
    (world_of (Home.login_submit (H:=Sample.host) Sample.env_login Home.HomeB
                 Sample.login_entries Sample.world))
    !! "nutrition_advisor_token" = Some "abc.def.ghi" /\
  is_Some
    (localStorage
       (world_of (Home.login_submit (H:=Sample.host) Sample.env_login Home.HomeB
                    Sample.login_entries Sample.world))
       !! "nutrition_advisor_prefs").
Proof.
  pose proof (proj1 (login_submit_storage (H:=Sample.host) Sample.env_login
                       Home.HomeB Sample.login_entries "asha@example.com" "secret1"
                       (Sample.element "") Sample.world
                       eq_refl eq_refl ltac:(discriminate) ltac:(discriminate)
                       ltac:(vm_compute; reflexivity))
                200%nat Sample.login_result (VStr "abc.def.ghi")
                (VObj [ ("id", VStr "u1"); ("name", VStr "Asha");
                        ("email", VStr "asha@example.com") ])
                eq_refl eq_refl eq_refl eq_refl eq_refl) as Hst.
  rewrite Hst. split.
  - vm_compute. reflexivity.
  - eexists. vm_compute. reflexivity.
Defined.

(** C6 as stated fails for the stand-alone form: after a 200 answer
    the token is the only key in local storage; no preferences are
    written. *)
Lemma standalone_login_writes_token_only :
  server Sample.env_login 0
    (Standalone.login_request (H:=Sample.host) Standalone.ScriptJs Sample.login_entries)
    = Response 200 (Some Sample.login_result) /\
  localStorage
    (world_of (Standalone.login_submit (H:=Sample.host) Sample.env_login
                 Standalone.ScriptJs Sample.login_entries Sample.world))
    = {[ "token" := "abc.def.ghi" ]} /\
  localStorage
    (world_of (Standalone.login_submit (H:=Sample.host) Sample.env_login
                 Standalone.ScriptJs Sample.login_entries Sample.world))
    !! "nutrition_advisor_prefs" = None.
Proof.
  split; [reflexivity|]. split; vm_compute; reflexivity.
Qed.

(** ** Closed examples *)

Example CONFIG_on_localhost :
  Config.ENVIRONMENT (Config.CONFIG "localhost") = "development" /\
  Config.getApiUrl (Config.CONFIG "localhost") "meals" = "http://localhost:5000/meals" /\
  Config.DEBUG_MODE (Config.FEATURES (Config.CONFIG "127.0.0.1")) = false /\
  Config.API_BASE_URL (Config.CONFIG "nutrition-advisor-frontend.onrender.com")
    = "https://nutrition-advisor-a93q.onrender.com".
Proof. repeat split. Qed.

Example deleteMeal_declined :
  Dashboard.issued
    (Dashboard.deleteMeal (H:=Sample.host)
       (Sample.env_with (Response 200 (Some (VObj []))) false)
       Dashboard.Part003 (Some "jwt") "m1")
    Sample.world = [].
Proof. vm_compute. reflexivity. Qed.

Example deleteMeal_confirmed :
  List.map url
    (Dashboard.issued
       (Dashboard.deleteMeal (H:=Sample.host)
          (Sample.env_with (Response 200 (Some (VObj []))) true)
          Dashboard.Part003 (Some "jwt") "m1")
       Sample.world)
  = [ "http://localhost:5000/meal/delete/m1";
      "http://localhost:5000/meals/stats";
      "http://localhost:5000/profile";
      "http://localhost:5000/meals?date=2025-01-15" ].
Proof. vm_compute. reflexivity. Qed.

Example deleteMeal_rejected :
  List.map url
    (Dashboard.issued
       (Dashboard.deleteMeal (H:=Sample.host)
          (Sample.env_with (Response 500 (Some (VObj []))) true)
          Dashboard.Part002 (Some "jwt") "m1")
       Sample.world)
  = [ "http://localhost:5000/meal/delete/m1" ].
Proof. vm_compute. reflexivity. Qed.

(** Typing "a", "ap" and " app " within 400 ms and then pausing: one
    search, for "app", 500 ms after the last key. *)
Example typing_then_pausing :
  FoodSearch.history
    (FoodSearch.run (H:=Sample.host) Sample.env_login Dashboard.Part003 (Some "jwt")
       [ FoodSearch.Input "a"; FoodSearch.Elapse 100; FoodSearch.Input "ap";
         FoodSearch.Elapse 300; FoodSearch.Input " app "; FoodSearch.Elapse 200;
         FoodSearch.Fire 0; FoodSearch.Fire 1; FoodSearch.Elapse 300;
         FoodSearch.Fire 0; FoodSearch.Fire 1 ]
       (FoodSearch.setupFoodSearch Sample.world))
  = [ FoodSearch.Typed 0 "a"; FoodSearch.Typed 100 "ap";
      FoodSearch.Typed 400 " app "; FoodSearch.Searched 900 "app" ].
Proof. vm_compute. reflexivity. Qed.

Example js_length_examples :
  js_length "secret" = 6%nat /\
  js_length (of_bytes [195; 169; 195; 169; 195; 169]) = 3%nat /\
  js_length (of_bytes [231; 177; 179]) = 1%nat /\
  js_length (of_bytes [240; 159; 141; 142]) = 2%nat /\
  shorter_than (VStr (of_bytes [195; 169; 195; 169; 195; 169])) 6 = true.
Proof. repeat split. Qed.

Example trim_examples :
  trim "  rice  " = "rice" /\ trim " a " = "a" /\
  trim "   " = "" /\ trim "brown rice" = "brown rice" /\
  trim (of_bytes [194; 160; 97; 226; 128; 168; 239; 187; 191]) = "a" /\
  trim (of_bytes [226; 128; 139; 97]) = of_bytes [226; 128; 139; 97].
Proof. repeat split. Qed.

Example Math_round_examples :
  (Math_round 2.5 = 3 /\ Math_round (-2.5) = -2 /\ Math_round 14.49 = 14 /\
   Math_round (-0.2) = -0 /\ Math_round 0.49999999999999994 = 0 /\
   Math_round (2500 / 1800 * 100) = 139 /\
   Math_round (290 / 2000 * 100) = 14 /\ Math_round (100 * 290 / 2000) = 15 /\
   Math_floor (-1.5) = -2 /\ Math_floor 1.5 = 1 /\ Math_floor (-3) = -3 /\
   Math_min 139 100 = 100 /\ Math_min 14 100 = 14 /\ Math_min 0 (-0) = -0 /\
   PrimFloat.is_nan (Math_min PrimFloat.nan 100) = true)%float.
Proof. repeat split; vm_compute; reflexivity. Qed.

(** * Further properties *)

(** ** Configuration helpers *)

Lemma prefix_slash (endpoint : string) : String.prefix "/" ("/" ++ endpoint) = true.
Proof. simpl. destruct (ascii_dec "/" "/"); [destruct endpoint; reflexivity|congruence]. Qed.

(** X1: [getApiUrl] puts exactly one slash between the base URL and an
    endpoint written with or without its leading slash, and the
    requests of the dashboard script (with CONFIG loaded) and of the
    home page script go to that URL. *)
Theorem getApiUrl_one_slash `{Host} (env : Env) (token : option string)
    (endpoint method : string) (data : js) :
  String.prefix "/" endpoint = false ->
  let c := Config.CONFIG (hostname env) in
  Config.getApiUrl c endpoint = Config.API_BASE_URL c ++ "/" ++ endpoint /\
  Config.getApiUrl c ("/" ++ endpoint) = Config.getApiUrl c endpoint /\
  (config_loaded env = true ->
   url (Dashboard.api_request env token ("/" ++ endpoint) method data)
   = Config.getApiUrl c endpoint) /\
  url (Home.api_request env ("/" ++ endpoint) method data)
  = Config.getApiUrl c endpoint.
Proof.
  intros Hp c.
  assert (E1 : Config.getApiUrl c endpoint = Config.API_BASE_URL c ++ "/" ++ endpoint).
  { unfold Config.getApiUrl, Config.url_join. rewrite Hp. reflexivity. }
  assert (E2 : forall base, Config.url_join base ("/" ++ endpoint)
                            = base ++ "/" ++ endpoint).
  { intros base. unfold Config.url_join. rewrite prefix_slash. reflexivity. }
  split; [exact E1|]. split; [|split].
  - unfold Config.getApiUrl at 1. rewrite E2, E1. reflexivity.
  - intros Hc. unfold Dashboard.api_request, Dashboard.API_URL; simpl.
    rewrite Hc, E2, E1. reflexivity.
  - unfold Home.api_request, Home.CONFIG, Config.getApiUrl at 1; simpl.
    fold c. rewrite E2, E1. reflexivity.
Qed.

Lemma getApiUrl_one_slash_witness :
  Config.getApiUrl (Config.CONFIG "localhost") "login" = "http://localhost:5000/login" /\
  Config.getApiUrl (Config.CONFIG "localhost") "/login" = "http://localhost:5000/login".
Proof.
  destruct (getApiUrl_one_slash (H:=Sample.host) Sample.env_login (Some "jwt")
              "login" "POST" VNull eq_refl) as (E1 & E2 & _).
  split; [exact E1|exact (eq_trans E2 E1)].
Defined.

(** X2: for every hostname exactly one of [isLocal] and [isProduction]
    holds, [isLocal] holds on localhost and 127.0.0.1 only, debug mode
    is on only in a local environment (but not on 127.0.0.1), and
    analytics, the service worker and the longer default timeout go
    with debug mode being off. *)
Theorem CONFIG_environment_flags (h : string) :
  let c := Config.CONFIG h in
  Config.isLocal c = negb (Config.isProduction c) /\
  (Config.isLocal c = true <-> h = "localhost" \/ h = "127.0.0.1") /\
  (Config.DEBUG_MODE (Config.FEATURES c) = true -> Config.isLocal c = true) /\
  Config.ANALYTICS (Config.FEATURES c) = negb (Config.DEBUG_MODE (Config.FEATURES c)) /\
  Config.SERVICE_WORKER (Config.FEATURES c)
  = negb (Config.DEBUG_MODE (Config.FEATURES c)) /\
  Config.DEFAULT (Config.TIMEOUTS c)
  = (if Config.DEBUG_MODE (Config.FEATURES c) then 5000 else 10000)%Z /\
  Config.isLocal (Config.CONFIG "127.0.0.1") = true /\
  Config.DEBUG_MODE (Config.FEATURES (Config.CONFIG "127.0.0.1")) = false.
Proof.
  intros c. subst c. pose proof (local_host_spec h) as Hl.
  unfold Config.isLocal, Config.isProduction. simpl.
  assert (Hd : String.eqb h "localhost" = true -> Config.local_host h = true).
  { intros E. unfold Config.local_host. rewrite E. reflexivity. }
  destruct (String.eqb h "localhost") eqn:Eh, (Config.local_host h) eqn:El;
    simpl; repeat split; auto; try discriminate;
    try (specialize (Hd eq_refl); discriminate);
    try (intros _; apply Hl; reflexivity);
    try (intros Hc; apply Hl in Hc; discriminate).
Qed.

(** ** Session: logout, the token guard and the greeting *)

Lemma logged_app {A} (m : M A) (w : World) (es : list Effect) :
  trace (world_of (m w)) = (trace w ++ es)%list -> logged m w = es.
Proof. intros E. unfold logged. rewrite E. apply drop_app_length. Qed.

Section Session.
Context `{Host} `{Parser}.
Variable env : Env.

(** X3: [logout] removes the token (and, with CONFIG loaded, the
    preferences), keeps every other key and the page, only navigates
    to [index.html], and leaves a storage with which the dashboard
    script, when it loads again, goes to [home.html]. *)
Theorem logout_clears_session (w : World) :
  let w' := world_of (Dashboard.logout env w) in
  Dashboard.logout env w = Done tt w' /\
  stored_token env w' = None /\
  (config_loaded env = true ->
   localStorage w' !! Home.USER_PREFERENCES env = None) /\
  (forall k : string,
     k <> Dashboard.TOKEN_KEY env ->
     (config_loaded env = true -> k <> Home.USER_PREFERENCES env) ->
     localStorage w' !! k = localStorage w !! k) /\
  document w' = document w /\
  logged (Dashboard.logout env) w = [Navigate "index.html"] /\
  Dashboard.require_login (stored_token env w') w'
  = Done tt (log (Navigate "home.html") w').
Proof.
  intros w'. subst w'. unfold stored_token, Dashboard.logout.
  unfold_script. unfold Home.USER_PREFERENCES, Home.CONFIG.
  set (pk := Config.USER_PREFERENCES _).
  assert (Hne : pk <> Dashboard.TOKEN_KEY env).
  { subst pk. unfold Dashboard.TOKEN_KEY. destruct (config_loaded env); cbn; discriminate. }
  destruct (config_loaded env) eqn:Ec; simpl.
  - assert (Hnone : delete pk (delete (Dashboard.TOKEN_KEY env) (localStorage w))
                      !! Dashboard.TOKEN_KEY env = None).
    { rewrite lookup_delete_ne by exact Hne. apply lookup_delete_eq. }
    split; [reflexivity|]. split; [exact Hnone|]. split; [|split; [|split; [|split]]].
    + intros _. apply lookup_delete_eq.
    + intros k Hk Hp. specialize (Hp eq_refl).
      rewrite !lookup_delete_ne by congruence. reflexivity.
    + reflexivity.
    + apply logged_app. unfold_script. simpl. reflexivity.
    + unfold Dashboard.require_login. rewrite Hnone. reflexivity.
  - assert (Hnone : delete (Dashboard.TOKEN_KEY env) (localStorage w)
                      !! Dashboard.TOKEN_KEY env = None) by apply lookup_delete_eq.
    split; [reflexivity|]. split; [exact Hnone|]. split; [|split; [|split; [|split]]].
    + discriminate.
    + intros k Hk _. rewrite lookup_delete_ne by congruence. reflexivity.
    + reflexivity.
    + apply logged_app. unfold_script. simpl. reflexivity.
    + unfold Dashboard.require_login. rewrite Hnone. reflexivity.
Qed.

(** What [loadUserInfo] does when the greeting element is on the page:
    it writes some text [g] to it. *)
Lemma loadUserInfo_run (w : World) (e : Element) :
  document w !! "welcomeText" = Some e ->
  let stored := localStorage w !! Dashboard.prefs_key env in
  exists g : string,
    Dashboard.loadUserInfo env w
    = Done tt (with_document (<["welcomeText" := set_textContent g e]> (document w)) w) /\
    (stored = None \/ stored = Some "" -> g = "Welcome back!") /\
    (forall text : string,
       stored = Some text -> text <> "" ->
       (JSON_parse text = None -> g = "Welcome back!") /\
       (forall user : js,
          JSON_parse text = Some user ->
          (nullish user = true -> g = "Welcome back!") /\
          (forall name : js,
             get_prop user "name" = inr name ->
             g = "Welcome back, " ++ to_string name ++ "!"))).
Proof.
  intros He stored. subst stored.
  unfold Dashboard.loadUserInfo, getItem, parse_json. unfold_script.
  destruct (localStorage w !! Dashboard.prefs_key env) as [text|] eqn:Es.
  - destruct (String.eqb text "") eqn:Et.
    + apply String.eqb_eq in Et. subst text. rewrite He.
      exists "Welcome back!". split; [reflexivity|]. split; [reflexivity|].
      intros text' [= <-] Hne. congruence.
    + apply String.eqb_neq in Et.
      destruct (JSON_parse text) as [user|] eqn:Ep.
      * destruct (get_prop user "name") as [err|name] eqn:En;
          unfold_script; cbv beta iota; rewrite He.
        -- exists "Welcome back!". split; [reflexivity|]. split; [reflexivity|].
           intros text' [= <-] _. split; [reflexivity|].
           intros user' Hu. rewrite Ep in Hu. injection Hu as <-.
           split; [reflexivity|]. intros name Hn. congruence.
        -- exists ("Welcome back, " ++ to_string name ++ "!").
           split; [reflexivity|]. split.
           ++ intros [Hc|Hc]; [discriminate|]. congruence.
           ++ intros text' [= <-] _. split; [congruence|].
              intros user' Hu. rewrite Ep in Hu. injection Hu as <-. split.
              ** intros Hnull. destruct user; discriminate.
              ** intros name' Hn. congruence.
      * unfold_script. cbv beta iota. rewrite He. exists "Welcome back!".
        split; [reflexivity|]. split; [reflexivity|].
        intros text' [= <-] _. split; [reflexivity|]. intros user Hc. congruence.
  - rewrite He. exists "Welcome back!".
    split; [reflexivity|]. split; [reflexivity|]. intros text Hc. discriminate.
Qed.

(** X5: with the greeting element on the page [loadUserInfo] never
    throws, writes to that element only, and shows the plain greeting
    when no preferences are stored, when they are empty, when they do
    not parse, and when they parse to [null] or [undefined]; otherwise
    it greets with the [name] of the parsed value. *)
Theorem loadUserInfo_greets (w : World) (e : Element) :
  document w !! "welcomeText" = Some e ->
  let stored := localStorage w !! Dashboard.prefs_key env in
  let w' := world_of (Dashboard.loadUserInfo env w) in
  Dashboard.loadUserInfo env w = Done tt w' /\
  localStorage w' = localStorage w /\
  trace w' = trace w /\
  (forall id : string, id <> "welcomeText" -> document w' !! id = document w !! id) /\
  (stored = None \/ stored = Some "" ->
   shown_text "welcomeText" w' = Some "Welcome back!") /\
  (forall text : string,
     stored = Some text -> text <> "" ->
     (JSON_parse text = None ->
      shown_text "welcomeText" w' = Some "Welcome back!") /\
     (forall user : js,
        JSON_parse text = Some user ->
        (nullish user = true ->
         shown_text "welcomeText" w' = Some "Welcome back!") /\
        (forall name : js,
           get_prop user "name" = inr name ->
           shown_text "welcomeText" w'
           = Some ("Welcome back, " ++ to_string name ++ "!")))).
Proof.
  intros He stored w'.
  destruct (loadUserInfo_run w e He) as (g & Hrun & Hplain & Hparsed).
  fold stored in Hplain, Hparsed. subst w'. rewrite Hrun. simpl.
  assert (Hshown : shown_text "welcomeText"
                     (with_document (<["welcomeText" := set_textContent g e]> (document w)) w)
                   = Some g).
  { unfold shown_text. simpl. rewrite lookup_insert_eq. reflexivity. }
  rewrite Hshown.
  split; [reflexivity|]. split; [reflexivity|]. split; [reflexivity|].
  split; [intros id Hid; rewrite lookup_insert_ne by congruence; reflexivity|].
  split; [intros Hs; f_equal; auto|].
  intros text Hs Hne. destruct (Hparsed text Hs Hne) as [Hnone Hsome].
  split; [intros Hp; f_equal; auto|].
  intros user Hu. destruct (Hsome user Hu) as [Hnull Hname].
  split; [intros Hn; f_equal; auto|].
  intros name Hn. f_equal. auto.
Qed.
End Session.

(** X5 at a concrete page: the stored preferences name Asha. *)
Lemma loadUserInfo_greets_witness :
  shown_text "welcomeText"
    (world_of (Dashboard.loadUserInfo (H:=Sample.host) (H0:=Sample.parser)
                 Sample.env_login Sample.greeted))
  = Some "Welcome back, Asha!".
Proof.
  destruct (loadUserInfo_greets (H:=Sample.host) (H0:=Sample.parser)
              Sample.env_login Sample.greeted (Sample.element "")
              ltac:(vm_compute; reflexivity))
    as (_ & _ & _ & _ & _ & Hparsed).
  destruct (Hparsed _ ltac:(vm_compute; reflexivity) ltac:(vm_compute; discriminate))
    as [_ Hsome].
  exact (proj2 (Hsome (VObj [("name", VStr "Asha")]) ltac:(vm_compute; reflexivity))
               (VStr "Asha") eq_refl).
Defined.

Section CrossPage.
Context `{Host} `{Parser}.
Variable env : Env.
Variable rev : Home.Revision.

(** X4: the token a login stores and the key under which the dashboard
    script looks for it.  The home page stores it under the key of
    CONFIG, which the dashboard reads when CONFIG is loaded there; the
    stand-alone forms store it under 'token', which the dashboard reads
    only without CONFIG.  In the other two cases the login changes
    nothing of what the dashboard finds, so a visitor without a token
    is sent to [home.html]. *)
Theorem login_token_key_agreement (entries : list (string * string))
    (email password : string) (e : Element) (w : World)
    (status : nat) (result tok user : js) :
  get_prop (fromEntries entries) "email" = inr (VStr email) ->
  get_prop (fromEntries entries) "password" = inr (VStr password) ->
  email <> "" -> password <> "" ->
  document w !! "loginMessage" = Some e ->
  server env (length (sent w)) (home_login_request env entries)
    = Response status (Some result) ->
  ok status = true ->
  get_prop result "token" = inr tok ->
  get_prop result "user" = inr user -> nullish user = false ->
  let w1 := world_of (Home.login_submit env rev entries w) in
  (config_loaded env = true -> stored_token env w1 = Some (to_string tok)) /\
  (config_loaded env = false -> stored_token env w1 = stored_token env w) /\
  (forall (script : Standalone.Script) (status' : nat) (result' tok' : js),
     server env (length (sent w)) (Standalone.login_request script entries)
       = Response status' (Some result') ->
     ok status' = true ->
     get_prop result' "token" = inr tok' ->
     let w2 := world_of (Standalone.login_submit env script entries w) in
     (config_loaded env = false -> stored_token env w2 = Some (to_string tok')) /\
     (config_loaded env = true ->
      stored_token env w2 = stored_token env w /\
      (stored_token env w = None ->
       logged (Dashboard.require_login (stored_token env w2)) w2
       = [Navigate "home.html"]))).
Proof.
  intros Ee Ep Hm Hp He Hans Hok Htok Huser Hnn w1.
  pose proof (proj1 (home_login_storage env rev entries email password e w
                       Ee Ep Hm Hp He)
                status result tok user Hans Hok Htok Huser Hnn) as Hst.
  fold w1 in Hst. unfold stored_token, Dashboard.TOKEN_KEY.
  split; [|split].
  - intros Hc. rewrite Hc, Hst.
    rewrite lookup_insert_ne by (cbn; discriminate).
    apply lookup_insert_eq.
  - intros Hc. rewrite Hc, Hst.
    rewrite !lookup_insert_ne by (cbn; discriminate). reflexivity.
  - intros script status' result' tok' Hans' Hok' Htok'. cbv zeta.
    set (w2 := world_of (Standalone.login_submit env script entries w)).
    pose proof (proj1 (standalone_login_storage env script entries e w He)
                  status' result' tok' Hans' Hok' Htok') as Hst2.
    fold w2 in Hst2. split.
    + intros Hc. rewrite Hc, Hst2. apply lookup_insert_eq.
    + intros Hc. rewrite Hc.
      assert (Hsame : localStorage w2 !! Config.JWT_TOKEN
                        (Config.STORAGE_KEYS (Config.CONFIG (hostname env)))
                      = localStorage w !! Config.JWT_TOKEN
                          (Config.STORAGE_KEYS (Config.CONFIG (hostname env)))).
      { rewrite Hst2. apply lookup_insert_ne. cbn. discriminate. }
      split; [exact Hsame|]. intros Hnone. rewrite Hsame, Hnone.
      apply logged_app. reflexivity.
Qed.

(** X6: a login on the home page followed by a load of the dashboard
    (with CONFIG loaded there): when [JSON.parse] reads the stored
    preferences back to a value with the user's [name], the dashboard
    greets the user by that name. *)
Theorem login_then_greeting (entries : list (string * string))
    (email password : string) (e : Element) (w : World)
    (status : nat) (result tok user name parsed : js) :
  get_prop (fromEntries entries) "email" = inr (VStr email) ->
  get_prop (fromEntries entries) "password" = inr (VStr password) ->
  email <> "" -> password <> "" ->
  document w !! "loginMessage" = Some e ->
  server env (length (sent w)) (home_login_request env entries)
    = Response status (Some result) ->
  ok status = true ->
  get_prop result "token" = inr tok ->
  get_prop result "user" = inr user -> nullish user = false ->
  config_loaded env = true ->
  preferences_blob env user <> "" ->
  JSON_parse (preferences_blob env user) = Some parsed ->
  get_prop parsed "name" = inr name ->
  forall (page : World) (greeting : Element),
    localStorage page = localStorage (world_of (Home.login_submit env rev entries w)) ->
    document page !! "welcomeText" = Some greeting ->
    shown_text "welcomeText" (world_of (Dashboard.loadUserInfo env page))
    = Some ("Welcome back, " ++ to_string name ++ "!").
Proof.
  intros Ee Ep Hm Hp He Hans Hok Htok Huser Hnn Hc Hne Hparse Hname page greeting
         Hsame Hg.
  pose proof (proj1 (home_login_storage env rev entries email password e w
                       Ee Ep Hm Hp He)
                status result tok user Hans Hok Htok Huser Hnn) as Hst.
  destruct (loadUserInfo_run env page greeting Hg) as (g & Hrun & _ & Hparsed).
  assert (Hstored : localStorage page !! Dashboard.prefs_key env
                    = Some (preferences_blob env user)).
  { rewrite Hsame, Hst. unfold Dashboard.prefs_key. rewrite Hc.
    apply lookup_insert_eq. }
  destruct (Hparsed _ Hstored Hne) as [_ Hsome].
  rewrite Hrun, <- (proj2 (Hsome parsed Hparse) name Hname).
  unfold shown_text. simpl. rewrite lookup_insert_eq. reflexivity.
Qed.
End CrossPage.

(** X4 at a concrete login (CONFIG loaded on the dashboard): the home
    page's token is found, the stand-alone form's is not. *)
Lemma login_token_key_agreement_witness :
  stored_token Sample.env_login
    (world_of (Home.login_submit (H:=Sample.host) Sample.env_login Home.HomeB
                 Sample.login_entries Sample.world))
  = Some "abc.def.ghi" /\
  stored_token Sample.env_login
    (world_of (Standalone.login_submit (H:=Sample.host) Sample.env_login
                 Standalone.ScriptJs Sample.login_entries Sample.world))
  = None.
Proof.
  destruct (login_token_key_agreement (H:=Sample.host) Sample.env_login Home.HomeB
              Sample.login_entries "asha@example.com" "secret1"
              (Sample.element "") Sample.world 200%nat Sample.login_result
              (VStr "abc.def.ghi")
              (VObj [ ("id", VStr "u1"); ("name", VStr "Asha");
                      ("email", VStr "asha@example.com") ])
              eq_refl eq_refl ltac:(discriminate) ltac:(discriminate)
              ltac:(vm_compute; reflexivity)
              eq_refl eq_refl eq_refl eq_refl eq_refl)
    as (Hhome & _ & Hstandalone).
  split; [exact (Hhome eq_refl)|].
  destruct (Hstandalone Standalone.ScriptJs 200%nat Sample.login_result
              (VStr "abc.def.ghi") eq_refl eq_refl eq_refl) as [_ Hloaded].
  exact (proj1 (Hloaded eq_refl)).
Defined.

(** X6 at a concrete login: Asha logs in and opens the dashboard. *)
Lemma login_then_greeting_witness :
  shown_text "welcomeText"
    (world_of (Dashboard.loadUserInfo (H:=Sample.host) (H0:=Sample.parser)
                 Sample.env_login
                 (with_storage
                    (localStorage
                       (world_of (Home.login_submit (H:=Sample.host) Sample.env_login
                                    Home.HomeB Sample.login_entries Sample.world)))
                    Sample.dashboard)))
  = Some "Welcome back, Asha!".
Proof.
  exact (login_then_greeting (H:=Sample.host) (H0:=Sample.parser)
           Sample.env_login Home.HomeB
           Sample.login_entries "asha@example.com" "secret1"
           (Sample.element "") Sample.world 200%nat Sample.login_result
           (VStr "abc.def.ghi")
           (VObj [ ("id", VStr "u1"); ("name", VStr "Asha");
                   ("email", VStr "asha@example.com") ])
           (VStr "Asha")
           (VObj [ ("user_id", VStr "u1"); ("name", VStr "Asha");
                   ("email", VStr "asha@example.com");
                   ("loginTime", VStr "2025-01-15T10:30:00.000Z") ])
           eq_refl eq_refl ltac:(discriminate) ltac:(discriminate)
           ltac:(vm_compute; reflexivity)
           eq_refl eq_refl eq_refl eq_refl eq_refl eq_refl
           ltac:(vm_compute; discriminate)
           ltac:(vm_compute; reflexivity) eq_refl
           (with_storage
              (localStorage
                 (world_of (Home.login_submit (H:=Sample.host) Sample.env_login
                              Home.HomeB Sample.login_entries Sample.world)))
              Sample.dashboard)
           (Sample.element "") eq_refl ltac:(vm_compute; reflexivity)).
Defined.

(** ** Computations that do not look at the trace *)

Lemma ignores_ret {A} (a : A) : ignores_trace (ret a).
Proof. intros e w. reflexivity. Qed.

Lemma ignores_throw {A} (x : Exn) : ignores_trace (throw (A:=A) x).
Proof. intros e w. reflexivity. Qed.

Lemma ignores_lift {A} (r : Exn + A) : ignores_trace (lift r).
Proof. destruct r as [x|a]; intros e w; reflexivity. Qed.

Lemma ignores_update (id : string) (g : Element -> Element) :
  ignores_trace (update id g).
Proof.
  intros e w. unfold update. simpl. destruct (document w !! id); reflexivity.
Qed.

Lemma ignores_bind {A B} (m : M A) (k : A -> M B) :
  ignores_trace m -> (forall a, ignores_trace (k a)) -> ignores_trace (bind m k).
Proof.
  intros Hm Hk e w. unfold bind. rewrite Hm.
  destruct (m w) as [a w'|x w']; simpl; [apply Hk|reflexivity].
Qed.

Lemma ignores_document {A} (m : M A) (e : Effect) (w : World) :
  ignores_trace m ->
  document (world_of (m (log e w))) = document (world_of (m w)).
Proof. intros Hm. rewrite Hm. destruct (m w); reflexivity. Qed.

(** ** The two statistics loaders *)

Section Loaders.
Context `{Host}.
Variable env : Env.
Variable token : option string.

(** Without a personal goal the progress is the server's. *)
Lemma goalProgress_fallback (stats progress : js) (w w2 : World)
    (p : option (nat * js)) :
  no_personal_goal (server env (length (sent w))
                      (Dashboard.get_request env token "/profile")) ->
  Dashboard.caught (Dashboard.get env Dashboard.Part002 token "/profile") w
    = Done p w2 ->
  get_prop stats "goal_progress" = inr progress ->
  forall w3 : World, Dashboard.goalProgress stats p w3 = Done progress w3.
Proof.
  intros Hno Hp Hgp w3. rewrite caught_get_answer in Hp. cbv zeta in Hp.
  unfold Dashboard.goalProgress. rewrite Hgp, bind_lift_inr.
  destruct (server env (length (sent w)) _) as [|status [profile|]];
    simpl in Hp; injection Hp as <- _; try reflexivity.
  simpl in Hno. destruct (ok status) eqn:Eok; [|reflexivity].
  destruct Hno as [Hno|(v & Hv & Hf)]; [discriminate|].
  rewrite Hv, bind_lift_inr, Hf. reflexivity.
Qed.

(** X7: in the revision that has both loaders, the older
    [loadMealStats] and [loadMealStatsWithGoals] leave the same page
    whenever the answer to the profile request gives no personal goal;
    the older one sends the statistics request only. *)
Theorem loadMealStats_agrees (w : World) :
  no_personal_goal (server env (S (length (sent w)))
                      (Dashboard.get_request env token "/profile")) ->
  document (world_of (Dashboard.loadMealStatsWithGoals env Dashboard.Part002 token w))
  = document (world_of (Dashboard.loadMealStats env Dashboard.Part002 token w)) /\
  sent (world_of (Dashboard.loadMealStats env Dashboard.Part002 token w))
  = (sent w ++ [Dashboard.get_request env token "/meals/stats"])%list.
Proof.
  intros Hno.
  set (r1 := Dashboard.get_request env token "/meals/stats").
  set (w1 := log (Fetch r1) w).
  assert (Hlen : length (sent w1) = S (length (sent w))).
  { subst w1. rewrite sent_log, length_app. simpl. lia. }
  assert (Hchain : forall a b c d : string,
            ignores_trace (update "caloriesCount" (set_textContent a) >>
                           update "mealsCount" (set_textContent b) >>
                           update "goalProgress" (set_textContent c) >>
                           update "streakCount" (set_textContent d))).
  { intros a b c d. repeat (apply ignores_bind; [apply ignores_update|intros _]).
    apply ignores_update. }
  assert (Hsent : forall a b c d : string,
            preserves sent (update "caloriesCount" (set_textContent a) >>
                            update "mealsCount" (set_textContent b) >>
                            update "goalProgress" (set_textContent c) >>
                            update "streakCount" (set_textContent d))).
  { intros a b c d. preserve. }
  (* the older loader *)
  assert (Hold : Dashboard.loadMealStats env Dashboard.Part002 token w =
    match server env (length (sent w)) r1 with
    | Response status (Some stats) =>
        if ok status then
          try_catch
            (let* total_calories := lift (get_prop stats "total_calories") in
             update "caloriesCount" (set_textContent (text_of total_calories)) >>
             let* meals_count := lift (get_prop stats "meals_count") in
             update "mealsCount" (set_textContent (text_of meals_count)) >>
             let* goal_progress := lift (get_prop stats "goal_progress") in
             update "goalProgress" (set_textContent (to_string goal_progress ++ "%")) >>
             let* streak := lift (get_prop stats "streak") in
             update "streakCount" (set_textContent (text_of streak)))
            (fun _ => ret tt) w1
        else Done tt w1
    | _ => Done tt w1
    end).
  { unfold Dashboard.loadMealStats, Dashboard.get, try_catch, bind at 1.
    rewrite makeApiCall_plain. cbv zeta.
    change (Dashboard.api_request env token "/meals/stats" "GET" VNull) with r1.
    fold (sent w). fold w1.
    destruct (server env (length (sent w)) r1) as [|status [stats|]];
      simpl; try reflexivity.
    destruct (ok status); reflexivity. }
  (* the loader with goals *)
  pose proof (caught_get_answer env Dashboard.Part002 token "/meals/stats" w) as E1.
  cbv zeta in E1. fold r1 in E1. fold w1 in E1.
  unfold Dashboard.loadMealStatsWithGoals.
  rewrite world_of_try_catch_ret, Hold.
  destruct (server env (length (sent w)) r1) as [|status [stats|]] eqn:Ea;
    simpl in E1; rewrite (world_of_bind _ _ _ _ _ E1).
  - (* the statistics request fails *)
    destruct (Dashboard.caught (Dashboard.get env Dashboard.Part002 token "/profile") w1)
      as [p w2|x w2] eqn:E2.
    + rewrite (world_of_bind _ _ _ _ _ E2). simpl.
      pose proof (caught_call_sent env Dashboard.Part002 token "/profile" w1) as Hs.
      split; [|subst w1; rewrite sent_log; reflexivity].
      rewrite caught_get_answer in E2. cbv zeta in E2.
      destruct (server env (length (sent w1)) _) as [|st [j|]]; simpl in E2;
        injection E2 as _ <-; reflexivity.
    + rewrite caught_get_answer in E2. cbv zeta in E2.
      destruct (server env (length (sent w1)) _) as [|st [j|]]; discriminate.
  - (* the statistics arrive *)
    pose proof (caught_get_answer env Dashboard.Part002 token "/profile" w1) as E2.
    cbv zeta in E2. set (r2 := Dashboard.get_request env token "/profile") in *.
    assert (E2' : exists p, Dashboard.caught
                              (Dashboard.get env Dashboard.Part002 token "/profile") w1
                            = Done p (log (Fetch r2) w1)).
    { rewrite E2. destruct (server env (length (sent w1)) r2) as [|st [j|]];
        simpl; eauto. }
    destruct E2' as [p Hp]. rewrite (world_of_bind _ _ _ _ _ Hp).
    unfold Dashboard.showStats.
    destruct (ok status) eqn:Eok.
    + rewrite world_of_try_catch_ret.
      destruct (get_prop stats "goal_progress") as [x|progress] eqn:Egp.
      * (* the body is null: nothing is written *)
        assert (Hnull : forall k, get_prop stats k = inl x).
        { intros k. destruct stats; try discriminate; simpl in *; congruence. }
        unfold Dashboard.goalProgress. rewrite !Hnull. simpl.
        split; [reflexivity|]. subst w1. rewrite sent_log. reflexivity.
      * assert (Hdef : forall k, exists v, get_prop stats k = inr v).
        { intros k. destruct stats; try discriminate; simpl; eauto. }
        destruct (Hdef "total_calories") as [v1 Ev1].
        destruct (Hdef "meals_count") as [v2 Ev2].
        destruct (Hdef "streak") as [v4 Ev4].
        rewrite Hlen in *.
        rewrite (world_of_bind _ _ _ _ _
                   (goalProgress_fallback stats progress w1 _ p
                      ltac:(rewrite Hlen; exact Hno) Hp Egp _)).
        rewrite Ev1, Ev2, Ev4, !bind_lift_inr.
        split.
        -- apply (ignores_document _ (Fetch r2) w1 (Hchain _ _ _ _)).
        -- etransitivity; [exact (Hsent _ _ _ _ w1)|].
           subst w1. rewrite sent_log. reflexivity.
    + simpl. split; [reflexivity|]. subst w1. rewrite sent_log. reflexivity.
  - (* the statistics body is not JSON *)
    destruct (Dashboard.caught (Dashboard.get env Dashboard.Part002 token "/profile") w1)
      as [p w2|x w2] eqn:E2.
    + rewrite (world_of_bind _ _ _ _ _ E2). simpl.
      split; [|subst w1; rewrite sent_log; reflexivity].
      rewrite caught_get_answer in E2. cbv zeta in E2.
      destruct (server env (length (sent w1)) _) as [|st [j|]]; simpl in E2;
        injection E2 as _ <-; reflexivity.
    + rewrite caught_get_answer in E2. cbv zeta in E2.
      destruct (server env (length (sent w1)) _) as [|st [j|]]; discriminate.
Qed.
End Loaders.

(** X7 at a concrete server: the profile has no [dailyCalories]. *)
Lemma loadMealStats_agrees_witness :
  document
    (world_of (Dashboard.loadMealStatsWithGoals (H:=Sample.host)
                 (Sample.env_with (Response 200 (Some Sample.stats)) true)
                 Dashboard.Part002 (Some "jwt") Sample.world))
  = document
      (world_of (Dashboard.loadMealStats (H:=Sample.host)
                   (Sample.env_with (Response 200 (Some Sample.stats)) true)
                   Dashboard.Part002 (Some "jwt") Sample.world)).
Proof.
  apply (loadMealStats_agrees (H:=Sample.host)
           (Sample.env_with (Response 200 (Some Sample.stats)) true)
           (Some "jwt") Sample.world).
  simpl. right. exists VUndef. split; reflexivity.
Defined.

(** ** Dashboard: choosing a food and adding a meal *)

(** Runs the next DOM write of a computation whose element is on the
    page. *)
Ltac lookup_doc :=
  repeat first [ rewrite lookup_insert_eq
               | rewrite lookup_insert_ne by discriminate ].

Ltac present_in_doc := simpl; lookup_doc; eauto.

Ltac run_update :=
  match goal with
  | |- context [bind (update ?id ?g) ?k ?w] =>
      let e := fresh "e" in
      let E := fresh "E" in
      assert (exists e, document w !! id = Some e) as [e E] by present_in_doc;
      rewrite (bind_update id g k w e E); clear E
  end.

Ltac run_effect :=
  match goal with
  | |- context [bind (effect ?e) ?k ?w] =>
      change (bind (effect e) k w) with (k tt (log e w)); cbv beta
  end.

Lemma bind_assoc {A B C} (m : M A) (k1 : A -> M B) (k2 : B -> M C) (w : World) :
  bind (bind m k1) k2 w = bind m (fun a => bind (k1 a) k2) w.
Proof. unfold bind. destruct (m w); reflexivity. Qed.

Ltac reassociate :=
  match goal with
  | |- context [bind (bind ?m ?k1) ?k2 ?x] =>
      rewrite (bind_assoc m k1 k2 x); cbv beta
  end.

(** Runs a computation whose outcome [E] is known. *)
Ltac run_known E :=
  match type of E with
  | ?m ?w = Done ?a ?w1 =>
      match goal with
      | |- context [bind m ?k w] =>
          rewrite (world_of_bind m k w w1 a E); cbv beta
      end
  end.

(** Reads off the text of an element after a series of writes. *)
Ltac read_doc :=
  unfold shown_text, field_value; simpl; lookup_doc; try reflexivity.

Section Calls.
Context `{Host}.
Variable env : Env.
Variable rev : Dashboard.Revision.
Variable token : option string.

(** The two ways a call without loading indicator can end: with the
    body of a 2xx answer, or, leaving the page as it was, with an
    exception or a status that is not 2xx. *)
Lemma call_cases (endpoint method : string) (data : js) (w : World) :
  let r := Dashboard.api_request env token endpoint method data in
  let answer := server env (length (sent w)) r in
  let call := Dashboard.makeApiCall env rev token endpoint method data false in
  (forall (status : nat) (j : js),
     answer = Response status (Some j) -> ok status = true ->
     call w = Done (status, j) (log (Fetch r) w)) /\
  (succeeded answer = false ->
   exists w1 : World,
     document w1 = document w /\
     sent w1 = (sent w ++ [r])%list /\
     ((exists x : Exn, call w = Thrown x w1) \/
      (exists (status : nat) (res : js),
         call w = Done (status, res) w1 /\ ok status = false))).
Proof.
  intros r answer call. subst call.
  pose proof (makeApiCall_plain env token rev endpoint method data w) as Hcall.
  cbv zeta in Hcall. fold r in Hcall. fold (sent w) in Hcall. fold answer in Hcall.
  split.
  - intros status j Ha Hok. rewrite Hcall, Ha, (ok_not_expired rev _ Hok).
    reflexivity.
  - intros Hfail. rewrite Hcall. clear Hcall.
    destruct answer as [|status json].
    + exists (log (Fetch r) w). split; [reflexivity|].
      split; [apply sent_log|]. left. eauto.
    + destruct (Dashboard.expired rev status) eqn:Ex.
      * exists (Dashboard.logged_out env r w). split; [reflexivity|].
        split; [apply sent_logged_out|]. right.
        eexists _, _. split; [reflexivity|]. apply (expired_not_ok rev _ Ex).
      * exists (log (Fetch r) w). split; [reflexivity|].
        split; [apply sent_log|].
        destruct json as [j|]; [right|left; eauto].
        eexists _, _. split; [reflexivity|exact Hfail].
Qed.

(** X8: when the food details do not arrive (the request fails, the
    answer is not JSON, or its status is not 2xx), [selectFood] shows
    'Error' for the calories, leaves 'Loading...' in the other three
    preview fields, keeps [selectedFood] as it was, and has sent
    exactly the details request. *)
Theorem selectFood_failure (foodId foodName : string) (selectedFood : js)
    (w : World) :
  selection_on_page w ->
  succeeded (server env (length (sent w)) (details_request env token foodId))
    = false ->
  exists w' : World,
    Dashboard.selectFood env rev token foodId foodName selectedFood w
      = Done selectedFood w' /\
    shown_text "previewCalories" w' = Some "Error" /\
    shown_text "previewProtein" w' = Some "Loading..." /\
    shown_text "previewCarbs" w' = Some "Loading..." /\
    shown_text "previewFat" w' = Some "Loading..." /\
    field_value "selectedFoodId" w' = Some foodId /\
    sent w' = (sent w ++ [details_request env token foodId])%list.
Proof.
  intros (Hi & Hn & Hs & Hg & Hc & Hp & Hb & Hf & Hv) Hfail.
  destruct Hi as [ei Hi], Hn as [en Hn], Hs as [es Hs], Hg as [eg Hg],
           Hc as [ec Hc], Hp as [ep Hp], Hb as [eb Hb], Hf as [ef Hf],
           Hv as [ev Hv].
  unfold Dashboard.selectFood, Dashboard.get. do 9 run_update. cbv beta.
  match goal with |- context [try_catch _ _ ?x] => set (w0 := x) end.
  assert (Hsent0 : sent w0 = sent w) by reflexivity.
  rewrite <- Hsent0 in *.
  destruct (proj2 (call_cases ("/food/details/" ++ foodId) "GET" VNull w0) Hfail)
    as (w1 & Hdoc & Hsent & [[x Hx]|(status & res & Hres & Hok)]).
  - rewrite (try_catch_bind_thrown _ _ _ _ _ _ Hx).
    assert (exists x, document w1 !! "previewCalories" = Some x) as [e' E]
      by (rewrite Hdoc; subst w0; present_in_doc).
    rewrite (bind_update _ _ _ _ _ E).
    eexists. split; [reflexivity|].
    repeat split; try exact Hsent; read_doc;
      rewrite Hdoc; subst w0; read_doc.
  - rewrite (try_catch_bind_done _ _ _ _ _ _ Hres).
    cbv beta iota. rewrite Hok.
    assert (exists x, document w1 !! "previewCalories" = Some x) as [e' E]
      by (rewrite Hdoc; subst w0; present_in_doc).
    unfold try_catch. rewrite (bind_update _ _ _ _ _ E).
    eexists. split; [reflexivity|].
    repeat split; try exact Hsent; read_doc;
      rewrite Hdoc; subst w0; read_doc.
Qed.

(** Data without [food] or [food.servings] leaves the preview as it
    is. *)
Lemma preview_skipped (foodData food : js) (w : World) :
  get_prop foodData "food" = inr food ->
  truthy food = false \/
  (exists servings, get_prop food "servings" = inr servings /\
                    truthy servings = false) ->
  Dashboard.displayNutritionPreview foodData w = Done tt w.
Proof.
  intros Ef Habs. unfold Dashboard.displayNutritionPreview.
  unfold bind at 1. rewrite Ef; simpl.
  destruct Habs as [Tf | (servings & Es & Ts)].
  - rewrite Tf. reflexivity.
  - destruct (truthy food); [|reflexivity]. simpl.
    unfold bind at 1. rewrite Es; simpl. rewrite Ts. reflexivity.
Qed.

(** A serving that is [null] or [undefined] makes the preview throw
    before it writes. *)
Lemma preview_throws (foodData food servings listed : js) (w : World) :
  get_prop foodData "food" = inr food -> truthy food = true ->
  get_prop food "servings" = inr servings -> truthy servings = true ->
  get_prop servings "serving" = inr listed ->
  nullish (Dashboard.chosen_serving listed) = true ->
  Dashboard.displayNutritionPreview foodData w = Thrown TypeError w.
Proof.
  intros Ef Tf Es Ts El Hn. unfold Dashboard.displayNutritionPreview.
  unfold bind at 1. rewrite Ef; simpl. rewrite Tf; simpl.
  unfold bind at 1. rewrite Es; simpl. rewrite Ts; simpl.
  unfold bind at 1. rewrite El; simpl.
  destruct (Dashboard.chosen_serving listed); try discriminate; reflexivity.
Qed.

(** X9: when the food details arrive with a 2xx status, [selectFood]
    (a) shows the values of the serving and makes the details the
    selected food; (b) shows 'Error' and keeps the selected food when
    the serving to read is [null] or [undefined]; (c) leaves
    'Loading...' in all four fields, and still makes the details the
    selected food, when they have no [food] or no [food.servings]. *)
Theorem selectFood_success (foodId foodName : string) (selectedFood result : js)
    (status : nat) (w : World) :
  selection_on_page w ->
  server env (length (sent w)) (details_request env token foodId)
    = Response status (Some result) ->
  ok status = true ->
  let run := Dashboard.selectFood env rev token foodId foodName selectedFood w in
  (forall food servings listed : js,
     get_prop result "food" = inr food -> truthy food = true ->
     get_prop food "servings" = inr servings -> truthy servings = true ->
     get_prop servings "serving" = inr listed ->
     (nullish (Dashboard.chosen_serving listed) = false ->
      exists w' : World,
        run = Done result w' /\
        preview_shows (Dashboard.chosen_serving listed) w') /\
     (nullish (Dashboard.chosen_serving listed) = true ->
      exists w' : World,
        run = Done selectedFood w' /\
        shown_text "previewCalories" w' = Some "Error")) /\
  (forall food : js,
     get_prop result "food" = inr food ->
     truthy food = false \/
     (exists servings, get_prop food "servings" = inr servings /\
                       truthy servings = false) ->
     exists w' : World,
       run = Done result w' /\
       shown_text "previewCalories" w' = Some "Loading..." /\
       shown_text "previewProtein" w' = Some "Loading..." /\
       shown_text "previewCarbs" w' = Some "Loading..." /\
       shown_text "previewFat" w' = Some "Loading...").
Proof.
  intros (Hi & Hn & Hs & Hg & Hc & Hp & Hb & Hf & Hv) Hans Hok run. subst run.
  destruct Hi as [ei Hi], Hn as [en Hn], Hs as [es Hs], Hg as [eg Hg],
           Hc as [ec Hc], Hp as [ep Hp], Hb as [eb Hb], Hf as [ef Hf],
           Hv as [ev Hv].
  unfold Dashboard.selectFood, Dashboard.get. do 9 run_update. cbv beta.
  match goal with |- context [try_catch _ _ ?x] => set (w0 := x) end.
  pose proof (proj1 (call_cases ("/food/details/" ++ foodId) "GET" VNull w0)
                status result Hans Hok) as Hcall.
  set (w1 := log _ w0) in Hcall.
  rewrite (try_catch_bind_done _ _ _ _ _ _ Hcall). cbv beta iota. rewrite Hok.
  assert (Hpage : preview_on_page w1).
  { subst w1 w0. repeat split; present_in_doc. }
  split.
  - intros food servings listed Ef Tf Es Ts El. split.
    + intros Nn.
      destruct (preview_written food servings listed _ result w1 Hpage
                  Ef Tf Es Ts El eq_refl Nn) as (w' & Hrun & Hshows).
      exists w'. split; [|exact Hshows].
      unfold try_catch, bind. rewrite Hrun. reflexivity.
    + intros Nn.
      rewrite (try_catch_bind_thrown _ _ _ _ _ _
                 (preview_throws result food servings listed w1 Ef Tf Es Ts El Nn)).
      assert (exists x, document w1 !! "previewCalories" = Some x) as [e' E]
        by (subst w1 w0; present_in_doc).
      rewrite (bind_update _ _ _ _ _ E).
      eexists. split; [reflexivity|]. read_doc.
  - intros food Ef Habs.
    unfold try_catch, bind. rewrite (preview_skipped result food w1 Ef Habs).
    eexists. split; [reflexivity|].
    subst w1 w0. repeat split; read_doc.
Qed.
End Calls.

(** X8 at a concrete server that is out of order. *)
Lemma selectFood_failure_witness :
  exists w' : World,
    Dashboard.selectFood (H:=Sample.host) Sample.env500 Dashboard.Part003 (Some "jwt")
      "33691" "Apple" VNull Sample.dashboard = Done VNull w' /\
    shown_text "previewCalories" w' = Some "Error" /\
    shown_text "previewFat" w' = Some "Loading...".
Proof.
  assert (Hpage : selection_on_page Sample.dashboard)
    by (repeat split; eexists; vm_compute; reflexivity).
  destruct (selectFood_failure (H:=Sample.host) Sample.env500 Dashboard.Part003
              (Some "jwt") "33691" "Apple" VNull Sample.dashboard Hpage eq_refl)
    as (w' & E & Hc & _ & _ & Hf & _).
  exists w'. split; [exact E|]. split; [exact Hc|exact Hf].
Defined.

(** X9 at a concrete food: the first serving of the apple is shown. *)
Lemma selectFood_success_witness :
  exists w' : World,
    Dashboard.selectFood (H:=Sample.host) Sample.env_apple Dashboard.Part003 (Some "jwt")
      "33691" "Apple" VNull Sample.dashboard = Done Sample.apple w' /\
    shown_text "previewCalories" w' = Some "95" /\
    shown_text "previewFat" w' = Some "0".
Proof.
  assert (Hpage : selection_on_page Sample.dashboard)
    by (repeat split; eexists; vm_compute; reflexivity).
  destruct (proj1 (proj1 (selectFood_success (H:=Sample.host) Sample.env_apple
                            Dashboard.Part003 (Some "jwt") "33691" "Apple" VNull
                            Sample.apple 200%nat Sample.dashboard Hpage
                            eq_refl eq_refl)
                     _ _ _ eq_refl eq_refl eq_refl eq_refl eq_refl)
              eq_refl) as (w' & E & Hc & _ & _ & Hf).
  exists w'. split; [exact E|]. split; [exact Hc|exact Hf].
Defined.

(** ** Elements a computation does not write to *)

Lemma keeps_update (id id' : string) (g : Element -> Element) :
  id' <> id -> preserves (fun w => document w !! id) (update id' g).
Proof.
  intros Hne w. unfold update. destruct (document w !! id') eqn:E; simpl; auto.
  apply lookup_insert_ne. exact Hne.
Qed.

Lemma keeps_effect (id : string) (e : Effect) :
  preserves (fun w => document w !! id) (effect e).
Proof. intros w. reflexivity. Qed.

#[local] Hint Extern 2 (preserves (fun w => document w !! _) (update _ _)) =>
  apply keeps_update; discriminate : script.
#[local] Hint Resolve keeps_effect : script.

Section Frames.
Context `{Host}.
Variable env : Env.
Variable rev : Dashboard.Revision.
Variable token : option string.

Lemma keeps_call (id endpoint method : string) (data : js) :
  preserves (fun w => document w !! id)
            (Dashboard.makeApiCall env rev token endpoint method data false).
Proof.
  intros w. rewrite makeApiCall_plain. cbv zeta.
  destruct (server env _ _) as [|status json]; [reflexivity|].
  destruct (Dashboard.expired rev status); [reflexivity|].
  destruct json; reflexivity.
Qed.

Lemma keeps_loadMealStatsWithGoals (id : string) :
  id <> "caloriesCount" -> id <> "mealsCount" -> id <> "goalProgress" ->
  id <> "streakCount" ->
  preserves (fun w => document w !! id)
            (Dashboard.loadMealStatsWithGoals env rev token).
Proof.
  intros H1 H2 H3 H4.
  assert (Hu : forall id' g, In id' ["caloriesCount"; "mealsCount"; "goalProgress";
                                     "streakCount"] ->
                             preserves (fun w => document w !! id) (update id' g)).
  { intros id' g Hin. apply keeps_update. simpl in Hin.
    destruct Hin as [<-|[<-|[<-|[<-|[]]]]]; congruence. }
  unfold Dashboard.loadMealStatsWithGoals, Dashboard.caught, Dashboard.get,
         Dashboard.showStats, Dashboard.goalProgress.
  repeat first
    [ progress intros
    | apply keeps_call
    | apply preserves_bind
    | apply preserves_try_catch
    | apply Hu; simpl; tauto
    | solve [auto with script]
    | match goal with
      | |- preserves _ (match ?x with _ => _ end) => destruct x
      | |- preserves _ (if ?b then _ else _) => destruct b
      | |- preserves _ (let (_, _) := ?p in _) => destruct p
      end ].
Qed.

Lemma keeps_loadTodaysMeals (id : string) :
  id <> "recentMeals" ->
  preserves (fun w => document w !! id) (Dashboard.loadTodaysMeals env rev token).
Proof.
  intros H1.
  assert (Hu : forall g, preserves (fun w => document w !! id)
                                   (update "recentMeals" g)).
  { intros g. apply keeps_update. congruence. }
  unfold Dashboard.loadTodaysMeals, Dashboard.get, Dashboard.displayMeals,
         Dashboard.mealItem.
  repeat first
    [ progress intros
    | apply keeps_call
    | apply preserves_bind
    | apply preserves_try_catch
    | apply preserves_mapM
    | apply Hu
    | solve [auto with script]
    | match goal with
      | |- preserves _ (match ?x with _ => _ end) => destruct x
      | |- preserves _ (if ?b then _ else _) => destruct b
      | |- preserves _ (let (_, _) := ?p in _) => destruct p
      end ].
Qed.
End Frames.

Lemma bind_effect {B} (e : Effect) (k : unit -> M B) (w : World) :
  bind (effect e) k w = k tt (log e w).
Proof. reflexivity. Qed.

Lemma bind_read_value {B} (id s : string) (k : string -> M B) (w : World) :
  field_value id w = Some s -> bind (Dashboard.read_value id) k w = k s w.
Proof. intros E. unfold bind. rewrite (read_value_field id s w E). reflexivity. Qed.

Section AddMeal.
Context `{Host}.
Variable env : Env.
Variable rev : Dashboard.Revision.
Variable token : option string.




(** X11: a 2xx answer to the add-meal request.  The form shows the
    success message, the search box and the two hidden fields are
    emptied, the statistics and today's meals are fetched again (after
    the POST, and nothing else is sent), and the closing of the dialog
    is scheduled for two seconds later. *)
Theorem addMealForm_submit_success (entries : list (string * string))
    (selectedFood data result : js) (status : nat) (w : World) :
  is_Some (document w !! "mealMessage") ->
  is_Some (document w !! "foodSearch") ->
  is_Some (document w !! "selectedFoodId") ->
  is_Some (document w !! "selectedFoodName") ->
  Dashboard.mealData entries selectedFood w = Done data w ->
  server env (length (sent w)) (Dashboard.api_request env token "/meal/add" "POST" data)
    = Response status (Some result) ->
  ok status = true ->
  exists w' : World,
    Dashboard.addMealForm_submit env rev token entries selectedFood w = Done tt w' /\
    shown_text "mealMessage" w' = Some "Meal added successfully!" /\
    field_value "foodSearch" w' = Some "" /\
    field_value "selectedFoodId" w' = Some "" /\
    field_value "selectedFoodName" w' = Some "" /\
    sent w' = (sent w ++ Dashboard.api_request env token "/meal/add" "POST" data
                 :: Dashboard.refresh_requests env token)%list /\
    In (SetTimeout CbCloseModal 2000) (trace w').
Proof.
  intros [em Hm] [es Hs] [ei Hi] [en Hn] Hdata Hans Hok.
  unfold Dashboard.addMealForm_submit.
  rewrite (world_of_bind _ _ _ _ _ Hdata).
  pose proof (proj1 (call_cases env rev token "/meal/add" "POST" data w)
                status result Hans Hok) as Hcall.
  set (r := Dashboard.api_request env token "/meal/add" "POST" data) in *.
  rewrite (try_catch_bind_done _ _ _ _ _ _ Hcall). cbv beta iota. rewrite Hok.
  unfold try_catch.
  do 2 run_update. run_effect. do 3 run_update. cbv beta.
  match goal with
  | |- context [bind (Dashboard.loadMealStatsWithGoals _ _ _) _ ?x] => set (w5 := x)
  end.
  destruct (loadMealStatsWithGoals_sent env rev token w5) as (w6 & E6 & S6).
  run_known E6.
  destruct (loadTodaysMeals_sent env rev token w6) as (w7 & E7 & S7).
  run_known E7. unfold effect. simpl.
  assert (Hkeep : forall id : string,
            id <> "caloriesCount" -> id <> "mealsCount" -> id <> "goalProgress" ->
            id <> "streakCount" -> id <> "recentMeals" ->
            document w7 !! id = document w5 !! id).
  { intros id H1 H2 H3 H4 H5.
    pose proof (keeps_loadTodaysMeals env rev token id H5 w6) as K7.
    pose proof (keeps_loadMealStatsWithGoals env rev token id H1 H2 H3 H4 w5) as K6.
    rewrite E7 in K7. rewrite E6 in K6. exact (eq_trans K7 K6). }
  eexists. split; [reflexivity|].
  unfold shown_text, field_value. simpl.
  rewrite !Hkeep by discriminate.
  split; [subst w5; read_doc|]. split; [subst w5; read_doc|].
  split; [subst w5; read_doc|]. split; [subst w5; read_doc|].
  split.
  - rewrite sent_log. simpl. rewrite app_nil_r, S7, S6.
    assert (S5 : sent w5 = (sent w ++ [r])%list).
    { change (sent w5)
        with (sent (log (FormReset "addMealForm") (log (Fetch r) w))).
      rewrite !sent_log. simpl. apply app_nil_r. }
    rewrite S5, <- !app_assoc. reflexivity.
  - apply in_or_app. right. left. reflexivity.
Qed.
End AddMeal.


(** X11 at a concrete submission: four requests in all. *)
Lemma addMealForm_submit_success_witness :
  exists w' : World,
    Dashboard.addMealForm_submit (H:=Sample.host) Sample.env_ok Dashboard.Part003
      (Some "jwt") Sample.meal_entries VNull Sample.typed = Done tt w' /\
    shown_text "mealMessage" w' = Some "Meal added successfully!" /\
    field_value "foodSearch" w' = Some "" /\
    length (sent w') = 4%nat.
Proof.
  destruct (addMealForm_submit_success (H:=Sample.host) Sample.env_ok
              Dashboard.Part003 (Some "jwt") Sample.meal_entries VNull
              (VObj [ ("mealType", VStr "lunch"); ("quantity", VStr "1");
                      ("foodName", VStr "Banana"); ("calories", VNum 0) ])
              (VObj [("message", VStr "ok")]) 200%nat Sample.typed
              ltac:(eexists; vm_compute; reflexivity)
              ltac:(eexists; vm_compute; reflexivity)
              ltac:(eexists; vm_compute; reflexivity)
              ltac:(eexists; vm_compute; reflexivity)
              eq_refl eq_refl eq_refl)
    as (w' & E & Hm & Hs & _ & _ & Hsent & _).
  exists w'. split; [exact E|]. split; [exact Hm|]. split; [exact Hs|].
  rewrite Hsent. reflexivity.
Defined.

Section CloseModal.
Context `{Host}.

(** X12: [closeModal] hides the dialog and the preview, clears the
    message, the suggestions and the two hidden fields, and resets the
    selected food to [null]; it leaves the text of the search box, so a
    submission after it posts that text as a manually entered food with
    0 calories. *)
Theorem closeModal_resets (entries : list (string * string)) (typed : string)
    (w : World) :
  is_Some (document w !! "addMealModal") ->
  is_Some (document w !! "mealMessage") ->
  is_Some (document w !! "foodSuggestions") ->
  is_Some (document w !! "nutritionPreview") ->
  is_Some (document w !! "selectedFoodId") ->
  is_Some (document w !! "selectedFoodName") ->
  field_value "foodSearch" w = Some typed ->
  exists w' : World,
    Dashboard.closeModal w = Done VNull w' /\
    display <$> (document w' !! "addMealModal") = Some "none" /\
    display <$> (document w' !! "nutritionPreview") = Some "none" /\
    shown_text "mealMessage" w' = Some "" /\
    innerHTML <$> (document w' !! "foodSuggestions") = Some "" /\
    field_value "selectedFoodId" w' = Some "" /\
    field_value "selectedFoodName" w' = Some "" /\
    field_value "foodSearch" w' = Some typed /\
    localStorage w' = localStorage w /\ trace w' = trace w /\
    forall selectedFood : js,
      Dashboard.mealData entries selectedFood w'
      = Done (VObj [ ("mealType", form_get "mealType" entries);
                     ("quantity", form_get "quantity" entries);
                     ("foodName", VStr typed); ("calories", VNum 0) ]) w'.
Proof.
  intros [e1 H1] [e2 H2] [e3 H3] [e4 H4] [e5 H5] [e6 H6] Ht.
  unfold field_value in Ht.
  destruct (document w !! "foodSearch") as [es|] eqn:Es; [|discriminate].
  unfold Dashboard.closeModal. do 6 run_update. cbv beta.
  eexists. split; [reflexivity|].
  repeat split; try solve [read_doc | read_doc; rewrite Es; exact Ht].
  intros selectedFood. unfold Dashboard.mealData. cbv zeta.
  rewrite (bind_read_value "selectedFoodName" ""), (bind_read_value "selectedFoodId" "")
    by read_doc.
  cbn [String.eqb negb andb].
  rewrite (bind_read_value "foodSearch" typed) by (read_doc; rewrite Es; exact Ht).
  reflexivity.
Qed.
End CloseModal.

(** X12 at a concrete page: "Banana" stays in the search box. *)
Lemma closeModal_resets_witness :
  exists w' : World,
    Dashboard.closeModal Sample.typed = Done VNull w' /\
    field_value "foodSearch" w' = Some "Banana" /\
    Dashboard.mealData (H:=Sample.host) Sample.meal_entries Sample.apple w'
    = Done (VObj [ ("mealType", VStr "lunch"); ("quantity", VStr "1");
                   ("foodName", VStr "Banana"); ("calories", VNum 0) ]) w'.
Proof.
  destruct (closeModal_resets (H:=Sample.host) Sample.meal_entries "Banana"
              Sample.typed
              ltac:(eexists; vm_compute; reflexivity)
              ltac:(eexists; vm_compute; reflexivity)
              ltac:(eexists; vm_compute; reflexivity)
              ltac:(eexists; vm_compute; reflexivity)
              ltac:(eexists; vm_compute; reflexivity)
              ltac:(eexists; vm_compute; reflexivity)
              eq_refl)
    as (w' & E & _ & _ & _ & _ & _ & _ & Hs & _ & _ & Hdata).
  exists w'. split; [exact E|]. split; [exact Hs|]. exact (Hdata Sample.apple).
Defined.

(** ** Form data *)





Section Profile.
Context `{Host}.
Variable env : Env.
Variable rev : Dashboard.Revision.
Variable token : option string.


(** X15: with no required field missing, [saveProfile] posts the
    collected data once.  (a) When no 2xx answer arrives the message
    is an error message and nothing else is sent.  (b) After a 2xx
    answer with a [profile], the success message and the goals of that
    profile are shown and the statistics are fetched again.  (c) After
    a 2xx answer without a [profile] the message is 'Error saving
    profile. Please try again.' and nothing else is sent. *)
Theorem saveProfile_posts (personal goals : list (string * string)) (w : World) :
  goals_on_page w ->
  Dashboard.missingFields (Dashboard.profileData personal goals) = [] ->
  let r := Dashboard.api_request env token "/profile" "POST"
             (VObj (Dashboard.profileData personal goals)) in
  let answer := server env (length (sent w)) r in
  let run := Dashboard.saveProfile env rev token personal goals w in
  (succeeded answer = false ->
   exists w' : World,
     run = Done tt w' /\
     className <$> (document w' !! "profileMessage") = Some "message error" /\
     sent w' = (sent w ++ [r])%list) /\
  (forall (status : nat) (result profile : js),
     answer = Response status (Some result) -> ok status = true ->
     get_prop result "profile" = inr profile ->
     (nullish profile = false ->
      exists w' : World,
        run = Done tt w' /\
        shown_text "profileMessage" w' = Some Dashboard.saved_successfully /\
        (forall v, get_prop profile "dailyCalories" = inr v ->
                   shown_text "dailyCalories" w' = Some (text_of v)) /\
        sent w' = (sent w ++ [r; Dashboard.get_request env token "/meals/stats";
                              Dashboard.get_request env token "/profile"])%list) /\
     (nullish profile = true ->
      exists w' : World,
        run = Done tt w' /\
        shown_text "profileMessage" w'
        = Some "Error saving profile. Please try again." /\
        sent w' = (sent w ++ [r])%list)).
Proof.
  intros (Hm & Hc & Hp & Hb & Hf & Hg) Hnone r answer run. subst run.
  destruct Hm as [em Hm], Hc as [ec Hc], Hp as [ep Hp], Hb as [eb Hb],
           Hf as [ef Hf], Hg as [eg Hg].
  unfold Dashboard.saveProfile. cbv zeta. rewrite Hnone. fold r.
  pose proof (call_cases env rev token "/profile" "POST"
                (VObj (Dashboard.profileData personal goals)) w) as Hcases.
  cbv zeta in Hcases. fold r in Hcases. fold answer in Hcases.
  destruct Hcases as [Hgood Hbad].
  split.
  - intros Hfail.
    destruct (Hbad Hfail) as (w1 & Hdoc & Hsent & [[x Hx]|(status & res & Hres & Hok)]).
    + rewrite (try_catch_bind_thrown _ _ _ _ _ _ Hx).
      assert (exists y, document w1 !! "profileMessage" = Some y) as [e1 E1]
        by (rewrite Hdoc; eauto).
      rewrite (bind_update _ _ _ _ _ E1).
      match goal with
      | |- context [update "profileMessage" ?g ?x] =>
          assert (exists y, document x !! "profileMessage" = Some y) as [e2 E2]
            by present_in_doc;
          unfold update; rewrite E2;
          simpl in E2; rewrite lookup_insert_eq in E2; injection E2 as <-
      end.
      eexists. split; [reflexivity|]. split; [read_doc|exact Hsent].
    + rewrite (try_catch_bind_done _ _ _ _ _ _ Hres). cbv beta iota. rewrite Hok.
      assert (exists y, document w1 !! "profileMessage" = Some y) as [e1 E1]
        by (rewrite Hdoc; eauto).
      unfold try_catch at 1. rewrite (bind_update _ _ _ _ _ E1).
      set (w2 := with_document _ w1).
      assert (E2 : document w2 !! "profileMessage"
                   = Some (set_className "message error" e1))
        by (subst w2; simpl; apply lookup_insert_eq).
      destruct (get_prop res "error") as [x|err].
      * unfold bind at 1. simpl. rewrite (bind_update _ _ _ _ _ E2).
        unfold update. simpl. rewrite lookup_insert_eq.
        eexists. split; [reflexivity|]. split; [read_doc|exact Hsent].
      * rewrite bind_lift_inr. unfold update. rewrite E2.
        eexists. split; [reflexivity|]. split; [read_doc|exact Hsent].
  - intros status result profile Hans Hok Hprof.
    rewrite (try_catch_bind_done _ _ _ _ _ _ (Hgood status result Hans Hok)).
    cbv beta iota. rewrite Hok.
    assert (Hsent1 : sent (log (Fetch r) w) = (sent w ++ [r])%list) by apply sent_log.
    split.
    + intros Nn.
      destruct (get_prop_defined profile "dailyCalories" Nn) as [v1 E1].
      destruct (get_prop_defined profile "dailyProtein" Nn) as [v2 E2].
      destruct (get_prop_defined profile "dailyCarbs" Nn) as [v3 E3].
      destruct (get_prop_defined profile "dailyFat" Nn) as [v4 E4].
      unfold try_catch at 1. do 2 run_update.
      rewrite Hprof, bind_lift_inr.
      unfold Dashboard.displayCalculatedGoals, Dashboard.updateDashboardGoals.
      rewrite E1, E2, E3, E4.
      repeat first [ reassociate | rewrite bind_lift_inr | run_update | run_effect ].
      match goal with
      | |- context [Dashboard.loadMealStatsWithGoals _ _ _ ?x] => set (w5 := x)
      end.
      destruct (loadMealStatsWithGoals_sent env rev token w5) as (w6 & E6 & S6).
      rewrite E6. exists w6. split; [reflexivity|].
      assert (Hkeep : forall id : string,
                id <> "caloriesCount" -> id <> "mealsCount" ->
                id <> "goalProgress" -> id <> "streakCount" ->
                document w6 !! id = document w5 !! id).
      { intros id H1 H2 H3 H4.
        pose proof (keeps_loadMealStatsWithGoals env rev token id H1 H2 H3 H4 w5) as K6.
        rewrite E6 in K6. exact K6. }
      unfold shown_text. rewrite !Hkeep by discriminate.
      split; [subst w5; read_doc|]. split.
      * intros v Hv. assert (v = v1) as -> by congruence. subst w5. read_doc.
      * rewrite S6.
        change (sent w5)
          with (sent (log (ScrollIntoView "calculatedGoals") (log (Fetch r) w))).
        rewrite !sent_log. simpl. rewrite app_nil_r, <- app_assoc. reflexivity.
    + intros Nn.
      unfold try_catch at 1. do 2 run_update.
      rewrite Hprof, bind_lift_inr.
      unfold Dashboard.displayCalculatedGoals.
      assert (Hthrow : get_prop profile "dailyCalories" = inl TypeError)
        by (destruct profile; try discriminate; reflexivity).
      rewrite Hthrow.
      match goal with
      | |- context [match ?m ?x with Done _ _ => _ | Thrown _ _ => _ end] =>
          assert (Hrun : m x = Thrown TypeError x) by reflexivity; rewrite Hrun
      end.
      run_update.
      match goal with
      | |- context [update "profileMessage" ?g ?x] =>
          assert (exists y, document x !! "profileMessage" = Some y) as [e3 E3]
            by present_in_doc;
          unfold update; rewrite E3
      end.
      eexists. split; [reflexivity|]. split; [read_doc|exact Hsent1].
Qed.
End Profile.


(** X15 at a concrete form: the saved profile plans 1800 kcal. *)
Lemma saveProfile_posts_witness :
  exists w' : World,
    Dashboard.saveProfile (H:=Sample.host) Sample.env_saved Dashboard.Part003
      (Some "jwt") Sample.personal_entries Sample.goals_entries Sample.dashboard
      = Done tt w' /\
    shown_text "dailyCalories" w' = Some "1800" /\
    length (sent w') = 3%nat.
Proof.
  assert (Hpage : goals_on_page Sample.dashboard)
    by (repeat split; eexists; vm_compute; reflexivity).
  destruct (proj1 (proj2 (saveProfile_posts (H:=Sample.host) Sample.env_saved
                            Dashboard.Part003 (Some "jwt") Sample.personal_entries
                            Sample.goals_entries Sample.dashboard Hpage eq_refl)
                     200%nat (VObj [("profile", Sample.profile)]) Sample.profile
                     eq_refl eq_refl eq_refl)
              eq_refl) as (w' & E & _ & Hc & Hs).
  exists w'. split; [exact E|]. split; [exact (Hc _ eq_refl)|].
  rewrite Hs. reflexivity.
Defined.

(** ** Dashboard: charts are never leaked *)

Lemma lookup_killed (h i : nat) (cs : list ChartInstance) (c : ChartInstance) :
  alter (fun c => {| canvas := canvas c; kind := kind c; live := false |}) h cs !! i
    = Some c ->
  live c = true -> i <> h /\ cs !! i = Some c.
Proof.
  intros Hi Hl. destruct (decide (i = h)) as [->|Hne].
  - rewrite list_lookup_alter_eq in Hi.
    destruct (cs !! h) as [c0|]; simpl in Hi; [|discriminate].
    injection Hi as <-. discriminate Hl.
  - rewrite list_lookup_alter_ne in Hi by congruence. auto.
Qed.

Lemma lookup_added (cs : list ChartInstance) (n c : ChartInstance) (i : nat) :
  (cs ++ [n])%list !! i = Some c ->
  cs !! i = Some c \/ (i = length cs /\ c = n).
Proof.
  intros Hi. apply lookup_app_Some in Hi. destruct Hi as [Hi|[Hle Hi]]; [auto|].
  right. destruct (i - length cs)%nat as [|k] eqn:Ek; simpl in Hi; [|discriminate].
  injection Hi as <-. split; [lia|reflexivity].
Qed.

Lemma tidy_state (w w' : World) :
  chart_state w' = chart_state w -> charts_tidy w -> charts_tidy w'.
Proof.
  unfold chart_state, charts_tidy, no_leak. intros [= Ec Em Ek].
  rewrite Ec, Em, Ek. auto.
Qed.

Lemma keeps_tidy_preserves {A} (m : M A) : preserves chart_state m -> keeps_tidy m.
Proof. intros Hp w. apply tidy_state. apply Hp. Qed.

Lemma keeps_tidy_bind {A B} (m : M A) (k : A -> M B) :
  keeps_tidy m -> (forall a, keeps_tidy (k a)) -> keeps_tidy (bind m k).
Proof.
  intros Hm Hk w Hw. unfold bind. specialize (Hm w Hw).
  destruct (m w) as [a w'|e w']; simpl in *; [apply Hk; exact Hm|exact Hm].
Qed.

(** Traces a rendered chart back through added and destroyed charts
    and closes the goal with the invariants [Hm] and [Hc]. *)
Ltac chart_lookup :=
  repeat match goal with
         | Hi : (_ ++ [_])%list !! _ = Some _ |- _ =>
             let Hi' := fresh "Hi" in
             destruct (lookup_added _ _ _ _ Hi) as [Hi'|[-> ->]]; clear Hi
         | Hi : alter _ _ _ !! _ = Some _, Hl : live _ = true |- _ =>
             let Hi' := fresh "Hi" in
             let Hne := fresh "Hne" in
             destruct (lookup_killed _ _ _ _ Hi Hl) as [Hne Hi']; clear Hi
         end.

Ltac use_tidy Hm Hc :=
  simpl in *; chart_lookup; simpl in *;
  try discriminate; try reflexivity;
  try (rewrite length_alter; reflexivity);
  try (match goal with
       | Hi : charts _ !! ?i = Some ?c, Hv : canvas ?c = _, Hl : live ?c = true |- _ =>
           first [ pose proof (Hm i c Hi Hv Hl) | pose proof (Hc i c Hi Hv Hl) ]
       end; congruence).

Section Tidy.
Context `{Host}.

Lemma keeps_tidy_createMacrosChart (protein carbs fat : js) :
  keeps_tidy (Dashboard.createMacrosChart protein carbs fat).
Proof.
  intros w [Hm Hc].
  unfold Dashboard.createMacrosChart, Dashboard.getContext, Dashboard.destroy,
         Dashboard.new_Chart.
  unfold_script.
  destruct (document w !! "macrosChart"); [|split; assumption].
  destruct (macrosChart w) as [h|] eqn:Eh; simpl;
    destruct (Dashboard.is_zero _); simpl; split; intros i c Hi Hv Hl;
    use_tidy Hm Hc.
Qed.

Lemma mapM_calories (days : list js) (w : World) :
  (exists cal, Dashboard.mapM (fun day => lift (get_prop day "calories")) days w
               = Done cal w) \/
  (exists e, Dashboard.mapM (fun day => lift (get_prop day "calories")) days w
             = Thrown e w).
Proof.
  induction days as [|d days IH]; simpl.
  - left. eexists. reflexivity.
  - unfold bind. destruct (get_prop d "calories") as [e|v]; simpl.
    + right. eexists. reflexivity.
    + destruct IH as [[cal ->]|[e ->]]; [left|right]; eexists; reflexivity.
Qed.

Lemma keeps_tidy_createCaloriesChart (dailyData : js) :
  keeps_tidy (Dashboard.createCaloriesChart dailyData).
Proof.
  intros w [Hm Hc].
  unfold Dashboard.createCaloriesChart, Dashboard.getContext, Dashboard.destroy,
         Dashboard.new_Chart.
  unfold bind at 1. unfold bind at 1.
  destruct (document w !! "caloriesChart"); [|split; assumption].
  unfold bind at 1. unfold bind at 1.
  destruct (caloriesChart w) as [h|] eqn:Eh; cbv beta iota;
    (unfold bind at 1;
     destruct (Dashboard.own_values dailyData) as [x|days]; simpl;
     [split; intros i c Hi Hv Hl; use_tidy Hm Hc|]);
    (unfold bind at 1;
     match goal with
     | |- context [Dashboard.mapM ?f days ?x] =>
         let cal := fresh "cal" in
         let err := fresh "err" in
         destruct (mapM_calories days x) as [[cal ->]|[err ->]]
     end; simpl;
     [|split; intros i c Hi Hv Hl; use_tidy Hm Hc]);
    destruct days as [|d days]; simpl;
    split; intros i c Hi Hv Hl; use_tidy Hm Hc.
Qed.

Lemma keeps_tidy_closeAnalysisModal : keeps_tidy Dashboard.closeAnalysisModal.
Proof.
  intros w [Hm Hc].
  unfold Dashboard.closeAnalysisModal, Dashboard.destroy. unfold_script.
  destruct (document w !! "analysisModal"); [|split; assumption]. simpl.
  destruct (macrosChart w) as [h|] eqn:Eh, (caloriesChart w) as [h'|] eqn:Eh';
    simpl; rewrite ?Eh'; simpl;
    split; intros i c Hi Hv Hl; use_tidy Hm Hc.
Qed.

Lemma chart_state_update (id : string) (g : Element -> Element) :
  preserves chart_state (update id g).
Proof. apply preserves_update. reflexivity. Qed.

Lemma keeps_tidy_displayAnalysisData (data : js) :
  keeps_tidy (Dashboard.displayAnalysisData data).
Proof.
  unfold Dashboard.displayAnalysisData, Dashboard.showRecommendations.
  repeat first
    [ progress intros
    | apply keeps_tidy_createMacrosChart
    | apply keeps_tidy_createCaloriesChart
    | apply keeps_tidy_bind
    | apply keeps_tidy_preserves; preserve ].
Qed.

(** X16: however [createMacrosChart], [createCaloriesChart],
    [displayAnalysisData] and [closeAnalysisModal] are called, and
    however the calls end, a chart stays rendered on a canvas only
    while the script holds its handle: on each of the two canvases at
    most one chart is rendered. *)
Theorem charts_never_leak (ops : list ChartOp) (w : World) :
  charts_tidy w ->
  let w' := chart_ops ops w in
  charts_tidy w' /\
  forall (canvasId : string) (i j : nat) (c d : ChartInstance),
    canvasId = "macrosChart" \/ canvasId = "caloriesChart" ->
    charts w' !! i = Some c -> charts w' !! j = Some d ->
    canvas c = canvasId -> canvas d = canvasId ->
    live c = true -> live d = true -> i = j.
Proof.
  intros Hw w'. subst w'.
  assert (Htidy : charts_tidy (chart_ops ops w)).
  { revert w Hw. unfold chart_ops.
    induction ops as [|op ops IH]; intros w Hw; simpl; [exact Hw|].
    apply IH. destruct op; simpl.
    - apply keeps_tidy_createMacrosChart, Hw.
    - apply keeps_tidy_createCaloriesChart, Hw.
    - apply keeps_tidy_displayAnalysisData, Hw.
    - apply keeps_tidy_closeAnalysisModal, Hw. }
  split; [exact Htidy|].
  intros canvasId i j c d Hcv Hi Hj Hc Hd Hlc Hld.
  destruct Htidy as [Hm Hk].
  destruct Hcv as [-> | ->].
  - pose proof (Hm i c Hi Hc Hlc). pose proof (Hm j d Hj Hd Hld). congruence.
  - pose proof (Hk i c Hi Hc Hlc). pose proof (Hk j d Hj Hd Hld). congruence.
Qed.




End Tidy.

(** X16 at a concrete page: four calls, the third of which throws
    after destroying the chart it held. *)
Lemma charts_never_leak_witness :
  charts_tidy Sample.dashboard /\
  charts_tidy
    (chart_ops (H:=Sample.host)
       [ DrawMacros (VNum 30) (VNum 50) (VNum 20);
         DrawAnalysis Sample.analysis;
         DrawCalories VNull;
         CloseAnalysis ]
       Sample.dashboard).
Proof.
  assert (Ht : charts_tidy Sample.dashboard)
    by (split; intros i c Hi; destruct i; discriminate Hi).
  split; [exact Ht|].
  exact (proj1 (charts_never_leak (H:=Sample.host) _ _ Ht)).
Defined.


(** ** Dashboard: opening the nutrition analysis *)

Lemma keeps_tidy_try_catch {A} (m : M A) (h : Exn -> M A) :
  keeps_tidy m -> (forall e, keeps_tidy (h e)) -> keeps_tidy (try_catch m h).
Proof.
  intros Hm Hh w Hw. unfold try_catch. specialize (Hm w Hw).
  destruct (m w) as [a w'|e w']; simpl in *; [exact Hm|apply Hh; exact Hm].
Qed.

Lemma detached_done (m : M unit) (w : World) :
  detached m w = Done tt (world_of (m w)).
Proof. unfold detached, try_catch, ret. destruct (m w) as [[] w'|e w']; reflexivity. Qed.

Section Analysis.
Context `{Host}.
Variable env : Env.
Variable rev : Dashboard.Revision.
Variable token : option string.

Lemma state_call (endpoint method : string) (data : js) :
  preserves chart_state
            (Dashboard.makeApiCall env rev token endpoint method data false).
Proof.
  intros w. rewrite makeApiCall_plain. cbv zeta.
  destruct (server env _ _) as [|status json]; [reflexivity|].
  destruct (Dashboard.expired rev status); [reflexivity|].
  destruct json; reflexivity.
Qed.

Lemma keeps_createMacrosChart (id : string) (protein carbs fat : js) :
  preserves (fun w => document w !! id)
            (Dashboard.createMacrosChart protein carbs fat).
Proof.
  intros w.
  unfold Dashboard.createMacrosChart, Dashboard.getContext, Dashboard.destroy,
         Dashboard.new_Chart.
  unfold_script.
  destruct (document w !! "macrosChart"); [|reflexivity].
  destruct (macrosChart w); simpl; destruct (Dashboard.is_zero _); reflexivity.
Qed.

Lemma keeps_createCaloriesChart (id : string) (dailyData : js) :
  preserves (fun w => document w !! id) (Dashboard.createCaloriesChart dailyData).
Proof.
  unfold Dashboard.createCaloriesChart.
  preserve;
    try (intros w; unfold Dashboard.getContext, Dashboard.destroy, Dashboard.new_Chart;
         simpl; try destruct (document w !! "caloriesChart"); reflexivity).
Qed.

Lemma keeps_displayAnalysisData (id : string) (data : js) :
  id <> "totalCaloriesAnalysis" -> id <> "avgCaloriesAnalysis" ->
  id <> "totalMealsAnalysis" -> id <> "recommendationsList" ->
  preserves (fun w => document w !! id) (Dashboard.displayAnalysisData data).
Proof.
  intros N1 N2 N3 N4.
  unfold Dashboard.displayAnalysisData, Dashboard.showRecommendations.
  repeat first
    [ progress intros
    | apply keeps_createMacrosChart
    | apply keeps_createCaloriesChart
    | apply preserves_bind
    | apply keeps_update; congruence
    | solve [auto with script]
    | match goal with
      | |- preserves _ (match ?x with _ => _ end) => destruct x
      | |- preserves _ (if ?b then _ else _) => destruct b
      end ].
Qed.

Lemma keeps_loadAnalysis (id : string) :
  id <> "totalCaloriesAnalysis" -> id <> "avgCaloriesAnalysis" ->
  id <> "totalMealsAnalysis" -> id <> "recommendationsList" ->
  preserves (fun w => document w !! id) (Dashboard.loadAnalysis env rev token).
Proof.
  intros N1 N2 N3 N4. unfold Dashboard.loadAnalysis, Dashboard.get.
  repeat first
    [ progress intros
    | apply keeps_call
    | apply keeps_displayAnalysisData; assumption
    | apply preserves_bind
    | apply preserves_try_catch
    | solve [auto with script]
    | match goal with
      | |- preserves _ (if ?b then _ else _) => destruct b
      | |- preserves _ (let (_, _) := ?p in _) => destruct p
      end ].
Qed.

Lemma keeps_tidy_loadAnalysis : keeps_tidy (Dashboard.loadAnalysis env rev token).
Proof.
  unfold Dashboard.loadAnalysis, Dashboard.get.
  repeat first
    [ progress intros
    | apply keeps_tidy_displayAnalysisData
    | apply keeps_tidy_preserves; apply state_call
    | apply keeps_tidy_bind
    | apply keeps_tidy_try_catch
    | apply keeps_tidy_preserves; solve [preserve]
    | match goal with
      | |- keeps_tidy (if ?b then _ else _) => destruct b
      | |- keeps_tidy (let (_, _) := ?p in _) => destruct p
      end ].
Qed.

(** X18: with the analysis modal on the page, [showNutritionAnalysis]
    returns normally and leaves the modal open, however the loading of
    the analysis ends; the charts stay tidy; and when the period filter
    is missing nothing but the opening happens: no request is sent. *)
Theorem showNutritionAnalysis_opens (e : Element) (w : World) :
  document w !! "analysisModal" = Some e ->
  exists w' : World,
    Dashboard.showNutritionAnalysis env rev token w = Done tt w' /\
    document w' !! "analysisModal" = Some (set_display "block" e) /\
    (charts_tidy w -> charts_tidy w') /\
    (document w !! "periodFilter" = None ->
     w' = with_document (<["analysisModal" := set_display "block" e]> (document w)) w).
Proof.
  intros He. unfold Dashboard.showNutritionAnalysis.
  rewrite (bind_update _ _ _ _ _ He). rewrite detached_done.
  eexists. split; [reflexivity|].
  set (w1 := with_document _ w).
  split; [|split].
  - rewrite (keeps_loadAnalysis "analysisModal") by discriminate.
    subst w1. simpl. apply lookup_insert_eq.
  - intros Ht. apply keeps_tidy_loadAnalysis. exact Ht.
  - intros Hp. unfold Dashboard.loadAnalysis, Dashboard.read_value, bind.
    assert (E : document w1 !! "periodFilter" = None)
      by (subst w1; simpl; rewrite lookup_insert_ne by discriminate; exact Hp).
    rewrite E. reflexivity.
Qed.
End Analysis.

(** X18 at a concrete page, the server answering with an analysis. *)
Lemma showNutritionAnalysis_opens_witness :
  exists w' : World,
    Dashboard.showNutritionAnalysis (H:=Sample.host)
      (Sample.env_with (Response 200 (Some Sample.analysis)) true)
      Dashboard.Part003 (Some "jwt") Sample.dashboard = Done tt w' /\
    display <$> (document w' !! "analysisModal") = Some "block".
Proof.
  destruct (showNutritionAnalysis_opens (H:=Sample.host)
              (Sample.env_with (Response 200 (Some Sample.analysis)) true)
              Dashboard.Part003 (Some "jwt") (Sample.element "") Sample.dashboard
              ltac:(vm_compute; reflexivity))
    as (w' & E & Hm & _).
  exists w'. split; [exact E|]. rewrite Hm. reflexivity.
Defined.

(** ** Registration on the first pages *)

Section Register.
Context `{Host}.
Variable env : Env.
Variable script : Standalone.Script.

End Register.


(** ** The sign-in modal *)

Lemma with_document_twice (d d' : gmap string Element) (w : World) :
  with_document d (with_document d' w) = with_document d w.
Proof. reflexivity. Qed.

(** Runs the writes of the modal functions. *)
Ltac run_modal Ha Hr Hl :=
  unfold Standalone.showRegister, Standalone.showLogin, Standalone.closeModal,
         bind, update;
  repeat (cbn beta iota delta [document with_document];
          first [ rewrite Ha | rewrite Hr | rewrite Hl
                | rewrite lookup_insert_eq
                | rewrite lookup_insert_ne by discriminate ]);
  cbn beta iota delta [document with_document];
  rewrite ?with_document_twice.

(** Two pages that agree on the three elements of the modal and are
    the same elsewhere. *)
Ltac same_page :=
  f_equal; f_equal; apply map_eq; intros i;
  destruct (decide (i = "authModal")) as [->|?];
    [lookup_doc; reflexivity|];
  destruct (decide (i = "registerSection")) as [->|?];
    [lookup_doc; reflexivity|];
  destruct (decide (i = "loginSection")) as [->|?];
    [lookup_doc; reflexivity|];
  rewrite !lookup_insert_ne by congruence; reflexivity.

(** X20: of [showRegister] and [showLogin] the last call decides what
    is shown: called right after the other, or after [closeModal],
    either gives the page it gives when called alone, with the modal
    open and exactly its own section displayed. *)
Theorem auth_modal_last_call (w : World) :
  is_Some (document w !! "authModal") ->
  is_Some (document w !! "registerSection") ->
  is_Some (document w !! "loginSection") ->
  (Standalone.showRegister >> Standalone.showLogin) w = Standalone.showLogin w /\
  (Standalone.showLogin >> Standalone.showRegister) w = Standalone.showRegister w /\
  (Standalone.closeModal >> Standalone.showLogin) w = Standalone.showLogin w /\
  (Standalone.closeModal >> Standalone.showRegister) w = Standalone.showRegister w /\
  (exists w' : World,
     Standalone.showLogin w = Done tt w' /\
     display <$> (document w' !! "authModal") = Some "block" /\
     display <$> (document w' !! "loginSection") = Some "block" /\
     display <$> (document w' !! "registerSection") = Some "none") /\
  exists w' : World,
    Standalone.showRegister w = Done tt w' /\
    display <$> (document w' !! "authModal") = Some "block" /\
    display <$> (document w' !! "registerSection") = Some "block" /\
    display <$> (document w' !! "loginSection") = Some "none".
Proof.
  intros [a Ha] [r Hr] [l Hl].
  split; [run_modal Ha Hr Hl; same_page|].
  split; [run_modal Ha Hr Hl; same_page|].
  split; [run_modal Ha Hr Hl; same_page|].
  split; [run_modal Ha Hr Hl; same_page|].
  split; run_modal Ha Hr Hl; eexists; (split; [reflexivity|]);
    cbn beta iota delta [document with_document]; lookup_doc; auto.
Qed.

(** X20 at a concrete page. *)
Lemma auth_modal_last_call_witness :
  (Standalone.showRegister >> Standalone.showLogin) Sample.dashboard
  = Standalone.showLogin Sample.dashboard.
Proof.
  exact (proj1 (auth_modal_last_call Sample.dashboard
                  ltac:(eexists; vm_compute; reflexivity)
                  ltac:(eexists; vm_compute; reflexivity)
                  ltac:(eexists; vm_compute; reflexivity))).
Defined.
